(** * LicenseEdictSDK: the license lifecycle engine, embedded in Rocq

    A shallow embedding of the Go package [licenseedict]: token verification
    (token.go), the validation engine (validate.go), renewal (renewal.go),
    the heartbeat sender (concurrency.go), the cache manager (cache.go), the
    HTTP wrapper (http.go), the options (options.go), the events
    (events.go) and the files that declare the errors, the License and the
    Client, with the properties of the specification stated on them.

    Conventions of the embedding
    - a Go [string] is a [string]; a [[]byte] is a [list byte];
    - [int], [int64] and [time.Duration] are [Z] restricted to the int64
      range, with wrap-around and saturation written out where the code or
      the library computes with them;
    - a [time.Time] is the instant it denotes, in nanoseconds since the zero
      time (January 1, year 1, 00:00:00 UTC);
    - a pointer result [*T] that may be nil is an [option T];
    - a Go [error] is a value of the inductive type [error];
    - the standard library and the operating system (base64, ed25519, JSON,
      files, HTTP) are the fields of the class [Platform];
    - what a method reads and writes besides the client (files, network,
      clock, started goroutines) is threaded through as a [World]. *)

From Stdlib Require Import ZArith List String Ascii Bool Lia.
From Stdlib Require Import Strings.Byte DecimalString.
Import ListNotations.

Open Scope string_scope.
Open Scope Z_scope.

Set Implicit Arguments.
Set Warnings "-register-all".


(** ** Go values *)

Definition bytes := list byte.

(** [s == ""] *)
Definition is_empty (s : string) : bool :=
  match s with
  | EmptyString => true
  | String _ _ => false
  end.

(** *** int64 and time.Duration *)

Definition minInt64 : Z := - 2 ^ 63.
Definition maxInt64 : Z := 2 ^ 63 - 1.

(** Two's complement wrap-around of an int64 result. *)
Definition wrap64 (z : Z) : Z := (z + 2 ^ 63) mod 2 ^ 64 - 2 ^ 63.

Definition Duration := Z.
Definition Nanosecond : Duration := 1.
Definition Second : Duration := 1000000000.
Definition Hour : Duration := 3600 * Second.

(** [a * b] on [time.Duration]. *)
Definition Duration_mul (a b : Duration) : Duration := wrap64 (a * b).

(** *** time.Time *)

Definition Time := Z.

Definition Time_IsZero (t : Time) : bool := t =? 0.
Definition Time_Before (t u : Time) : bool := t <? u.
Definition Time_After (t u : Time) : bool := u <? t.

(** [t.Sub(u)]: the difference, saturated at the extreme durations. *)
Definition Time_Sub (t u : Time) : Duration :=
  if t - u <? minInt64 then minInt64
  else if maxInt64 <? t - u then maxInt64
  else t - u.

(** [time.Until(t)] when the clock reads [now]. *)
Definition time_Until (now t : Time) : Duration := Time_Sub t now.

(** ** The errors *)

Inductive error : Type :=
| errors_New (text : string)
| ValidationError (Code Message : string) (Err : option error)
| fmt_Errorf (prefix : string) (cause : error)
| lib_error (text : string).

Definition LicenseDecodeError := "LICENSE_DECODE_ERROR".
Definition PubKeyDecodeError := "PUBKEY_DECODE_ERROR".
Definition InvalidLicenseSignature := "INVALID_LICENSE_SIGNATURE".
Definition LicenseNotValidBefore := "LICENSE_NOT_VALID_BEFORE".
Definition LicenseNotValidAfter := "LICENSE_NOT_VALID_AFTER".
Definition LicenseRevoked := "LICENSE_REVOKED".
Definition ServerUnreachable := "SERVER_UNREACHABLE".
Definition SeatLimitReached := "SEAT_LIMIT_REACHED".
Definition RenewalFailed := "RENEWAL_FAILED".

Definition ErrNoPublicKey := errors_New "licenseedict: no public key configured".
Definition ErrNoToken := errors_New "licenseedict: no signed token provided".
Definition ErrNoServerURL := errors_New "licenseedict: no server URL available".
Definition ErrClientClosed := errors_New "licenseedict: client is closed".
Definition ErrAlreadyRunning := errors_New "licenseedict: heartbeat already running".
Definition ErrNotRunning := errors_New "licenseedict: heartbeat not running".

(** The code of a [*ValidationError]; other errors carry none. *)
Definition error_Code (e : error) : option string :=
  match e with
  | ValidationError code _ _ => Some code
  | _ => None
  end.

(** [err.Error()] *)
Fixpoint error_Error (e : error) : string :=
  match e with
  | errors_New text => text
  | ValidationError code msg None => code ++ ": " ++ msg
  | ValidationError code msg (Some cause) =>
      code ++ ": " ++ msg ++ ": " ++ error_Error cause
  | fmt_Errorf prefix cause => prefix ++ ": " ++ error_Error cause
  | lib_error text => text
  end.

(** ** The token payload (token.go) and the License *)

Record tokenPayload := {
  p_LicenseID : string;
  p_ProductID : string;
  p_LicenseKey : string;
  p_Licensee : string;
  p_Plan : string;
  p_Features : option (list string);   (* None is the nil slice *)
  p_MaxSeats : Z;
  p_IssuedAt : Time;
  p_ExpiresAt : Time;
  p_ServerURL : string
}.

Record License := {
  Valid : bool;
  LicenseID : string;
  ProductID : string;
  LicenseKey : string;
  Licensee : string;
  Plan : string;
  Features : option (list string);
  MaxSeats : Z;
  IssuedAt : Time;
  ExpiresAt : Time;
  ServerURL : string;
  SignedToken : string
}.

(** [License{}] *)
Definition License_zero : License :=
  {| Valid := false; LicenseID := ""; ProductID := ""; LicenseKey := "";
     Licensee := ""; Plan := ""; Features := None; MaxSeats := 0;
     IssuedAt := 0; ExpiresAt := 0; ServerURL := ""; SignedToken := "" |}.

Definition set_Valid (v : bool) (l : License) : License :=
  {| Valid := v; LicenseID := LicenseID l; ProductID := ProductID l;
     LicenseKey := LicenseKey l; Licensee := Licensee l; Plan := Plan l;
     Features := Features l; MaxSeats := MaxSeats l; IssuedAt := IssuedAt l;
     ExpiresAt := ExpiresAt l; ServerURL := ServerURL l;
     SignedToken := SignedToken l |}.

(** ** events.go *)

Inductive EventType :=
| EventHeartbeatOK
| EventHeartbeatRejected
| EventHeartbeatError
| EventSeatReleased
| EventLicenseRenewed
| EventServerUnreachable.

Record HeartbeatStatus := {
  hs_Status : string;
  hs_ActiveSessions : Z;
  hs_MaxSessions : Z;
  hs_RemainingSessions : Z;
  hs_HeartbeatInterval : Z;
  hs_GracePeriod : Z;
  hs_LicenseID : string;
  hs_ProductID : string
}.

Definition HeartbeatStatus_zero : HeartbeatStatus :=
  {| hs_Status := ""; hs_ActiveSessions := 0; hs_MaxSessions := 0;
     hs_RemainingSessions := 0; hs_HeartbeatInterval := 0; hs_GracePeriod := 0;
     hs_LicenseID := ""; hs_ProductID := "" |}.

Record RenewalResult := {
  rr_Status : string;
  rr_SignedToken : string;
  rr_IssuedAt : string;
  rr_ExpiresAt : string;
  rr_PreviousExpiresAt : string
}.

Definition RenewalResult_zero : RenewalResult :=
  {| rr_Status := ""; rr_SignedToken := ""; rr_IssuedAt := "";
     rr_ExpiresAt := ""; rr_PreviousExpiresAt := "" |}.

(** The [Data interface{}] of an event holds nothing, a heartbeat status or a
    renewal result. *)
Inductive EventData :=
| DataNil
| DataHeartbeat (resp : HeartbeatStatus)
| DataRenewal (result : RenewalResult).

Record Event := {
  ev_Type : EventType;
  ev_Message : string;
  ev_Data : EventData
}.

(** ** The request bodies the client marshals *)

Inductive JSONValue :=
| JString (s : string)
| JObject (fields : list (string * string)).

Definition JSONBody := list (string * JSONValue).

Inductive Method := MethodPost | MethodDelete.

Record Request := {
  req_Method : Method;
  req_URL : string;
  req_Body : bytes;
  req_ContentType : string;
  req_UserAgent : string
}.

(** The part of a [*http.Client] the package sets. *)
Record http_Client := {
  Timeout : Duration
}.

(** An HTTP response: the status code and what [io.ReadAll] gives on its
    body. *)
Record Response := {
  resp_StatusCode : Z;
  resp_Body : bytes + error
}.

(** ** The platform: standard library and operating system

    None of these is code of the package; each field stands for the call of
    the same name.  [ed25519_Verify] is the call on a key of
    [ed25519.PublicKeySize] bytes. *)

Class Platform := {
  base64_StdEncoding_DecodeString : string -> bytes + error;
  ed25519_Verify : bytes -> bytes -> bytes -> bool;
  json_Unmarshal_tokenPayload : bytes -> tokenPayload + error;
  json_Marshal_License : License -> bytes + error;
  json_Unmarshal_License : bytes -> License + error;
  json_Marshal_body : JSONBody -> bytes + error;
  json_Unmarshal_RenewalResult : bytes -> RenewalResult + error;
  json_Unmarshal_HeartbeatStatus : bytes -> HeartbeatStatus + error;
  json_Unmarshal_status : bytes -> string + error;
  filepath_Join : list string -> string;
  xdg_CacheHome : string;
  os_TempDir : string;
  os_ErrNotExist : error;
  FS : Type;
  os_MkdirAll : string -> FS -> FS * option error;
  os_WriteFile : string -> bytes -> FS -> FS * option error;
  os_ReadFile : string -> FS -> bytes + error;
  Net : Type;
  http_NewRequest : Method -> string -> bytes -> unit + error;
  http_Client_Do : http_Client -> Request -> Net -> Net * (Response + error)
}.

Definition ed25519_SignatureSize : nat := 64.
Definition ed25519_PublicKeySize : nat := 32.

Section Token.
Context {P : Platform}.

(** [len(combined) <= ed25519.SignatureSize] *)
Definition too_short (combined : bytes) : bool :=
  Nat.leb (List.length combined) ed25519_SignatureSize.

(** verifyToken (token.go): the decoded payload, or the error. *)
Definition verifyToken (pubKey : bytes) (signedToken : string)
  : tokenPayload + error :=
  match base64_StdEncoding_DecodeString signedToken with
  | inr err =>
      inr (ValidationError LicenseDecodeError "failed to base64-decode token"
             (Some err))
  | inl combined =>
      if too_short combined then
        inr (ValidationError LicenseDecodeError "token too short" None)
      else
        let signature := firstn ed25519_SignatureSize combined in
        let payloadBytes := skipn ed25519_SignatureSize combined in
        if negb (ed25519_Verify pubKey payloadBytes signature) then
          inr (ValidationError InvalidLicenseSignature
                 "Ed25519 signature verification failed" None)
        else
          match json_Unmarshal_tokenPayload payloadBytes with
          | inr err =>
              inr (ValidationError LicenseDecodeError
                     "failed to decode token payload" (Some err))
          | inl payload => inl payload
          end
  end.

(** decodeTokenPayload (token.go): the payload without the signature check. *)
Definition decodeTokenPayload (signedToken : string) : tokenPayload + error :=
  match base64_StdEncoding_DecodeString signedToken with
  | inr err =>
      inr (ValidationError LicenseDecodeError "failed to base64-decode token"
             (Some err))
  | inl combined =>
      if too_short combined then
        inr (ValidationError LicenseDecodeError "token too short" None)
      else
        let payloadBytes := skipn ed25519_SignatureSize combined in
        match json_Unmarshal_tokenPayload payloadBytes with
        | inr err =>
            inr (ValidationError LicenseDecodeError
                   "failed to decode token payload" (Some err))
        | inl payload => inl payload
        end
  end.

(** DecodePublicKey (token.go) *)
Definition DecodePublicKey (encoded : string) : bytes + error :=
  match base64_StdEncoding_DecodeString encoded with
  | inr err =>
      inr (ValidationError PubKeyDecodeError
             "failed to base64-decode public key" (Some err))
  | inl decoded =>
      if negb (Nat.eqb (List.length decoded) ed25519_PublicKeySize) then
        inr (ValidationError PubKeyDecodeError "invalid public key length" None)
      else inl decoded
  end.

End Token.

(** payloadToLicense (token.go) *)
Definition payloadToLicense (p : tokenPayload) (signedToken : string)
  (valid : bool) : License :=
  let features :=
    match p_Features p with
    | None => Some []
    | Some f => Some f
    end in
  {| Valid := valid;
     LicenseID := p_LicenseID p;
     ProductID := p_ProductID p;
     LicenseKey := p_LicenseKey p;
     Licensee := p_Licensee p;
     Plan := p_Plan p;
     Features := features;
     MaxSeats := p_MaxSeats p;
     IssuedAt := p_IssuedAt p;
     ExpiresAt := p_ExpiresAt p;
     ServerURL := p_ServerURL p;
     SignedToken := signedToken |}.

(** ** cache.go *)

Record cacheManager := {
  dir : string;
  disabled : bool
}.

Definition cacheFileName := "license_cache.json".

Section Cache.
Context {P : Platform}.

Definition newCacheManager (appName appPublisher overrideDir : string)
  (disabled : bool) : cacheManager :=
  if disabled then {| dir := ""; disabled := true |}
  else
    let dir := overrideDir in
    let dir :=
      if is_empty dir && negb (is_empty appName)
      then filepath_Join [xdg_CacheHome; appPublisher; appName]
      else dir in
    let dir :=
      if is_empty dir then filepath_Join [os_TempDir; "licenseedict"]
      else dir in
    {| dir := dir; disabled := false |}.

(** cacheManager.save: the file system after the call and the error. *)
Definition cache_save (cm : cacheManager) (license : License) (fs : FS)
  : FS * option error :=
  if disabled cm || is_empty (dir cm) then (fs, None)
  else
    match os_MkdirAll (dir cm) fs with
    | (fs, Some err) => (fs, Some err)
    | (fs, None) =>
        match json_Marshal_License license with
        | inr err => (fs, Some err)
        | inl data =>
            os_WriteFile (filepath_Join [dir cm; cacheFileName]) data fs
        end
    end.

(** cacheManager.load: the license read ([&license, nil]) or the error
    ([nil, err]); the file system is only read. *)
Definition cache_load (cm : cacheManager) (fs : FS) : License + error :=
  if disabled cm || is_empty (dir cm) then inr os_ErrNotExist
  else
    match os_ReadFile (filepath_Join [dir cm; cacheFileName]) fs with
    | inr err => inr err
    | inl data =>
        match json_Unmarshal_License data with
        | inr err => inr err
        | inl license => inl license
        end
    end.

End Cache.

(** ** http.go *)

Record httpClient := {
  client : http_Client;
  userAgent : string
}.

Definition defaultTimeout : Duration := 10 * Second.
Definition defaultUserAgent := "LicenseEdictSDK-Go/1.0".

Definition newHTTPClient (customClient : option http_Client)
  (timeout : Duration) (userAgent : string) : httpClient :=
  let c :=
    match customClient with
    | Some c => c
    | None =>
        let t := timeout in
        let t := if t =? 0 then defaultTimeout else t in
        {| Timeout := t |}
    end in
  let ua := userAgent in
  let ua := if is_empty ua then defaultUserAgent else ua in
  {| client := c; userAgent := ua |}.

Section HTTP.
Context {P : Platform}.
Variable R : Type.
Variable json_Unmarshal : bytes -> R + error.

(** The body shared by postJSON and deleteJSON, which differ in the method
    only.  [result] is what the caller's variable holds before the call; the
    third component is what it holds after (it is written only by a
    successful decode of a non-empty body). *)
Definition sendJSON (method : Method) (h : httpClient) (url : string)
  (body : JSONBody) (result : R) (net : Net)
  : Net * (Z * option error * R) :=
  match json_Marshal_body body with
  | inr err => (net, (0, Some (fmt_Errorf "marshal request" err), result))
  | inl data =>
      match http_NewRequest method url data with
      | inr err => (net, (0, Some (fmt_Errorf "create request" err), result))
      | inl _ =>
          let req :=
            {| req_Method := method; req_URL := url; req_Body := data;
               req_ContentType := "application/json";
               req_UserAgent := userAgent h |} in
          match http_Client_Do (client h) req net with
          | (net, inr err) => (net, (0, Some err, result))
          | (net, inl resp) =>
              match resp_Body resp with
              | inr err =>
                  (net, (resp_StatusCode resp,
                         Some (fmt_Errorf "read response" err), result))
              | inl respBody =>
                  if Nat.ltb 0 (List.length respBody) then
                    match json_Unmarshal respBody with
                    | inr err =>
                        (net, (resp_StatusCode resp,
                               Some (fmt_Errorf "decode response" err), result))
                    | inl decoded =>
                        (net, (resp_StatusCode resp, None, decoded))
                    end
                  else (net, (resp_StatusCode resp, None, result))
              end
          end
      end
  end.

Definition postJSON := sendJSON MethodPost.
Definition deleteJSON := sendJSON MethodDelete.

End HTTP.

(** ** options.go *)

Record clientConfig := {
  cfg_publicKey : option bytes;          (* None is the nil key *)
  cfg_publicKeyStr : string;
  cfg_token : string;
  cfg_serverURL : string;
  cfg_appName : string;
  cfg_appPublisher : string;
  cfg_httpClient : option http_Client;
  cfg_httpTimeout : Duration;
  cfg_cacheDir : string;
  cfg_disableCache : bool;
  cfg_offlineOnly : bool;
  cfg_userAgent : string;
  cfg_instanceID : string;
  cfg_heartbeatInterval : Duration;
  cfg_renewBefore : Duration;
  cfg_disableAutoRenew : bool;
  cfg_onRenew : option (License -> unit);
  cfg_logger : option unit
}.

(** [clientConfig{}] *)
Definition clientConfig_zero : clientConfig :=
  Build_clientConfig None "" "" "" "" "" None 0 "" false false "" "" 0 0 false
    None None.

Definition set_publicKey (v : option bytes) (c : clientConfig) :=
  Build_clientConfig v (cfg_publicKeyStr c) (cfg_token c) (cfg_serverURL c)
    (cfg_appName c) (cfg_appPublisher c) (cfg_httpClient c) (cfg_httpTimeout c)
    (cfg_cacheDir c) (cfg_disableCache c) (cfg_offlineOnly c) (cfg_userAgent c)
    (cfg_instanceID c) (cfg_heartbeatInterval c) (cfg_renewBefore c)
    (cfg_disableAutoRenew c) (cfg_onRenew c) (cfg_logger c).

Definition set_publicKeyStr (v : string) (c : clientConfig) :=
  Build_clientConfig (cfg_publicKey c) v (cfg_token c) (cfg_serverURL c)
    (cfg_appName c) (cfg_appPublisher c) (cfg_httpClient c) (cfg_httpTimeout c)
    (cfg_cacheDir c) (cfg_disableCache c) (cfg_offlineOnly c) (cfg_userAgent c)
    (cfg_instanceID c) (cfg_heartbeatInterval c) (cfg_renewBefore c)
    (cfg_disableAutoRenew c) (cfg_onRenew c) (cfg_logger c).

Definition set_token (v : string) (c : clientConfig) :=
  Build_clientConfig (cfg_publicKey c) (cfg_publicKeyStr c) v (cfg_serverURL c)
    (cfg_appName c) (cfg_appPublisher c) (cfg_httpClient c) (cfg_httpTimeout c)
    (cfg_cacheDir c) (cfg_disableCache c) (cfg_offlineOnly c) (cfg_userAgent c)
    (cfg_instanceID c) (cfg_heartbeatInterval c) (cfg_renewBefore c)
    (cfg_disableAutoRenew c) (cfg_onRenew c) (cfg_logger c).

Definition set_serverURL (v : string) (c : clientConfig) :=
  Build_clientConfig (cfg_publicKey c) (cfg_publicKeyStr c) (cfg_token c) v
    (cfg_appName c) (cfg_appPublisher c) (cfg_httpClient c) (cfg_httpTimeout c)
    (cfg_cacheDir c) (cfg_disableCache c) (cfg_offlineOnly c) (cfg_userAgent c)
    (cfg_instanceID c) (cfg_heartbeatInterval c) (cfg_renewBefore c)
    (cfg_disableAutoRenew c) (cfg_onRenew c) (cfg_logger c).

Definition set_appInfo (name publisher : string) (c : clientConfig) :=
  Build_clientConfig (cfg_publicKey c) (cfg_publicKeyStr c) (cfg_token c)
    (cfg_serverURL c) name publisher (cfg_httpClient c) (cfg_httpTimeout c)
    (cfg_cacheDir c) (cfg_disableCache c) (cfg_offlineOnly c) (cfg_userAgent c)
    (cfg_instanceID c) (cfg_heartbeatInterval c) (cfg_renewBefore c)
    (cfg_disableAutoRenew c) (cfg_onRenew c) (cfg_logger c).

Definition set_httpClient (v : option http_Client) (c : clientConfig) :=
  Build_clientConfig (cfg_publicKey c) (cfg_publicKeyStr c) (cfg_token c)
    (cfg_serverURL c) (cfg_appName c) (cfg_appPublisher c) v (cfg_httpTimeout c)
    (cfg_cacheDir c) (cfg_disableCache c) (cfg_offlineOnly c) (cfg_userAgent c)
    (cfg_instanceID c) (cfg_heartbeatInterval c) (cfg_renewBefore c)
    (cfg_disableAutoRenew c) (cfg_onRenew c) (cfg_logger c).

Definition set_httpTimeout (v : Duration) (c : clientConfig) :=
  Build_clientConfig (cfg_publicKey c) (cfg_publicKeyStr c) (cfg_token c)
    (cfg_serverURL c) (cfg_appName c) (cfg_appPublisher c) (cfg_httpClient c) v
    (cfg_cacheDir c) (cfg_disableCache c) (cfg_offlineOnly c) (cfg_userAgent c)
    (cfg_instanceID c) (cfg_heartbeatInterval c) (cfg_renewBefore c)
    (cfg_disableAutoRenew c) (cfg_onRenew c) (cfg_logger c).

Definition set_cacheDir (v : string) (c : clientConfig) :=
  Build_clientConfig (cfg_publicKey c) (cfg_publicKeyStr c) (cfg_token c)
    (cfg_serverURL c) (cfg_appName c) (cfg_appPublisher c) (cfg_httpClient c)
    (cfg_httpTimeout c) v (cfg_disableCache c) (cfg_offlineOnly c)
    (cfg_userAgent c) (cfg_instanceID c) (cfg_heartbeatInterval c)
    (cfg_renewBefore c) (cfg_disableAutoRenew c) (cfg_onRenew c) (cfg_logger c).

Definition set_disableCache (v : bool) (c : clientConfig) :=
  Build_clientConfig (cfg_publicKey c) (cfg_publicKeyStr c) (cfg_token c)
    (cfg_serverURL c) (cfg_appName c) (cfg_appPublisher c) (cfg_httpClient c)
    (cfg_httpTimeout c) (cfg_cacheDir c) v (cfg_offlineOnly c)
    (cfg_userAgent c) (cfg_instanceID c) (cfg_heartbeatInterval c)
    (cfg_renewBefore c) (cfg_disableAutoRenew c) (cfg_onRenew c) (cfg_logger c).

Definition set_offlineOnly (v : bool) (c : clientConfig) :=
  Build_clientConfig (cfg_publicKey c) (cfg_publicKeyStr c) (cfg_token c)
    (cfg_serverURL c) (cfg_appName c) (cfg_appPublisher c) (cfg_httpClient c)
    (cfg_httpTimeout c) (cfg_cacheDir c) (cfg_disableCache c) v
    (cfg_userAgent c) (cfg_instanceID c) (cfg_heartbeatInterval c)
    (cfg_renewBefore c) (cfg_disableAutoRenew c) (cfg_onRenew c) (cfg_logger c).

Definition set_userAgent (v : string) (c : clientConfig) :=
  Build_clientConfig (cfg_publicKey c) (cfg_publicKeyStr c) (cfg_token c)
    (cfg_serverURL c) (cfg_appName c) (cfg_appPublisher c) (cfg_httpClient c)
    (cfg_httpTimeout c) (cfg_cacheDir c) (cfg_disableCache c)
    (cfg_offlineOnly c) v (cfg_instanceID c) (cfg_heartbeatInterval c)
    (cfg_renewBefore c) (cfg_disableAutoRenew c) (cfg_onRenew c) (cfg_logger c).

Definition set_instanceID (v : string) (c : clientConfig) :=
  Build_clientConfig (cfg_publicKey c) (cfg_publicKeyStr c) (cfg_token c)
    (cfg_serverURL c) (cfg_appName c) (cfg_appPublisher c) (cfg_httpClient c)
    (cfg_httpTimeout c) (cfg_cacheDir c) (cfg_disableCache c)
    (cfg_offlineOnly c) (cfg_userAgent c) v (cfg_heartbeatInterval c)
    (cfg_renewBefore c) (cfg_disableAutoRenew c) (cfg_onRenew c) (cfg_logger c).

Definition set_heartbeatInterval (v : Duration) (c : clientConfig) :=
  Build_clientConfig (cfg_publicKey c) (cfg_publicKeyStr c) (cfg_token c)
    (cfg_serverURL c) (cfg_appName c) (cfg_appPublisher c) (cfg_httpClient c)
    (cfg_httpTimeout c) (cfg_cacheDir c) (cfg_disableCache c)
    (cfg_offlineOnly c) (cfg_userAgent c) (cfg_instanceID c) v
    (cfg_renewBefore c) (cfg_disableAutoRenew c) (cfg_onRenew c) (cfg_logger c).

Definition set_renewBefore (v : Duration) (c : clientConfig) :=
  Build_clientConfig (cfg_publicKey c) (cfg_publicKeyStr c) (cfg_token c)
    (cfg_serverURL c) (cfg_appName c) (cfg_appPublisher c) (cfg_httpClient c)
    (cfg_httpTimeout c) (cfg_cacheDir c) (cfg_disableCache c)
    (cfg_offlineOnly c) (cfg_userAgent c) (cfg_instanceID c)
    (cfg_heartbeatInterval c) v (cfg_disableAutoRenew c) (cfg_onRenew c)
    (cfg_logger c).

Definition set_disableAutoRenew (v : bool) (c : clientConfig) :=
  Build_clientConfig (cfg_publicKey c) (cfg_publicKeyStr c) (cfg_token c)
    (cfg_serverURL c) (cfg_appName c) (cfg_appPublisher c) (cfg_httpClient c)
    (cfg_httpTimeout c) (cfg_cacheDir c) (cfg_disableCache c)
    (cfg_offlineOnly c) (cfg_userAgent c) (cfg_instanceID c)
    (cfg_heartbeatInterval c) (cfg_renewBefore c) v (cfg_onRenew c)
    (cfg_logger c).

Definition set_onRenew (v : option (License -> unit)) (c : clientConfig) :=
  Build_clientConfig (cfg_publicKey c) (cfg_publicKeyStr c) (cfg_token c)
    (cfg_serverURL c) (cfg_appName c) (cfg_appPublisher c) (cfg_httpClient c)
    (cfg_httpTimeout c) (cfg_cacheDir c) (cfg_disableCache c)
    (cfg_offlineOnly c) (cfg_userAgent c) (cfg_instanceID c)
    (cfg_heartbeatInterval c) (cfg_renewBefore c) (cfg_disableAutoRenew c) v
    (cfg_logger c).

Definition set_logger (v : option unit) (c : clientConfig) :=
  Build_clientConfig (cfg_publicKey c) (cfg_publicKeyStr c) (cfg_token c)
    (cfg_serverURL c) (cfg_appName c) (cfg_appPublisher c) (cfg_httpClient c)
    (cfg_httpTimeout c) (cfg_cacheDir c) (cfg_disableCache c)
    (cfg_offlineOnly c) (cfg_userAgent c) (cfg_instanceID c)
    (cfg_heartbeatInterval c) (cfg_renewBefore c) (cfg_disableAutoRenew c)
    (cfg_onRenew c) v.

(** An [Option] is the function it applies to the configuration. *)
Definition Option := clientConfig -> clientConfig.

Section Options.
Context {P : Platform}.

Definition WithPublicKey (key : string) : Option := fun c =>
  let c := set_publicKeyStr key c in
  match DecodePublicKey key with
  | inl decoded => set_publicKey (Some decoded) c
  | inr _ => c
  end.

End Options.

Definition WithPublicKeyRaw (key : option bytes) : Option := set_publicKey key.
Definition WithToken (token : string) : Option := set_token token.
Definition WithServerURL (url : string) : Option := set_serverURL url.
Definition WithAppInfo (name publisher : string) : Option :=
  set_appInfo name publisher.
Definition WithHTTPClient (client : option http_Client) : Option :=
  set_httpClient client.
Definition WithHTTPTimeout (d : Duration) : Option := set_httpTimeout d.
Definition WithCacheDir (dir : string) : Option := set_cacheDir dir.
Definition WithoutCache : Option := set_disableCache true.
Definition WithOfflineOnly : Option := set_offlineOnly true.
Definition WithUserAgent (ua : string) : Option := set_userAgent ua.
Definition WithInstanceID (id : string) : Option := set_instanceID id.
Definition WithHeartbeatInterval (d : Duration) : Option :=
  set_heartbeatInterval d.
Definition WithRenewBefore (d : Duration) : Option := set_renewBefore d.
Definition WithoutAutoRenew : Option := set_disableAutoRenew true.
Definition WithOnRenew (fn : option (License -> unit)) : Option :=
  set_onRenew fn.
Definition WithLogger (l : option unit) : Option := set_logger l.

(** ** concurrency.go: the heartbeat state *)

Definition defaultHeartbeatInterval : Duration := 30 * Second.
Definition eventsChannelSize : nat := 16.

Record HeartbeatOptions := {
  InstanceID : string;
  UserHash : string;
  Hostname : string;
  IP : string;
  UserAgent : string
}.

Definition HeartbeatOptions_zero : HeartbeatOptions :=
  {| InstanceID := ""; UserHash := ""; Hostname := ""; IP := "";
     UserAgent := "" |}.

(** A [chan struct{}] used as a signal: not made yet, open, or closed. *)
Inductive signal := chan_nil | chan_open | chan_closed.

Record heartbeatState := {
  running : bool;
  stopCh : signal;
  doneCh : signal;
  opts : HeartbeatOptions;
  interval : Duration
}.

Definition heartbeatState_zero : heartbeatState :=
  {| running := false; stopCh := chan_nil; doneCh := chan_nil;
     opts := HeartbeatOptions_zero; interval := 0 |}.

Definition set_interval (v : Duration) (h : heartbeatState) : heartbeatState :=
  {| running := running h; stopCh := stopCh h; doneCh := doneCh h;
     opts := opts h; interval := v |}.

(** ** The client *)

(** The client.  [license] is the pointer field ([None] is nil); [Events] is
    what the buffered channel holds, oldest first.  The locks [mu] and
    [hb.mu] guard single reads and writes and leave no trace in a
    sequential run. *)
Record Client := {
  cfg : clientConfig;
  cache : cacheManager;
  http : httpClient;
  license : option License;
  signedToken : string;
  hb : heartbeatState;
  closed : bool;
  Events : list Event
}.

Definition set_cfg (v : clientConfig) (c : Client) : Client :=
  {| cfg := v; cache := cache c; http := http c; license := license c;
     signedToken := signedToken c; hb := hb c; closed := closed c;
     Events := Events c |}.

Definition set_license (v : option License) (c : Client) : Client :=
  {| cfg := cfg c; cache := cache c; http := http c; license := v;
     signedToken := signedToken c; hb := hb c; closed := closed c;
     Events := Events c |}.

Definition set_signedToken (v : string) (c : Client) : Client :=
  {| cfg := cfg c; cache := cache c; http := http c; license := license c;
     signedToken := v; hb := hb c; closed := closed c; Events := Events c |}.

Definition set_hb (v : heartbeatState) (c : Client) : Client :=
  {| cfg := cfg c; cache := cache c; http := http c; license := license c;
     signedToken := signedToken c; hb := v; closed := closed c;
     Events := Events c |}.

Definition set_Events (v : list Event) (c : Client) : Client :=
  {| cfg := cfg c; cache := cache c; http := http c; license := license c;
     signedToken := signedToken c; hb := hb c; closed := closed c;
     Events := v |}.

(** [%d] *)
Definition itoa (z : Z) : string := NilZero.string_of_int (Z.to_int z).

(** emitEvent: the non-blocking send; a full buffer drops the event. *)
Definition emitEvent (e : Event) (c : Client) : Client :=
  if Nat.ltb (List.length (Events c)) eventsChannelSize
  then set_Events (Events c ++ [e]) c
  else c.

(** resolveServerURL *)
Definition resolveServerURL (c : Client) : string :=
  if negb (is_empty (cfg_serverURL (cfg c))) then cfg_serverURL (cfg c)
  else
    match license c with
    | Some l => ServerURL l
    | None => ""
    end.

(** A goroutine started by a [go] statement of the package. *)
Inductive Goroutine :=
| go_autoRenew                                   (* validate.go, maybeAutoRenew *)
| go_heartbeatLoop (serverURL token : string).   (* concurrency.go *)

Definition defaultRenewBefore : Duration := 7 * 24 * Hour.

Section Engine.
Context {P : Platform}.

(** What the methods use besides the client: the files, the network, the
    clock ([w_clock n] is what the [n]-th reading of [time.Now] returns,
    [w_reads] counts the readings made) and the goroutines started so far,
    latest first. *)
Record World := {
  w_fs : FS;
  w_net : Net;
  w_clock : nat -> Time;
  w_reads : nat;
  w_goroutines : list Goroutine
}.

Definition set_fs (v : FS) (w : World) : World :=
  {| w_fs := v; w_net := w_net w; w_clock := w_clock w; w_reads := w_reads w;
     w_goroutines := w_goroutines w |}.

Definition set_net (v : Net) (w : World) : World :=
  {| w_fs := w_fs w; w_net := v; w_clock := w_clock w; w_reads := w_reads w;
     w_goroutines := w_goroutines w |}.

(** [time.Now()] *)
Definition time_Now (w : World) : Time * World :=
  (w_clock w (w_reads w),
   {| w_fs := w_fs w; w_net := w_net w; w_clock := w_clock w;
      w_reads := S (w_reads w); w_goroutines := w_goroutines w |}).

(** [go f()] *)
Definition go (g : Goroutine) (w : World) : World :=
  {| w_fs := w_fs w; w_net := w_net w; w_clock := w_clock w;
     w_reads := w_reads w; w_goroutines := g :: w_goroutines w |}.

(** NewClient; the error it returns is always nil. *)
Definition NewClient (opts : list Option) : Client * option error :=
  let cfg := fold_left (fun cfg opt => opt cfg) opts clientConfig_zero in
  let c :=
    {| cfg := cfg;
       cache := newCacheManager (cfg_appName cfg) (cfg_appPublisher cfg)
                  (cfg_cacheDir cfg) (cfg_disableCache cfg);
       http := newHTTPClient (cfg_httpClient cfg) (cfg_httpTimeout cfg)
                 (cfg_userAgent cfg);
       license := None;
       signedToken := "";
       hb := heartbeatState_zero;
       closed := false;
       Events := [] |} in
  let c :=
    if negb (is_empty (cfg_token cfg)) then set_signedToken (cfg_token cfg) c
    else c in
  (c, None).

(** maybeAutoRenew (validate.go): the world after the call; a renewal that
    is launched is the goroutine [go_autoRenew] added to it. *)
Definition maybeAutoRenew (c : Client) (license : option License) (w : World)
  : World :=
  if cfg_disableAutoRenew (cfg c) || cfg_offlineOnly (cfg c) then w
  else
    match license with
    | None => w
    | Some license =>
        if negb (Valid license) || Time_IsZero (ExpiresAt license) then w
        else
          let threshold := cfg_renewBefore (cfg c) in
          let threshold :=
            if threshold =? 0 then defaultRenewBefore else threshold in
          let (now, w) := time_Now w in
          let timeLeft := time_Until now (ExpiresAt license) in
          if threshold <? timeLeft then w
          else go go_autoRenew w
    end.

(** The token Validate resolves (validate.go, lines 23-35). *)
Definition Validate_token (signedToken_arg : list string) (c : Client)
  : string :=
  let token := "" in
  let token :=
    match signedToken_arg with
    | s :: _ => if negb (is_empty s) then s else token
    | [] => token
    end in
  let token := if is_empty token then signedToken c else token in
  let token := if is_empty token then cfg_token (cfg c) else token in
  token.

(** Validate, from the verified payload on (validate.go, lines 56-84). *)
Definition Validate_commit (payload : tokenPayload) (token : string)
  (c : Client) (w : World) : Client * World * (License * option error) :=
  let license := payloadToLicense payload token true in
  let (now, w) := time_Now w in
  let license :=
    if negb (Time_IsZero (p_IssuedAt payload))
       && Time_Before now (p_IssuedAt payload)
    then set_Valid false license else license in
  let license :=
    if negb (Time_IsZero (p_ExpiresAt payload))
       && Time_After now (p_ExpiresAt payload)
    then set_Valid false license else license in
  let c :=
    if is_empty (cfg_serverURL (cfg c)) && negb (is_empty (ServerURL license))
    then set_cfg (set_serverURL (ServerURL license) (cfg c)) c
    else c in
  let c := set_license (Some license) c in
  let c := set_signedToken token c in
  let (fs, _) := cache_save (cache c) license (w_fs w) in
  let w := set_fs fs w in
  let w := maybeAutoRenew c (Some license) w in
  (c, w, (license, None)).

(** Validate (validate.go).  The [*License] it returns is never nil. *)
Definition Validate (signedToken_arg : list string) (c : Client) (w : World)
  : Client * World * (License * option error) :=
  if closed c then (c, w, (License_zero, Some ErrClientClosed))
  else
    let token := Validate_token signedToken_arg c in
    if is_empty token then (c, w, (License_zero, Some ErrNoToken))
    else
      match cfg_publicKey (cfg c) with
      | None => (c, w, (License_zero, Some ErrNoPublicKey))
      | Some publicKey =>
          match verifyToken publicKey token with
          | inr err =>
              match cache_load (cache c) (w_fs w) with
              | inl cached => (c, w, (cached, None))
              | inr _ => (c, w, (License_zero, Some err))
              end
          | inl payload => Validate_commit payload token c w
          end
      end.

(** ValidateFromCache (validate.go) *)
Definition ValidateFromCache (c : Client) (w : World)
  : Client * World * (option License * option error) :=
  if closed c then (c, w, (None, Some ErrClientClosed))
  else
    match cache_load (cache c) (w_fs w) with
    | inr err => (c, w, (None, Some err))
    | inl cached =>
        let c := set_license (Some cached) c in
        let c :=
          if negb (is_empty (SignedToken cached))
          then set_signedToken (SignedToken cached) c
          else c in
        (c, w, (Some cached, None))
    end.

(** [err == nil] and [key != nil] *)
Definition is_nil {A : Type} (x : option A) : bool :=
  match x with
  | None => true
  | Some _ => false
  end.

(** [&License{SignedToken: t}] *)
Definition License_of_token (t : string) : License :=
  {| Valid := false; LicenseID := ""; ProductID := ""; LicenseKey := "";
     Licensee := ""; Plan := ""; Features := None; MaxSeats := 0;
     IssuedAt := 0; ExpiresAt := 0; ServerURL := ""; SignedToken := t |}.

Definition http_StatusOK : Z := 200.
Definition http_StatusTooManyRequests : Z := 429.

(** Renew (renewal.go) *)
Definition Renew (c : Client) (w : World)
  : Client * World * (option License * option error) :=
  if closed c then (c, w, (None, Some ErrClientClosed))
  else
    let serverURL := resolveServerURL c in
    if is_empty serverURL then (c, w, (None, Some ErrNoServerURL))
    else
      let token := signedToken c in
      let token := if is_empty token then cfg_token (cfg c) else token in
      if is_empty token then (c, w, (None, Some ErrNoToken))
      else
        let body := [("signed_token", JString token)] in
        let url := serverURL ++ "/api/v1/licenses/renew" in
        let '(net, (statusCode, err, result)) :=
          postJSON json_Unmarshal_RenewalResult (http c) url body
            RenewalResult_zero (w_net w) in
        let w := set_net net w in
        match err with
        | Some err =>
            (c, w, (None, Some (ValidationError RenewalFailed
                                  "renewal request failed" (Some err))))
        | None =>
            if negb (statusCode =? http_StatusOK) then
              (c, w, (None, Some (ValidationError RenewalFailed
                                    ("renewal returned status "
                                     ++ itoa statusCode) None)))
            else
              (* the statements after the re-validation block *)
              let store_token (c : Client) (w : World) :=
                let license := License_of_token (rr_SignedToken result) in
                let c :=
                  if negb (is_empty (rr_SignedToken result))
                  then set_signedToken (rr_SignedToken result) c
                  else c in
                (c, w, (Some license, None)) in
              if negb (is_empty (rr_SignedToken result))
                 && negb (is_nil (cfg_publicKey (cfg c)))
              then
                let '(c, w, (newLicense, validateErr)) :=
                  Validate [rr_SignedToken result] c w in
                if is_nil validateErr && Valid newLicense then
                  let c :=
                    emitEvent {| ev_Type := EventLicenseRenewed;
                                 ev_Message := "license renewed";
                                 ev_Data := DataRenewal result |} c in
                  (c, w, (Some newLicense, None))
                else store_token c w
              else store_token c w
        end.

(** RenewResult (renewal.go) *)
Definition RenewResult (c : Client) (w : World)
  : Client * World * (option RenewalResult * option error) :=
  if closed c then (c, w, (None, Some ErrClientClosed))
  else
    let serverURL := resolveServerURL c in
    if is_empty serverURL then (c, w, (None, Some ErrNoServerURL))
    else
      let token := signedToken c in
      let token := if is_empty token then cfg_token (cfg c) else token in
      if is_empty token then (c, w, (None, Some ErrNoToken))
      else
        let body := [("signed_token", JString token)] in
        let url := serverURL ++ "/api/v1/licenses/renew" in
        let '(net, (statusCode, err, result)) :=
          postJSON json_Unmarshal_RenewalResult (http c) url body
            RenewalResult_zero (w_net w) in
        let w := set_net net w in
        match err with
        | Some err =>
            (c, w, (None, Some (ValidationError RenewalFailed
                                  "renewal request failed" (Some err))))
        | None =>
            if negb (statusCode =? http_StatusOK) then
              (c, w, (None, Some (ValidationError RenewalFailed
                                    ("renewal returned status "
                                     ++ itoa statusCode) None)))
            else
              if negb (is_empty (rr_SignedToken result))
                 && negb (is_nil (cfg_publicKey (cfg c)))
              then
                let '(c, w, (newLicense, validateErr)) :=
                  Validate [rr_SignedToken result] c w in
                let c :=
                  if is_nil validateErr && Valid newLicense then
                    emitEvent {| ev_Type := EventLicenseRenewed;
                                 ev_Message := "license renewed";
                                 ev_Data := DataRenewal result |} c
                  else c in
                (c, w, (Some result, None))
              else (c, w, (Some result, None))
        end.

(** The request body sendHeartbeat builds (concurrency.go, lines 183-192). *)
Definition heartbeat_body (token : string) (o : HeartbeatOptions) : JSONBody :=
  [("signed_token", JString token);
   ("instance_id", JString (InstanceID o));
   ("metadata",
    JObject [("hostname", Hostname o);
             ("ip", IP o);
             ("user_agent", UserAgent o);
             ("user_hash", UserHash o)])].

(** sendHeartbeat (concurrency.go) *)
Definition sendHeartbeat (serverURL token : string) (c : Client) (w : World)
  : Client * World :=
  let body := heartbeat_body token (opts (hb c)) in
  let url := serverURL ++ "/api/v1/concurrency/heartbeat" in
  let '(net, (statusCode, err, resp)) :=
    postJSON json_Unmarshal_HeartbeatStatus (http c) url body
      HeartbeatStatus_zero (w_net w) in
  let w := set_net net w in
  match err with
  | Some err =>
      let c :=
        emitEvent {| ev_Type := EventHeartbeatError;
                     ev_Message := error_Error err; ev_Data := DataNil |} c in
      (c, w)
  | None =>
      if statusCode =? http_StatusOK then
        let c :=
          emitEvent {| ev_Type := EventHeartbeatOK;
                       ev_Message := "heartbeat accepted";
                       ev_Data := DataHeartbeat resp |} c in
        let c :=
          if 0 <? hs_HeartbeatInterval resp then
            let newInterval :=
              Duration_mul (hs_HeartbeatInterval resp) Second in
            set_hb (set_interval newInterval (hb c)) c
          else c in
        (c, w)
      else if statusCode =? http_StatusTooManyRequests then
        let c :=
          emitEvent {| ev_Type := EventHeartbeatRejected;
                       ev_Message := "seat limit reached";
                       ev_Data := DataHeartbeat resp |} c in
        (c, w)
      else
        let c :=
          emitEvent {| ev_Type := EventHeartbeatError;
                       ev_Message := "heartbeat returned status "
                                     ++ itoa statusCode;
                       ev_Data := DataHeartbeat resp |} c in
        (c, w)
  end.

End Engine.


(** ** The License methods *)

(** The loop of HasFeature over the features. *)
Fixpoint has_feature (features : list string) (feature : string) : bool :=
  match features with
  | [] => false
  | f :: rest => if String.eqb f feature then true else has_feature rest feature
  end.

(** License.HasFeature; the receiver may be nil. *)
Definition HasFeature (l : option License) (feature : string) : bool :=
  match l with
  | None => false
  | Some l =>
      match Features l with
      | None => false
      | Some features => has_feature features feature
      end
  end.

(** ** The documented sentinels and ValidationError's methods *)

Definition ErrInvalidSignature :=
  errors_New "licenseedict: invalid license signature".
Definition ErrTokenMalformed :=
  errors_New "licenseedict: token could not be decoded".
Definition ErrLicenseExpired :=
  errors_New "licenseedict: license has expired".
Definition ErrLicenseRevoked :=
  errors_New "licenseedict: license has been revoked".
Definition ErrServerUnreachable :=
  errors_New "licenseedict: server unreachable".
Definition ErrSeatLimitReached :=
  errors_New "licenseedict: seat limit reached".
Definition ErrRenewalDenied := errors_New "licenseedict: renewal denied".

(** [a == b] on error values: the values made by [errors.New] are the
    package's variables, told apart by their texts, which all differ; every
    other error is a value of its own. *)
Definition same_error (a b : error) : bool :=
  match a, b with
  | errors_New s, errors_New t => String.eqb s t
  | _, _ => false
  end.

(** ValidationError.Is, on the code of the receiver. *)
Definition ValidationError_Is (code : string) (target : error) : bool :=
  if same_error target ErrInvalidSignature
  then String.eqb code InvalidLicenseSignature
  else if same_error target ErrTokenMalformed
  then String.eqb code LicenseDecodeError
  else if same_error target ErrLicenseExpired
  then String.eqb code LicenseNotValidAfter
  else if same_error target ErrLicenseRevoked
  then String.eqb code LicenseRevoked
  else if same_error target ErrServerUnreachable
  then String.eqb code ServerUnreachable
  else if same_error target ErrSeatLimitReached
  then String.eqb code SeatLimitReached
  else if same_error target ErrRenewalDenied
  then String.eqb code RenewalFailed
  else false.

(** ValidationError.Unwrap, and the unwrapping of a [fmt.Errorf] error. *)
Definition error_Unwrap (e : error) : option error :=
  match e with
  | ValidationError _ _ cause => cause
  | fmt_Errorf _ cause => Some cause
  | _ => None
  end.

(** [errors.Is(err, target)] for a target that is one of the package's
    sentinels: the error itself, its Is method, then what it unwraps to. *)
Fixpoint errors_Is (err target : error) : bool :=
  same_error err target
  || match err with
     | ValidationError code _ cause =>
         ValidationError_Is code target
         || match cause with
            | Some e => errors_Is e target
            | None => false
            end
     | fmt_Errorf _ cause => errors_Is cause target
     | _ => false
     end.

(** ** The remaining methods of the client and the one-shot functions *)

Definition set_closed (v : bool) (c : Client) : Client :=
  {| cfg := cfg c; cache := cache c; http := http c; license := license c;
     signedToken := signedToken c; hb := hb c; closed := v;
     Events := Events c |}.

Section Facade.
Context {P : Platform}.

(** License.IsExpired: the clock is read only for a license that has an
    expiry. *)
Definition IsExpired (l : option License) (w : World) : bool * World :=
  match l with
  | None => (true, w)
  | Some l =>
      if Time_IsZero (ExpiresAt l) then (false, w)
      else
        let (now, w) := time_Now w in
        (Time_After now (ExpiresAt l), w)
  end.

(** The part CheckLicense and CheckLicenseLegacy share: from the verified
    key on, with the application info the cache manager is made from. *)
Definition check_with_key (pubKey : bytes) (token appName appPublisher : string)
  (w : World) : World * (License * option error) :=
  match verifyToken pubKey token with
  | inr err =>
      let cm := newCacheManager appName appPublisher "" false in
      match cache_load cm (w_fs w) with
      | inl cached => (w, (cached, None))
      | inr _ => (w, (License_zero, Some err))
      end
  | inl payload =>
      let license := payloadToLicense payload token true in
      let (now, w) := time_Now w in
      let license :=
        if negb (Time_IsZero (p_IssuedAt payload))
           && Time_Before now (p_IssuedAt payload)
        then set_Valid false license else license in
      let license :=
        if negb (Time_IsZero (p_ExpiresAt payload))
           && Time_After now (p_ExpiresAt payload)
        then set_Valid false license else license in
      let cm := newCacheManager appName appPublisher "" false in
      let (fs, _) := cache_save cm license (w_fs w) in
      (set_fs fs w, (license, None))
  end.

(** CheckLicense *)
Definition CheckLicense (publicKey token : string) (w : World)
  : World * (License * option error) :=
  if is_empty publicKey then (w, (License_zero, Some ErrNoPublicKey))
  else if is_empty token then (w, (License_zero, Some ErrNoToken))
  else
    match DecodePublicKey publicKey with
    | inr err => (w, (License_zero, Some err))
    | inl pubKey => check_with_key pubKey token "" "" w
    end.

(** CheckFeature *)
Definition CheckFeature (publicKey token feature : string) (w : World)
  : World * (bool * option error) :=
  let '(w, (license, err)) := CheckLicense publicKey token w in
  match err with
  | Some err => (w, (false, Some err))
  | None => (w, (HasFeature (Some license) feature, None))
  end.

(** CheckLicenseLegacy; [None] is the nil key. *)
Definition CheckLicenseLegacy (signedToken : string)
  (publicKey : option bytes) (appName appPublisher : string) (w : World)
  : World * (License * option error) :=
  match publicKey with
  | None => (w, (License_zero, Some ErrNoPublicKey))
  | Some publicKey =>
      if is_empty signedToken then (w, (License_zero, Some ErrNoToken))
      else check_with_key publicKey signedToken appName appPublisher w
  end.

(** CheckFeatureLegacy *)
Definition CheckFeatureLegacy (feature : string) (license : option License)
  : bool :=
  HasFeature license feature.

(** StartHeartbeat.  The channel it returns is [c.Events] ([Some tt]) or nil;
    the loop it starts is the goroutine added to the world. *)
Definition StartHeartbeat (opts_arg : list HeartbeatOptions) (c : Client)
  (w : World) : Client * World * (option unit * option error) :=
  if closed c then (c, w, (None, Some ErrClientClosed))
  else if running (hb c) then (c, w, (None, Some ErrAlreadyRunning))
  else
    let serverURL := resolveServerURL c in
    if is_empty serverURL then (c, w, (None, Some ErrNoServerURL))
    else
      let token := signedToken c in
      let token := if is_empty token then cfg_token (cfg c) else token in
      if is_empty token then (c, w, (None, Some ErrNoToken))
      else
        let hbOpts :=
          match opts_arg with
          | o :: _ => o
          | [] => HeartbeatOptions_zero
          end in
        let hbOpts :=
          if is_empty (InstanceID hbOpts)
             && negb (is_empty (cfg_instanceID (cfg c)))
          then {| InstanceID := cfg_instanceID (cfg c);
                  UserHash := UserHash hbOpts; Hostname := Hostname hbOpts;
                  IP := IP hbOpts; UserAgent := UserAgent hbOpts |}
          else hbOpts in
        let interval := cfg_heartbeatInterval (cfg c) in
        let interval :=
          if interval =? 0 then defaultHeartbeatInterval else interval in
        let c :=
          set_hb {| running := true; stopCh := chan_open; doneCh := chan_open;
                    opts := hbOpts; interval := interval |} c in
        (c, go (go_heartbeatLoop serverURL token) w, (Some tt, None)).

(** StopHeartbeat, as the state is when it returns: it has closed [stopCh],
    the receive from [doneCh] has returned, which it does once the loop has
    closed that channel, and [running] is reset. *)
Definition StopHeartbeat (c : Client) : Client :=
  if negb (running (hb c)) then c
  else
    set_hb {| running := false; stopCh := chan_closed; doneCh := chan_closed;
              opts := opts (hb c); interval := interval (hb c) |} c.

(** Checkout *)
Definition Checkout (c : Client) (w : World)
  : Client * World * option error :=
  if closed c then (c, w, Some ErrClientClosed)
  else
    let c := StopHeartbeat c in
    let serverURL := resolveServerURL c in
    if is_empty serverURL then (c, w, Some ErrNoServerURL)
    else
      let token := signedToken c in
      if is_empty token then (c, w, Some ErrNoToken)
      else
        let body :=
          [("signed_token", JString token);
           ("instance_id", JString (InstanceID (opts (hb c))))] in
        let body :=
          if negb (is_empty (UserHash (opts (hb c))))
          then (body ++ [("user_hash", JString (UserHash (opts (hb c))))])%list
          else body in
        let url := serverURL ++ "/api/v1/concurrency/checkout" in
        let '(net, (statusCode, err, resp)) :=
          deleteJSON json_Unmarshal_status (http c) url body "" (w_net w) in
        let w := set_net net w in
        match err with
        | Some err =>
            (c, w, Some (ValidationError ServerUnreachable
                           "checkout request failed" (Some err)))
        | None =>
            if negb (statusCode =? http_StatusOK) then
              (c, w, Some (ValidationError ServerUnreachable
                             ("checkout returned status " ++ itoa statusCode)
                             None))
            else
              let c :=
                emitEvent {| ev_Type := EventSeatReleased;
                             ev_Message := "seat released";
                             ev_Data := DataNil |} c in
              (c, w, None)
        end.

(** Close.  The Events channel is closed when, and only when, [closed] is
    set: Close is the one writer of both. *)
Definition Close (c : Client) : Client * option error :=
  if closed c then (c, None)
  else
    let c := StopHeartbeat c in
    (set_closed true c, None).

End Facade.

(** * Definitions the properties are stated with *)

(** The resolution rule of the specification (4.2, step 1), in its words:
    the explicit argument, else the previously stored token, else the
    configured default token, taking the first that is a token at all
    (non-empty); [None] when none is. *)
Definition spec_resolve_token (explicit : option string)
  (stored configured : string) : option string :=
  let candidates :=
    match explicit with
    | Some t => [t; stored; configured]
    | None => [stored; configured]
    end in
  find (fun t => negb (is_empty t)) candidates.

(** The threshold maybeAutoRenew compares with: the configured one, or seven
    days when none is configured. *)
Definition renew_threshold (cfg : clientConfig) : Duration :=
  if cfg_renewBefore cfg =? 0 then defaultRenewBefore else cfg_renewBefore cfg.

(** The license Validate builds from a verified payload when the clock
    reads [now]. *)
Definition checked_license (payload : tokenPayload) (token : string)
  (now : Time) : License :=
  let license := payloadToLicense payload token true in
  let license :=
    if negb (Time_IsZero (p_IssuedAt payload))
       && Time_Before now (p_IssuedAt payload)
    then set_Valid false license else license in
  if negb (Time_IsZero (p_ExpiresAt payload))
     && Time_After now (p_ExpiresAt payload)
  then set_Valid false license else license.

(** The client Validate commits. *)
Definition committed_client (payload : tokenPayload) (token : string)
  (c : Client) (now : Time) : Client :=
  let license := checked_license payload token now in
  let c :=
    if is_empty (cfg_serverURL (cfg c)) && negb (is_empty (ServerURL license))
    then set_cfg (set_serverURL (ServerURL license) (cfg c)) c
    else c in
  set_signedToken token (set_license (Some license) c).

(** A run of Validate calls on one client: each call has its arguments and
    the world it runs in; the client of one call is handed to the next. *)
Fixpoint Validate_seq {P : Platform} (calls : list (list string * World))
  (c : Client) : Client :=
  match calls with
  | [] => c
  | (args, w) :: rest => Validate_seq rest (fst (fst (Validate args c w)))
  end.

(** The guards of Validate are passed and the resolved token verifies: the
    call builds a license and commits it. *)
Definition Validate_commits {P : Platform} (args : list string) (c : Client)
  : Prop :=
  closed c = false
  /\ Validate_token args c <> ""
  /\ exists publicKey payload,
       cfg_publicKey (cfg c) = Some publicKey
       /\ verifyToken publicKey (Validate_token args c) = inl payload.

(** The decision of maybeAutoRenew. *)
Definition renewal_due (c : Client) (lic : option License) (now : Time)
  : Prop :=
  cfg_disableAutoRenew (cfg c) = false
  /\ cfg_offlineOnly (cfg c) = false
  /\ exists l, lic = Some l
       /\ Valid l = true
       /\ ExpiresAt l <> 0
       /\ time_Until now (ExpiresAt l) <= renew_threshold (cfg c).

(** The event of a heartbeat send, in the words of the specification (4.4):
    transport failure, a HeartbeatError event with the error text; HTTP
    success, a HeartbeatOK event carrying the decoded status payload; a
    rate-limit response, a HeartbeatRejected event; any other status, a
    HeartbeatError event carrying the status code and the payload. *)
Definition spec_heartbeat_event (statusCode : Z) (err : option error)
  (resp : HeartbeatStatus) : Event :=
  match err with
  | Some err =>
      {| ev_Type := EventHeartbeatError; ev_Message := error_Error err;
         ev_Data := DataNil |}
  | None =>
      if statusCode =? 200 then
        {| ev_Type := EventHeartbeatOK; ev_Message := "heartbeat accepted";
           ev_Data := DataHeartbeat resp |}
      else if statusCode =? 429 then
        {| ev_Type := EventHeartbeatRejected;
           ev_Message := "seat limit reached"; ev_Data := DataHeartbeat resp |}
      else
        {| ev_Type := EventHeartbeatError;
           ev_Message := "heartbeat returned status " ++ itoa statusCode;
           ev_Data := DataHeartbeat resp |}
  end.

(** The interval after a heartbeat send, in the words of the specification:
    on HTTP success, the interval the server specifies (a positive number of
    seconds) if it specifies one; the current interval otherwise. *)
Definition spec_heartbeat_interval (statusCode : Z) (err : option error)
  (resp : HeartbeatStatus) (current : Duration) : Duration :=
  match err with
  | Some _ => current
  | None =>
      if (statusCode =? 200) && (0 <? hs_HeartbeatInterval resp)
      then Duration_mul (hs_HeartbeatInterval resp) Second
      else current
  end.

(** Stored License and stored token as before. *)
Definition pair_kept (c c' : Client) : Prop :=
  license c' = license c /\ signedToken c' = signedToken c.

(** Stored License and stored token replaced together: the License is the
    one of the stored token. *)
Definition pair_committed (c' : Client) : Prop :=
  exists l, license c' = Some l /\ SignedToken l = signedToken c'.

(** Stored License and stored token replaced together by one verification:
    the License is the one Validate builds from [payload], the payload of
    [token], when the clock reads [now], and the token is [token]. *)
Definition pair_replaced (c' : Client) (payload : tokenPayload)
  (token : string) (now : Time) : Prop :=
  license c' = Some (checked_license payload token now)
  /\ signedToken c' = token.

(** The stored token replaced alone by [token]; the stored License as
    before. *)
Definition token_only (c c' : Client) (token : string) : Prop :=
  license c' = license c /\ signedToken c' = token.

(** The token Renew and RenewResult send: the stored one, else the
    configured one. *)
Definition renewal_token (c : Client) : string :=
  if is_empty (signedToken c) then cfg_token (cfg c) else signedToken c.

(** The renewal request is answered: the client is open, a server URL and a
    token resolve, and the POST to the renewal endpoint returns status 200
    and no error, with [result] decoded and the network left as [net]. *)
Definition renewal_answered {P : Platform} (c : Client) (w : World)
  (net : Net) (result : RenewalResult) : Prop :=
  closed c = false
  /\ resolveServerURL c <> ""
  /\ renewal_token c <> ""
  /\ postJSON json_Unmarshal_RenewalResult (http c)
       (resolveServerURL c ++ "/api/v1/licenses/renew")
       [("signed_token", JString (renewal_token c))]
       RenewalResult_zero (w_net w)
     = (net, (200, None, result)).

(** The cache of the client holds a License with Valid = true: what the
    fallback of Validate returns, with a nil error, for a token that does
    not verify. *)
Definition cache_offers_valid {P : Platform} (c : Client) (w : World)
  : Prop :=
  exists cached,
    cache_load (cache c) (w_fs w) = inl cached /\ Valid cached = true.

(** An option that leaves the verification key of the configuration as it
    is. *)
Definition keeps_publicKey (o : Option) : Prop :=
  forall cfg, cfg_publicKey (o cfg) = cfg_publicKey cfg.

(** The buffer of Events after an operation: what it held, then at most one
    more event, and no more than the channel's capacity unless it already
    held more. *)
Definition events_extended (c c' : Client) : Prop :=
  exists suffix,
    Events c' = (Events c ++ suffix)%list
    /\ (List.length suffix <= 1)%nat
    /\ (List.length (Events c')
        <= Nat.max eventsChannelSize (List.length (Events c)))%nat.

(** The token StartHeartbeat and Renew send: the stored one, else the
    configured one. *)
Definition stored_or_configured (c : Client) : string :=
  if is_empty (signedToken c) then cfg_token (cfg c) else signedToken c.

(** The documented sentinels of ValidationError.Is. *)
Definition documented_sentinels : list error :=
  [ErrInvalidSignature; ErrTokenMalformed; ErrLicenseExpired;
   ErrLicenseRevoked; ErrServerUnreachable; ErrSeatLimitReached;
   ErrRenewalDenied].

(** * A platform to run the definitions on

    [Sample.platform] gives the fields of [Platform] by small executable
    stand-ins, so that the methods can be evaluated on concrete clients,
    tokens and worlds: padded standard base64 is decoded as it is; a
    signature is 64 copies of a one-byte digest of key and message; JSON is
    decoded by looking the document up among the documents of the examples;
    the files are an association list from path to content; the network is
    the list of the replies still to come. *)

Module Base64.

Definition alphabet : string :=
  "ABCDEFGHIJKLMNOPQRSTUVWXYZabcdefghijklmnopqrstuvwxyz0123456789+/".

Fixpoint index_of (a : ascii) (s : string) (i : N) : option N :=
  match s with
  | EmptyString => None
  | String b rest =>
      if Ascii.eqb a b then Some i else index_of a rest (i + 1)%N
  end.

Definition sextet (a : ascii) : option N := index_of a alphabet 0%N.

Definition letter (n : N) : ascii :=
  match String.get (N.to_nat n) alphabet with
  | Some a => a
  | None => "A"%char
  end.

Definition byte_of_N (n : N) : byte :=
  match Byte.of_N (n mod 256) with
  | Some b => b
  | None => x00
  end.

Definition pad : ascii := "="%char.

Fixpoint decode_quanta (l : list ascii) : option bytes :=
  match l with
  | [] => Some []
  | a :: b :: c :: d :: rest =>
      match sextet a, sextet b with
      | Some x, Some y =>
          if Ascii.eqb c pad then
            if Ascii.eqb d pad && Nat.eqb (List.length rest) 0
            then Some [byte_of_N (x * 4 + y / 16)]
            else None
          else
            match sextet c with
            | None => None
            | Some z =>
                if Ascii.eqb d pad then
                  if Nat.eqb (List.length rest) 0
                  then Some [byte_of_N (x * 4 + y / 16);
                             byte_of_N (y mod 16 * 16 + z / 4)]
                  else None
                else
                  match sextet d, decode_quanta rest with
                  | Some t, Some tail =>
                      Some (byte_of_N (x * 4 + y / 16)
                            :: byte_of_N (y mod 16 * 16 + z / 4)
                            :: byte_of_N (z mod 4 * 64 + t) :: tail)
                  | _, _ => None
                  end
            end
      | _, _ => None
      end
  | _ => None
  end%N.

Definition is_newline (a : ascii) : bool :=
  Ascii.eqb a "010"%char || Ascii.eqb a "013"%char.

Definition DecodeString (s : string) : bytes + error :=
  match decode_quanta
          (filter (fun a => negb (is_newline a)) (list_ascii_of_string s))
  with
  | Some decoded => inl decoded
  | None => inr (lib_error "illegal base64 data")
  end.

Fixpoint encode_quanta (l : bytes) : list ascii :=
  match l with
  | [] => []
  | [a] =>
      let x := Byte.to_N a in
      [letter (x / 4); letter (x mod 4 * 16); pad; pad]
  | [a; b] =>
      let x := Byte.to_N a in
      let y := Byte.to_N b in
      [letter (x / 4); letter (x mod 4 * 16 + y / 16);
       letter (y mod 16 * 4); pad]
  | a :: b :: c :: rest =>
      let x := Byte.to_N a in
      let y := Byte.to_N b in
      let z := Byte.to_N c in
      letter (x / 4) :: letter (x mod 4 * 16 + y / 16)
      :: letter (y mod 16 * 4 + z / 64) :: letter (z mod 64)
      :: encode_quanta rest
  end%N.

Definition EncodeToString (l : bytes) : string :=
  string_of_list_ascii (encode_quanta l).

End Base64.

Module Sample.

(** *** Signatures *)

Fixpoint bytes_eqb (a b : bytes) : bool :=
  match a, b with
  | [], [] => true
  | x :: a, y :: b => Byte.eqb x y && bytes_eqb a b
  | _, _ => false
  end.

Definition digest (key message : bytes) : byte :=
  Base64.byte_of_N
    (fold_left (fun acc b => (acc * 31 + Byte.to_N b) mod 256)%N
       (key ++ message)%list 7%N).

Definition sign (key message : bytes) : bytes :=
  repeat (digest key message) ed25519_SignatureSize.

Definition verify (key message sig : bytes) : bool :=
  bytes_eqb sig (sign key message).

(** *** JSON documents *)

Definition dq : string := String "034"%char "".
Definition jstr (v : string) : string := dq ++ v ++ dq.
Definition jdoc (fields : list (string * string)) : string :=
  "{"
  ++ String.concat "," (map (fun kv => jstr (fst kv) ++ ":" ++ snd kv) fields)
  ++ "}".

Definition render_body (b : JSONBody) : string :=
  jdoc (map (fun kv =>
               (fst kv,
                match snd kv with
                | JString s => jstr s
                | JObject fs =>
                    jdoc (map (fun f => (fst f, jstr (snd f))) fs)
                end)) b).

Definition lookup {A : Type} (table : list (string * A)) (doc : bytes)
  : A + error :=
  match find (fun e => String.eqb (fst e) (string_of_list_byte doc)) table with
  | Some e => inl (snd e)
  | None => inr (lib_error "invalid character")
  end.

Definition payload_of (id expires server : string) (expiresAt : Time)
  : string * tokenPayload :=
  (jdoc [("license_id", jstr id); ("expires_at", jstr expires);
         ("server_url", jstr server)],
   {| p_LicenseID := id; p_ProductID := ""; p_LicenseKey := "";
      p_Licensee := ""; p_Plan := ""; p_Features := None; p_MaxSeats := 0;
      p_IssuedAt := 0; p_ExpiresAt := expiresAt; p_ServerURL := server |}).

(** A payload that expired one second after the zero time, one that expires
    two days after it and names a server, and one that never expires. *)
Definition expired := payload_of "L-1" "0001-01-01T00:00:01Z" "" Second.
Definition expiring :=
  payload_of "L-2" "0001-01-03T00:00:00Z" "https://license.example"
    (48 * Hour).
Definition perpetual := payload_of "L-3" "0001-01-01T00:00:00Z" "" 0.

Definition payloads : list (string * tokenPayload) :=
  [expired; expiring; perpetual].

(** *** Keys and tokens *)

Definition key : bytes := repeat x01 ed25519_PublicKeySize.
Definition key_b64 : string := Base64.EncodeToString key.

Definition token_of (doc : string) : string :=
  let message := list_byte_of_string doc in
  Base64.EncodeToString (sign key message ++ message)%list.

(** The signature of one document in front of another. *)
Definition tampered_token (signed_doc doc : string) : string :=
  Base64.EncodeToString
    (sign key (list_byte_of_string signed_doc) ++ list_byte_of_string doc)%list.

Definition expired_token : string := token_of (fst expired).
Definition expiring_token : string := token_of (fst expiring).
Definition perpetual_token : string := token_of (fst perpetual).
Definition forged_token : string := tampered_token (fst expiring) (fst perpetual).

(** *** Cached licenses and server replies *)

Definition cached_license : License :=
  payloadToLicense (snd perpetual) perpetual_token true.
Definition cached_doc : string :=
  jdoc [("valid", "true"); ("license_id", jstr "L-3");
        ("signed_token", jstr perpetual_token)].

Definition renewal : string * RenewalResult :=
  (jdoc [("status", jstr "renewed"); ("signed_token", jstr expiring_token)],
   {| rr_Status := "renewed"; rr_SignedToken := expiring_token;
      rr_IssuedAt := ""; rr_ExpiresAt := ""; rr_PreviousExpiresAt := "" |}).

Definition status_of (interval : Z) : string * HeartbeatStatus :=
  (jdoc [("status", jstr "ok"); ("heartbeat_interval", itoa interval)],
   {| hs_Status := "ok"; hs_ActiveSessions := 0; hs_MaxSessions := 0;
      hs_RemainingSessions := 0; hs_HeartbeatInterval := interval;
      hs_GracePeriod := 0; hs_LicenseID := ""; hs_ProductID := "" |}).

Definition statuses : list (string * HeartbeatStatus) :=
  [status_of 0; status_of 45; status_of 10000000000].

(** *** Files and network *)

Definition Files := list (string * bytes).

Definition read_file (path : string) (fs : Files) : bytes + error :=
  match find (fun f => String.eqb (fst f) path) fs with
  | Some f => inl (snd f)
  | None => inr (lib_error ("open " ++ path ++ ": no such file or directory"))
  end.

Definition reply (status : Z) (doc : string) : Response + error :=
  inl {| resp_StatusCode := status;
         resp_Body := inl (list_byte_of_string doc) |}.

Definition refused : Response + error :=
  inr (lib_error "dial tcp: connection refused").

Definition platform : Platform :=
  {| base64_StdEncoding_DecodeString := Base64.DecodeString;
     ed25519_Verify := verify;
     json_Unmarshal_tokenPayload := lookup payloads;
     json_Marshal_License := fun l =>
       if String.eqb (LicenseID l) "L-3"
       then inl (list_byte_of_string cached_doc)
       else inl (list_byte_of_string
                   (jdoc [("license_id", jstr (LicenseID l));
                          ("signed_token", jstr (SignedToken l))]));
     json_Unmarshal_License := lookup [(cached_doc, cached_license)];
     json_Marshal_body := fun b => inl (list_byte_of_string (render_body b));
     json_Unmarshal_RenewalResult := lookup [renewal];
     json_Unmarshal_HeartbeatStatus := lookup statuses;
     json_Unmarshal_status := lookup [(jdoc [("status", jstr "ok")], "ok")];
     filepath_Join := String.concat "/";
     xdg_CacheHome := "/home/user/.cache";
     os_TempDir := "/tmp";
     os_ErrNotExist := lib_error "file does not exist";
     FS := Files;
     os_MkdirAll := fun _ fs => (fs, None);
     os_WriteFile := fun path data fs => ((path, data) :: fs, None);
     os_ReadFile := read_file;
     Net := list (Response + error);
     http_NewRequest := fun _ _ _ => inl tt;
     http_Client_Do := fun _ _ net =>
       match net with
       | [] => ([], refused)
       | r :: rest => (rest, r)
       end |}.

(** A world whose clock gives the readings [times], one after the other
    (and the zero time when they are used up). *)
Definition world (times : list Time) (fs : Files)
  (net : list (Response + error)) : @World platform :=
  @Build_World platform fs net (fun n => nth n times 0) 0%nat [].

Definition cache_path : string := "/tmp/licenseedict/license_cache.json".

(** *** Clients and inputs of the examples *)

(** A client with the sample key, one that has no cache besides, one with a
    server and a token but no key, and one with all three. *)
Definition keyed_client : Client :=
  fst (NewClient (P:=platform) [WithPublicKey (P:=platform) key_b64]).
Definition uncached_client : Client :=
  fst (NewClient (P:=platform)
         [WithPublicKey (P:=platform) key_b64; WithoutCache]).
Definition keyless_client : Client :=
  fst (NewClient (P:=platform)
         [WithServerURL "https://license.example"; WithToken expired_token]).
Definition renewing_client : Client :=
  fst (NewClient (P:=platform)
         [WithPublicKey (P:=platform) key_b64;
          WithServerURL "https://license.example"; WithToken expired_token]).

(** A client whose key is not the one the sample tokens are signed with. *)
Definition other_key : bytes := x02 :: tl key.
Definition mismatched_client : Client :=
  fst (NewClient (P:=platform)
         [WithPublicKeyRaw (Some other_key);
          WithServerURL "https://license.example"; WithToken expired_token]).

(** A client whose stored token and configured token differ. *)
Definition stocked_client : Client :=
  set_cfg (set_token perpetual_token (cfg keyed_client))
    (set_signedToken expired_token keyed_client).

(** Ten hours after the zero time, and a second later. *)
Definition ten_hours : list Time := [10 * Hour; 10 * Hour + Second].

Definition cached_files : Files :=
  [(cache_path, list_byte_of_string cached_doc)].

Definition bad_signature : error :=
  ValidationError InvalidLicenseSignature
    "Ed25519 signature verification failed" None.

End Sample.

(** * Properties *)

(** ** Token verification *)

Lemma is_empty_true (s : string) : is_empty s = true <-> s = "".
Proof. destruct s; simpl; split; congruence. Qed.

Lemma is_empty_false (s : string) : is_empty s = false <-> s <> "".
Proof. destruct s; simpl; split; congruence. Qed.

Section TokenProperties.
Context {P : Platform}.

(** The token format: a decoded token that is a 64-byte signature followed
    by a non-empty payload is longer than the signature, and the two slices
    verifyToken takes are that signature and that payload. *)
Lemma signed_layout (sig payloadBytes : bytes) :
  List.length sig = ed25519_SignatureSize ->
  payloadBytes <> [] ->
  too_short (sig ++ payloadBytes)%list = false
  /\ firstn ed25519_SignatureSize (sig ++ payloadBytes)%list = sig
  /\ skipn ed25519_SignatureSize (sig ++ payloadBytes)%list = payloadBytes.
Proof.
  intros Hlen Hne. repeat split.
  - assert (Hpos : (0 < List.length payloadBytes)%nat)
      by (destruct payloadBytes; [congruence | simpl; lia]).
    unfold too_short. apply Nat.leb_gt. rewrite length_app, Hlen. lia.
  - rewrite <- Hlen. rewrite firstn_app, Nat.sub_diag, firstn_all. simpl.
    apply app_nil_r.
  - rewrite <- Hlen. rewrite skipn_app, Nat.sub_diag, skipn_all. reflexivity.
Qed.

Lemma verifyToken_rejects (pubKey : bytes) (signedToken : string)
  (combined : bytes) :
  base64_StdEncoding_DecodeString signedToken = inl combined ->
  too_short combined = false ->
  ed25519_Verify pubKey (skipn ed25519_SignatureSize combined)
    (firstn ed25519_SignatureSize combined) = false ->
  verifyToken pubKey signedToken
  = inr (ValidationError InvalidLicenseSignature
           "Ed25519 signature verification failed" None).
Proof.
  intros Hdec Hlen Hsig. unfold verifyToken.
  rewrite Hdec, Hlen, Hsig. reflexivity.
Qed.

(** C4. A token that decodes from base64 to more than 64 bytes and whose
    payload bytes (all after the first 64) do not verify against its
    signature (the first 64) under the key makes verifyToken fail with the
    code InvalidLicenseSignature and return no payload.  In particular a
    token that encodes the signature of a signed token followed by a
    different, non-empty payload which that signature does not verify fails
    with the invalid-signature code and not with the decode-error code. *)
Theorem verifyToken_invalid_signature :
  (forall (pubKey : bytes) (signedToken : string) (combined : bytes),
      base64_StdEncoding_DecodeString signedToken = inl combined ->
      (ed25519_SignatureSize < List.length combined)%nat ->
      ed25519_Verify pubKey (skipn ed25519_SignatureSize combined)
        (firstn ed25519_SignatureSize combined) = false ->
      verifyToken pubKey signedToken
      = inr (ValidationError InvalidLicenseSignature
               "Ed25519 signature verification failed" None)
      /\ (forall payload, verifyToken pubKey signedToken <> inl payload))
  /\
  (forall (pubKey : bytes) (original tampered : string)
          (signature payloadBytes tamperedPayload : bytes),
      base64_StdEncoding_DecodeString original
      = inl (signature ++ payloadBytes)%list ->
      List.length signature = ed25519_SignatureSize ->
      ed25519_Verify pubKey payloadBytes signature = true ->
      base64_StdEncoding_DecodeString tampered
      = inl (signature ++ tamperedPayload)%list ->
      tamperedPayload <> [] ->
      tamperedPayload <> payloadBytes ->
      ed25519_Verify pubKey tamperedPayload signature = false ->
      exists err,
        verifyToken pubKey tampered = inr err
        /\ error_Code err = Some InvalidLicenseSignature
        /\ error_Code err <> Some LicenseDecodeError).
Proof.
  split.
  - intros pubKey signedToken combined Hdec Hlen Hsig.
    assert (Hshort : too_short combined = false)
      by (unfold too_short; apply Nat.leb_gt; exact Hlen).
    rewrite (verifyToken_rejects _ _ Hdec Hshort Hsig).
    split; [reflexivity | discriminate].
  - intros pubKey original tampered signature payloadBytes tamperedPayload
      _ Hlen _ Hdec Hne _ Hsig.
    destruct (signed_layout signature Hlen Hne) as (Hshort & Hfst & Hskp).
    eexists. split.
    + apply (verifyToken_rejects _ _ Hdec Hshort).
      rewrite Hfst, Hskp. exact Hsig.
    + split; [reflexivity | discriminate].
Qed.

End TokenProperties.

(** ** The validation engine *)

Section ValidateProperties.
Context {P : Platform}.

Lemma Validate_token_spec (args : list string) (c : Client) :
  match spec_resolve_token (hd_error args) (signedToken c) (cfg_token (cfg c))
  with
  | Some token => Validate_token args c = token /\ is_empty token = false
  | None => Validate_token args c = ""
  end.
Proof.
  unfold spec_resolve_token, Validate_token.
  destruct args as [|[|a s] rest];
    destruct (signedToken c) as [|a1 s1];
    destruct (cfg_token (cfg c)) as [|a2 s2];
    simpl; auto.
Qed.

(** Validate past its guards: verify, then fall back or commit. *)
Lemma Validate_verifies (args : list string) (c : Client) (w : World)
  (publicKey : bytes) :
  closed c = false ->
  is_empty (Validate_token args c) = false ->
  cfg_publicKey (cfg c) = Some publicKey ->
  Validate args c w
  = match verifyToken publicKey (Validate_token args c) with
    | inr err =>
        match cache_load (cache c) (w_fs w) with
        | inl cached => (c, w, (cached, None))
        | inr _ => (c, w, (License_zero, Some err))
        end
    | inl payload => Validate_commit payload (Validate_token args c) c w
    end.
Proof.
  intros Hopen Htok Hkey. unfold Validate. rewrite Hopen, Htok, Hkey.
  reflexivity.
Qed.

(** Validate on a token that does not verify: the client and the world as
    they were, and the cached License or the verifier's error. *)
Lemma Validate_falls_back (args : list string) (c : Client) (w : World)
  (publicKey : bytes) (err : error) :
  closed c = false ->
  Validate_token args c <> "" ->
  cfg_publicKey (cfg c) = Some publicKey ->
  verifyToken publicKey (Validate_token args c) = inr err ->
  Validate args c w
  = match cache_load (cache c) (w_fs w) with
    | inl cached => (c, w, (cached, None))
    | inr _ => (c, w, (License_zero, Some err))
    end.
Proof.
  intros Hopen Htok Hkey Hver. apply is_empty_false in Htok.
  rewrite (Validate_verifies args c w Hopen Htok Hkey), Hver.
  reflexivity.
Qed.

Lemma checked_license_fields (payload : tokenPayload) (token : string)
  (now : Time) :
  SignedToken (checked_license payload token now) = token
  /\ ServerURL (checked_license payload token now) = p_ServerURL payload
  /\ ExpiresAt (checked_license payload token now) = p_ExpiresAt payload.
Proof.
  unfold checked_license.
  destruct (negb (Time_IsZero (p_IssuedAt payload))
            && Time_Before now (p_IssuedAt payload));
    destruct (negb (Time_IsZero (p_ExpiresAt payload))
              && Time_After now (p_ExpiresAt payload));
    simpl; auto.
Qed.

Lemma committed_client_fields (payload : tokenPayload) (token : string)
  (c : Client) (now : Time) :
  let c' := committed_client payload token c now in
  license c' = Some (checked_license payload token now)
  /\ signedToken c' = token
  /\ cache c' = cache c
  /\ closed c' = closed c
  /\ Events c' = Events c
  /\ hb c' = hb c
  /\ http c' = http c
  /\ cfg_publicKey (cfg c') = cfg_publicKey (cfg c)
  /\ cfg_token (cfg c') = cfg_token (cfg c)
  /\ cfg_disableAutoRenew (cfg c') = cfg_disableAutoRenew (cfg c)
  /\ cfg_offlineOnly (cfg c') = cfg_offlineOnly (cfg c)
  /\ cfg_renewBefore (cfg c') = cfg_renewBefore (cfg c).
Proof.
  unfold committed_client.
  destruct (is_empty (cfg_serverURL (cfg c))
            && negb (is_empty (ServerURL (checked_license payload token now))));
    simpl; repeat split; reflexivity.
Qed.

(** Validate_commit, step by step: one clock reading, the commit, the cache
    save, the renewal decision. *)
Lemma Validate_commit_eq (payload : tokenPayload) (token : string)
  (c : Client) (w : World) :
  let now := w_clock w (w_reads w) in
  let license := checked_license payload token now in
  let c' := committed_client payload token c now in
  Validate_commit payload token c w
  = (c',
     maybeAutoRenew c' (Some license)
       (set_fs (fst (cache_save (cache c) license (w_fs w)))
          (snd (time_Now w))),
     (license, None)).
Proof.
  unfold Validate_commit, committed_client, checked_license, time_Now.
  cbv zeta.
  match goal with
  | |- context [cache_save ?cm ?l ?fs] =>
      destruct (cache_save cm l fs) as [fs' e] eqn:Hsave
  end.
  revert Hsave.
  destruct (is_empty (cfg_serverURL (cfg c)) && _); simpl;
    intros Hsave; rewrite Hsave; reflexivity.
Qed.

End ValidateProperties.

Section EngineProperties.
Context {P : Platform}.

Lemma maybeAutoRenew_frame (c : Client) (lic : option License) (w : World) :
  w_fs (maybeAutoRenew c lic w) = w_fs w
  /\ w_net (maybeAutoRenew c lic w) = w_net w
  /\ w_clock (maybeAutoRenew c lic w) = w_clock w.
Proof.
  unfold maybeAutoRenew, time_Now, go.
  destruct (cfg_disableAutoRenew (cfg c) || cfg_offlineOnly (cfg c)); auto.
  destruct lic as [l|]; auto.
  destruct (negb (Valid l) || Time_IsZero (ExpiresAt l)); auto.
  simpl. destruct (_ <? _); simpl; auto.
Qed.

Lemma cons_neq {A : Type} (a : A) (l : list A) : a :: l <> l.
Proof.
  intros H. apply (f_equal (@List.length A)) in H. simpl in H.
  apply (Nat.neq_succ_diag_l _ H).
Qed.

Lemma maybeAutoRenew_spec (c : Client) (lic : option License) (w : World) :
  (renewal_due c lic (w_clock w (w_reads w))
   /\ w_goroutines (maybeAutoRenew c lic w) = go_autoRenew :: w_goroutines w)
  \/ (~ renewal_due c lic (w_clock w (w_reads w))
      /\ w_goroutines (maybeAutoRenew c lic w) = w_goroutines w).
Proof.
  unfold maybeAutoRenew, renewal_due, renew_threshold, time_Now, go.
  destruct (cfg_disableAutoRenew (cfg c)) eqn:Hd; simpl.
  { right. split; [intros (H & _); discriminate | reflexivity]. }
  destruct (cfg_offlineOnly (cfg c)) eqn:Ho; simpl.
  { right. split; [intros (_ & H & _); discriminate | reflexivity]. }
  destruct lic as [l|].
  2: { right. split; [intros (_ & _ & l & H & _); discriminate | reflexivity]. }
  destruct (Valid l) eqn:Hv; simpl.
  2: { right. split; [|reflexivity].
       intros (_ & _ & l' & Hl & Hv' & _). inversion Hl; subst. congruence. }
  destruct (Time_IsZero (ExpiresAt l)) eqn:Hz; simpl.
  { right. split; [|reflexivity].
    intros (_ & _ & l' & Hl & _ & He & _). inversion Hl; subst.
    unfold Time_IsZero in Hz. apply Z.eqb_eq in Hz. contradiction. }
  unfold Time_IsZero in Hz. apply Z.eqb_neq in Hz.
  match goal with
  | |- context [?a <? ?b] => destruct (a <? b) eqn:Hlt
  end; simpl.
  - right. split; [|reflexivity].
    intros (_ & _ & l' & Hl & _ & _ & Hle). inversion Hl; subst.
    apply Z.ltb_lt in Hlt. lia.
  - left. split; [|reflexivity].
    repeat split; auto. exists l. repeat split; auto.
    apply Z.ltb_ge in Hlt. exact Hlt.
Qed.

(** C3. When the verification of the resolved token fails, Validate returns
    the cached license as it is with a nil error if loading the cache
    succeeds, and otherwise the verifier's error with an empty License. *)
Theorem Validate_cache_fallback (args : list string) (c : Client) (w : World)
  (publicKey : bytes) (err : error) :
  closed c = false ->
  Validate_token args c <> "" ->
  cfg_publicKey (cfg c) = Some publicKey ->
  verifyToken publicKey (Validate_token args c) = inr err ->
  (forall cached,
      cache_load (cache c) (w_fs w) = inl cached ->
      snd (Validate args c w) = (cached, None))
  /\ (forall cacheErr,
         cache_load (cache c) (w_fs w) = inr cacheErr ->
         snd (Validate args c w) = (License_zero, Some err)).
Proof.
  intros Hopen Htok Hkey Hver. apply is_empty_false in Htok.
  rewrite (Validate_verifies _ _ w Hopen Htok Hkey), Hver.
  split; intros x Hload; rewrite Hload; reflexivity.
Qed.

(** C9. On the cache-fallback path (the verification of the resolved token
    fails) Validate leaves the client as it was, stored License and stored
    token included, and leaves the world as it was: no file is written, no
    clock is read and no renewal goroutine is started; the cached license is
    only returned. *)
Theorem Validate_fallback_frame (args : list string) (c : Client) (w : World)
  (publicKey : bytes) (err : error) :
  closed c = false ->
  Validate_token args c <> "" ->
  cfg_publicKey (cfg c) = Some publicKey ->
  verifyToken publicKey (Validate_token args c) = inr err ->
  fst (Validate args c w) = (c, w)
  /\ license (fst (fst (Validate args c w))) = license c
  /\ signedToken (fst (fst (Validate args c w))) = signedToken c
  /\ w_fs (snd (fst (Validate args c w))) = w_fs w
  /\ w_goroutines (snd (fst (Validate args c w))) = w_goroutines w
  /\ w_reads (snd (fst (Validate args c w))) = w_reads w.
Proof.
  intros Hopen Htok Hkey Hver. apply is_empty_false in Htok.
  rewrite (Validate_verifies _ _ w Hopen Htok Hkey), Hver.
  destruct (cache_load (cache c) (w_fs w)); simpl; repeat split; reflexivity.
Qed.

(** C5. On a client that is not closed, Validate uses the token the
    resolution rule of the specification gives (explicit non-empty argument,
    else stored token, else configured token): with none it fails with
    ErrNoToken; with one but no key it fails with ErrNoPublicKey; with one
    and a key that token is the one verified, and on success the one
    committed. *)
Theorem Validate_resolution (args : list string) (c : Client) (w : World) :
  closed c = false ->
  match spec_resolve_token (hd_error args) (signedToken c) (cfg_token (cfg c))
  with
  | None => Validate args c w = (c, w, (License_zero, Some ErrNoToken))
  | Some token =>
      match cfg_publicKey (cfg c) with
      | None => Validate args c w = (c, w, (License_zero, Some ErrNoPublicKey))
      | Some publicKey =>
          match verifyToken publicKey token with
          | inr err =>
              Validate args c w
              = match cache_load (cache c) (w_fs w) with
                | inl cached => (c, w, (cached, None))
                | inr _ => (c, w, (License_zero, Some err))
                end
          | inl payload =>
              Validate args c w = Validate_commit payload token c w
              /\ signedToken (fst (fst (Validate args c w))) = token
              /\ SignedToken (fst (snd (Validate args c w))) = token
          end
      end
  end.
Proof.
  intros Hopen. pose proof (Validate_token_spec args c) as Hspec.
  destruct (spec_resolve_token _ _ _) as [token|].
  - destruct Hspec as [Heq Hne].
    destruct (cfg_publicKey (cfg c)) as [publicKey|] eqn:Hkey.
    + rewrite <- Heq in Hne.
      rewrite (Validate_verifies _ _ w Hopen Hne Hkey), Heq.
      destruct (verifyToken publicKey token) as [payload|err]; [|reflexivity].
      rewrite Validate_commit_eq. cbv zeta. simpl.
      destruct (committed_client_fields payload token c
                  (w_clock w (w_reads w))) as (_ & Hs & _).
      destruct (checked_license_fields payload token
                  (w_clock w (w_reads w))) as (Hl & _).
      auto.
    + unfold Validate. rewrite Hopen, Heq, Hne, Hkey. reflexivity.
  - unfold Validate. rewrite Hopen, Hspec. reflexivity.
Qed.

Lemma Validate_commit_fields (payload : tokenPayload) (token : string)
  (c : Client) (w : World) :
  let now := w_clock w (w_reads w) in
  let license := checked_license payload token now in
  let r := Validate_commit payload token c w in
  snd r = (license, None)
  /\ fst (fst r) = committed_client payload token c now
  /\ w_fs (snd (fst r)) = fst (cache_save (cache c) license (w_fs w))
  /\ ((renewal_due (fst (fst r)) (Some license) (w_clock w (S (w_reads w)))
       /\ w_goroutines (snd (fst r)) = go_autoRenew :: w_goroutines w)
      \/ (~ renewal_due (fst (fst r)) (Some license)
              (w_clock w (S (w_reads w)))
          /\ w_goroutines (snd (fst r)) = w_goroutines w)).
Proof.
  cbv zeta. rewrite Validate_commit_eq. cbv zeta. simpl.
  repeat split.
  - apply maybeAutoRenew_frame.
  - apply (maybeAutoRenew_spec
             (committed_client payload token c (w_clock w (w_reads w)))
             (Some (checked_license payload token (w_clock w (w_reads w))))
             (set_fs (fst (cache_save (cache c)
                             (checked_license payload token
                                (w_clock w (w_reads w))) (w_fs w)))
                (snd (time_Now w)))).
Qed.

(** What cacheManager.save does to the files. *)
Lemma cache_save_files (cm : cacheManager) (l : License) (fs : FS) :
  (disabled cm = true \/ dir cm = "" -> cache_save cm l fs = (fs, None))
  /\ (disabled cm = false -> dir cm <> "" ->
      forall fs1 data,
        os_MkdirAll (dir cm) fs = (fs1, None) ->
        json_Marshal_License l = inl data ->
        cache_save cm l fs
        = os_WriteFile (filepath_Join [dir cm; cacheFileName]) data fs1).
Proof.
  unfold cache_save. split.
  - intros [Hd | Hd].
    + rewrite Hd. reflexivity.
    + apply is_empty_true in Hd. rewrite Hd, orb_true_r. reflexivity.
  - intros Hd Hdir fs1 data Hmk Hjs. apply is_empty_false in Hdir.
    rewrite Hd, Hdir, Hmk, Hjs. reflexivity.
Qed.

(** C2, as the code has it.  On a client that is not closed, a resolved
    token that verifies under the configured key and whose expires-at is set
    and earlier than the clock reading makes Validate return the License of
    the payload with Valid = false and a nil error, commit it, and hand it
    to cacheManager.save: with the cache enabled, the directory made and the
    License encoded, the encoding is written to the cache file; with the
    cache disabled or without a directory the files stay as they are. *)
Theorem Validate_expired (args : list string) (c : Client) (w : World)
  (publicKey : bytes) (token : string) (payload : tokenPayload) :
  closed c = false ->
  Validate_token args c = token ->
  token <> "" ->
  cfg_publicKey (cfg c) = Some publicKey ->
  verifyToken publicKey token = inl payload ->
  p_ExpiresAt payload <> 0 ->
  p_ExpiresAt payload < w_clock w (w_reads w) ->
  exists c' w' l,
    Validate args c w = (c', w', (l, None))
    /\ Valid l = false
    /\ l = payloadToLicense payload token false
    /\ license c' = Some l
    /\ signedToken c' = token
    /\ w_fs w' = fst (cache_save (cache c) l (w_fs w))
    /\ (disabled (cache c) = false -> dir (cache c) <> "" ->
        forall fs1 data,
          os_MkdirAll (dir (cache c)) (w_fs w) = (fs1, None) ->
          json_Marshal_License l = inl data ->
          w_fs w'
          = fst (os_WriteFile (filepath_Join [dir (cache c); cacheFileName])
                   data fs1))
    /\ (disabled (cache c) = true \/ dir (cache c) = "" -> w_fs w' = w_fs w).
Proof.
  intros Hopen Htok Hne Hkey Hver Hset Hpast. subst token.
  assert (Hne' := proj2 (is_empty_false _) Hne).
  rewrite (Validate_verifies _ _ w Hopen Hne' Hkey), Hver.
  destruct (Validate_commit_fields payload (Validate_token args c) c w)
    as (Hres & Hcl & Hfs & _).
  destruct (Validate_commit payload (Validate_token args c) c w)
    as [[c' w'] [l e]] eqn:Hrun.
  simpl in Hres, Hcl, Hfs. inversion Hres; subst l e. clear Hres.
  assert (Hlic : checked_license payload (Validate_token args c)
                   (w_clock w (w_reads w))
                 = payloadToLicense payload (Validate_token args c) false).
  { unfold checked_license.
    assert (Hz : Time_IsZero (p_ExpiresAt payload) = false)
      by (apply Z.eqb_neq; exact Hset).
    assert (Ha : Time_After (w_clock w (w_reads w)) (p_ExpiresAt payload)
                 = true) by (apply Z.ltb_lt; exact Hpast).
    rewrite Hz, Ha. simpl.
    destruct (negb (Time_IsZero (p_IssuedAt payload))
              && Time_Before (w_clock w (w_reads w)) (p_IssuedAt payload));
      reflexivity. }
  rewrite Hlic in *.
  destruct (committed_client_fields payload (Validate_token args c) c
              (w_clock w (w_reads w))) as (Hl & Hs & _).
  rewrite Hlic in Hl.
  exists c', w', (payloadToLicense payload (Validate_token args c) false).
  subst c'. repeat split; auto.
  - intros Hd Hdir fs1 data Hmk Hjs. rewrite Hfs.
    rewrite (proj2 (cache_save_files _ _ _) Hd Hdir fs1 data Hmk Hjs).
    reflexivity.
  - intros Hoff. rewrite Hfs.
    rewrite (proj1 (cache_save_files _ _ _) Hoff). reflexivity.
Qed.

(** Validate, by the path it takes: a return at a guard or on the fallback
    path leaves client and world as they were; otherwise it is the commit. *)
Lemma Validate_paths (args : list string) (c : Client) (w : World) :
  (~ Validate_commits args c /\ fst (Validate args c w) = (c, w))
  \/ (exists publicKey payload,
        closed c = false
        /\ Validate_token args c <> ""
        /\ cfg_publicKey (cfg c) = Some publicKey
        /\ verifyToken publicKey (Validate_token args c) = inl payload
        /\ Validate args c w
           = Validate_commit payload (Validate_token args c) c w).
Proof.
  unfold Validate, Validate_commits.
  destruct (closed c) eqn:Hopen.
  { left. split; [intros (H & _); discriminate | reflexivity]. }
  destruct (is_empty (Validate_token args c)) eqn:Htok.
  { left. split; [|reflexivity]. intros (_ & H & _).
    apply is_empty_true in Htok. contradiction. }
  apply is_empty_false in Htok.
  destruct (cfg_publicKey (cfg c)) as [publicKey|] eqn:Hkey.
  2: { left. split; [|reflexivity].
       intros (_ & _ & pk & p & H & _). discriminate. }
  destruct (verifyToken publicKey (Validate_token args c))
    as [payload|err] eqn:Hver.
  - right. exists publicKey, payload. auto.
  - left. split.
    + intros (_ & _ & pk & p & Hk & Hv). inversion Hk; subst. congruence.
    + destruct (cache_load (cache c) (w_fs w)); reflexivity.
Qed.

(** C6. After a Validate that returns a nil error, the renewal goroutine has
    been started exactly when the call committed a license (the resolved
    token verified), auto-renew is not disabled, the client is not
    offline-only, the committed license has Valid = true and a non-zero
    expires-at, and the time until expiry, read when maybeAutoRenew runs, is
    at most the configured threshold, or seven days when none is
    configured; in every other case the goroutines are as before. *)
Theorem Validate_auto_renew (args : list string) (c c' : Client)
  (w w' : World) (l : License) :
  Validate args c w = (c', w', (l, None)) ->
  let launched := w_goroutines w' = go_autoRenew :: w_goroutines w in
  let threshold :=
    if cfg_renewBefore (cfg c') =? 0 then 7 * 24 * Hour
    else cfg_renewBefore (cfg c') in
  (launched \/ w_goroutines w' = w_goroutines w)
  /\ (launched <->
      Validate_commits args c
      /\ license c' = Some l
      /\ cfg_disableAutoRenew (cfg c') = false
      /\ cfg_offlineOnly (cfg c') = false
      /\ Valid l = true
      /\ ExpiresAt l <> 0
      /\ time_Until (w_clock w (S (w_reads w))) (ExpiresAt l) <= threshold).
Proof.
  intros Hrun. cbv zeta.
  destruct (Validate_paths args c w) as [[Hno Hsame] | Hyes].
  - rewrite Hrun in Hsame. simpl in Hsame. inversion Hsame; subst c' w'.
    split; [right; reflexivity|]. split.
    + intros H. exfalso. symmetry in H. exact (cons_neq H).
    + intros (H & _). contradiction.
  - destruct Hyes as (publicKey & payload & Hopen & Htok & Hkey & Hver & Heq).
    assert (Hc : Validate_commits args c).
    { repeat split; auto. exists publicKey, payload. auto. }
    destruct (Validate_commit_fields payload (Validate_token args c) c w)
      as (Hres & Hcl & _ & Hgo).
    rewrite <- Heq, Hrun in Hres, Hcl, Hgo. simpl in Hres, Hcl, Hgo.
    injection Hres as Hl. rewrite <- Hl in Hgo.
    assert (Hlic : license c' = Some l).
    { rewrite Hcl, Hl.
      apply (committed_client_fields payload (Validate_token args c) c
               (w_clock w (w_reads w))). }
    unfold renewal_due, renew_threshold in Hgo.
    fold defaultRenewBefore.
    destruct Hgo as [[(Hd & Ho & l0 & Hl0 & Hv & He & Ht) Hg]
                    | [Hn Hg]].
    + injection Hl0 as Hl0. subst l0.
      split; [left; exact Hg|]. split; [intros _|intros _; exact Hg].
      split; [exact Hc|]. repeat split; assumption.
    + split; [right; exact Hg|]. split.
      * intros H. rewrite Hg in H. exfalso. symmetry in H.
        exact (cons_neq H).
      * intros (_ & _ & Hd & Ho & Hv & He & Ht). exfalso. apply Hn.
        split; [exact Hd|]. split; [exact Ho|].
        exists l. repeat split; assumption.
Qed.

Lemma Validate_keeps_serverURL (args : list string) (c : Client) (w : World) :
  cfg_serverURL (cfg c) <> "" ->
  cfg_serverURL (cfg (fst (fst (Validate args c w)))) = cfg_serverURL (cfg c).
Proof.
  intros Hset. destruct (Validate_paths args c w) as [[_ Hsame] | Hyes].
  - apply (f_equal fst) in Hsame. simpl in Hsame. rewrite Hsame.
    reflexivity.
  - destruct Hyes as (publicKey & payload & _ & _ & _ & _ & Heq).
    rewrite Heq, Validate_commit_eq. cbv zeta. simpl.
    unfold committed_client. apply is_empty_false in Hset.
    rewrite Hset. reflexivity.
Qed.

(** C8. A Validate that verifies a payload carrying a non-empty server URL
    while the configured server URL is empty adopts the payload's URL into
    the configuration; and once the configured server URL is non-empty, no
    run of Validate calls, whatever their arguments and worlds, changes
    it. *)
Theorem Validate_serverURL_first_write_wins :
  (forall (args : list string) (c : Client) (w : World) (publicKey : bytes)
          (payload : tokenPayload),
      closed c = false ->
      Validate_token args c <> "" ->
      cfg_publicKey (cfg c) = Some publicKey ->
      verifyToken publicKey (Validate_token args c) = inl payload ->
      cfg_serverURL (cfg c) = "" ->
      p_ServerURL payload <> "" ->
      cfg_serverURL (cfg (fst (fst (Validate args c w))))
      = p_ServerURL payload)
  /\ (forall (calls : list (list string * World)) (c : Client),
         cfg_serverURL (cfg c) <> "" ->
         cfg_serverURL (cfg (Validate_seq calls c)) = cfg_serverURL (cfg c)).
Proof.
  split.
  - intros args c w publicKey payload Hopen Htok Hkey Hver Hurl Hp.
    apply is_empty_false in Htok.
    rewrite (Validate_verifies _ _ w Hopen Htok Hkey), Hver.
    rewrite Validate_commit_eq. cbv zeta. simpl. unfold committed_client.
    destruct (checked_license_fields payload (Validate_token args c)
                (w_clock w (w_reads w))) as (_ & Hs & _).
    rewrite Hs, Hurl. apply is_empty_false in Hp. rewrite Hp. simpl.
    reflexivity.
  - induction calls as [|[args w] rest IH]; intros c Hset; simpl.
    + reflexivity.
    + rewrite IH; rewrite Validate_keeps_serverURL; auto.
Qed.

End EngineProperties.

(** ** The heartbeat sender *)

Section HeartbeatProperties.
Context {P : Platform}.

Lemma emitEvent_queue (e : Event) (c : Client) :
  ((List.length (Events c) < eventsChannelSize)%nat ->
   Events (emitEvent e c) = (Events c ++ [e])%list)
  /\ ((eventsChannelSize <= List.length (Events c))%nat ->
      Events (emitEvent e c) = Events c).
Proof.
  unfold emitEvent. split; intros H.
  - apply Nat.ltb_lt in H. rewrite H. reflexivity.
  - apply Nat.ltb_ge in H. rewrite H. reflexivity.
Qed.

Lemma emitEvent_frame (e : Event) (c : Client) :
  cfg (emitEvent e c) = cfg c
  /\ license (emitEvent e c) = license c
  /\ signedToken (emitEvent e c) = signedToken c
  /\ hb (emitEvent e c) = hb c
  /\ closed (emitEvent e c) = closed c.
Proof.
  unfold emitEvent.
  destruct (Nat.ltb _ _); simpl; repeat split; reflexivity.
Qed.

Lemma set_interval_same (c : Client) :
  set_hb (set_interval (interval (hb c)) (hb c)) c = c.
Proof. destruct c as [? ? ? ? ? h ? ?]. destruct h. reflexivity. Qed.

(** Within the int64 range the product of a number of seconds and
    [time.Second] is that many seconds. *)
Lemma Duration_mul_seconds (n : Z) :
  0 < n -> n * Second <= maxInt64 -> Duration_mul n Second = n * Second.
Proof.
  unfold Duration_mul, wrap64, maxInt64, Second. intros Hpos Hmax.
  rewrite Z.mod_small; lia.
Qed.

(** What postJSON returns once the server has answered: the status of the
    response, with the error of reading the body, or the caller's variable
    untouched for an empty body, or what decoding a non-empty body gives. *)
Lemma postJSON_response (R : Type) (json_Unmarshal : bytes -> R + error)
  (h : httpClient) (url : string) (body : JSONBody) (result : R)
  (net net' : Net) (data : bytes) (resp : Response) :
  json_Marshal_body body = inl data ->
  http_NewRequest MethodPost url data = inl tt ->
  http_Client_Do (client h)
    {| req_Method := MethodPost; req_URL := url; req_Body := data;
       req_ContentType := "application/json";
       req_UserAgent := userAgent h |} net
  = (net', inl resp) ->
  postJSON json_Unmarshal h url body result net
  = (net',
     match resp_Body resp with
     | inr cause =>
         (resp_StatusCode resp, Some (fmt_Errorf "read response" cause),
          result)
     | inl [] => (resp_StatusCode resp, None, result)
     | inl respBody =>
         match json_Unmarshal respBody with
         | inl decoded => (resp_StatusCode resp, None, decoded)
         | inr cause =>
             (resp_StatusCode resp,
              Some (fmt_Errorf "decode response" cause), result)
         end
     end).
Proof.
  intros Hm Hr Hd. unfold postJSON, sendJSON. rewrite Hm, Hr, Hd.
  destruct (resp_Body resp) as [[|b rest]|cause]; try reflexivity.
  simpl. destruct (json_Unmarshal (b :: rest)); reflexivity.
Qed.

(** postJSON returns a nil error only for a response it has received. *)
Lemma postJSON_no_error (R : Type) (json_Unmarshal : bytes -> R + error)
  (h : httpClient) (url : string) (body : JSONBody) (result decoded : R)
  (net net' : Net) (statusCode : Z) :
  postJSON json_Unmarshal h url body result net
  = (net', (statusCode, None, decoded)) ->
  exists data resp,
    json_Marshal_body body = inl data
    /\ http_NewRequest MethodPost url data = inl tt
    /\ http_Client_Do (client h)
         {| req_Method := MethodPost; req_URL := url; req_Body := data;
            req_ContentType := "application/json";
            req_UserAgent := userAgent h |} net
       = (net', inl resp)
    /\ resp_StatusCode resp = statusCode.
Proof.
  unfold postJSON, sendJSON.
  destruct (json_Marshal_body body) as [data|e] eqn:Hm; [|discriminate].
  destruct (http_NewRequest MethodPost url data) as [[]|e] eqn:Hr;
    [|discriminate].
  destruct (http_Client_Do _ _ _) as [net1 [resp|e]] eqn:Hdo;
    [|discriminate].
  intros Hrun. exists data, resp.
  assert (Hnet : net1 = net' /\ resp_StatusCode resp = statusCode).
  { destruct (resp_Body resp) as [respBody|e]; [|discriminate].
    destruct (Nat.ltb 0 (List.length respBody)).
    - destruct (json_Unmarshal respBody); [|discriminate].
      injection Hrun as Hn Hs _. auto.
    - injection Hrun as Hn Hs _. auto. }
  destruct Hnet as [-> Hst]. auto.
Qed.

(** A heartbeat send, from what postJSON returned: one emitEvent, with the
    event of the outcome, and the interval of the outcome. *)
Lemma sendHeartbeat_run (serverURL token : string) (c : Client) (w : World)
  (net' : Net) (statusCode : Z) (err : option error)
  (resp : HeartbeatStatus) :
  postJSON json_Unmarshal_HeartbeatStatus (http c)
    (serverURL ++ "/api/v1/concurrency/heartbeat")
    (heartbeat_body token (opts (hb c))) HeartbeatStatus_zero (w_net w)
  = (net', (statusCode, err, resp)) ->
  sendHeartbeat serverURL token c w
  = (set_hb (set_interval
               (spec_heartbeat_interval statusCode err resp
                  (interval (hb c))) (hb c))
       (emitEvent (spec_heartbeat_event statusCode err resp) c),
     set_net net' w).
Proof.
  intros Hpost.
  assert (Hsame : forall e,
    set_hb (set_interval (interval (hb c)) (hb c)) (emitEvent e c)
    = emitEvent e c).
  { intros e. destruct (emitEvent_frame e c) as (_ & _ & _ & Hhb & _).
    rewrite <- Hhb. apply set_interval_same. }
  unfold sendHeartbeat. cbv zeta. rewrite Hpost.
  unfold spec_heartbeat_event, spec_heartbeat_interval,
    http_StatusOK, http_StatusTooManyRequests.
  destruct err as [cause|].
  - rewrite Hsame. reflexivity.
  - destruct (statusCode =? 200) eqn:H200; simpl.
    + destruct (0 <? hs_HeartbeatInterval resp) eqn:Hpos.
      * destruct (emitEvent_frame
                    {| ev_Type := EventHeartbeatOK;
                       ev_Message := "heartbeat accepted";
                       ev_Data := DataHeartbeat resp |} c)
          as (_ & _ & _ & Hhb & _).
        rewrite Hhb. reflexivity.
      * rewrite Hsame. reflexivity.
    + destruct (statusCode =? 429); rewrite Hsame; reflexivity.
Qed.

(** C7, as the code has it.  A heartbeat send calls emitEvent exactly once,
    with the event of what postJSON returned; the event joins the channel
    when the buffer has room and is dropped when it is full.  When postJSON
    returns an error, the event is a HeartbeatError event with the error
    text and the interval stays: that is so when the request cannot be
    encoded, built or sent, and also when a response has arrived, whatever
    its status (200 and 429 included), whose body cannot be read or, being
    non-empty, does not decode.  When postJSON returns no error, a response
    has arrived whose body was empty (the status payload is then the zero
    value) or decoded, and: status 200 gives a HeartbeatOK event with the
    decoded status, and with a positive heartbeat interval in it the
    scheduler's interval becomes that number of seconds as a Duration (the
    int64 product, which is exactly that many seconds while it fits);
    status 429 gives a HeartbeatRejected event (and so no HeartbeatError
    event) and the interval stays; any other status gives a HeartbeatError
    event with the status code in its message and the decoded payload, and
    the interval stays. *)
Theorem sendHeartbeat_event (serverURL token : string) (c : Client)
  (w : World) (net' : Net) (statusCode : Z) (err : option error)
  (resp : HeartbeatStatus) :
  let url := serverURL ++ "/api/v1/concurrency/heartbeat" in
  let body := heartbeat_body token (opts (hb c)) in
  postJSON json_Unmarshal_HeartbeatStatus (http c) url body
    HeartbeatStatus_zero (w_net w)
  = (net', (statusCode, err, resp)) ->
  let e := spec_heartbeat_event statusCode err resp in
  let c' := fst (sendHeartbeat serverURL token c w) in
  let failed (cause : error) :=
    {| ev_Type := EventHeartbeatError; ev_Message := error_Error cause;
       ev_Data := DataNil |} in
  snd (sendHeartbeat serverURL token c w) = set_net net' w
  /\ c' = set_hb (set_interval
                   (spec_heartbeat_interval statusCode err resp
                      (interval (hb c))) (hb c)) (emitEvent e c)
  /\ Events c' = Events (emitEvent e c)
  /\ ((List.length (Events c) < eventsChannelSize)%nat ->
      Events c' = (Events c ++ [e])%list)
  /\ ((eventsChannelSize <= List.length (Events c))%nat ->
      Events c' = Events c)
  /\ (forall cause, err = Some cause ->
        e = failed cause /\ interval (hb c') = interval (hb c))
  /\ (forall data net1 r,
        json_Marshal_body body = inl data ->
        http_NewRequest MethodPost url data = inl tt ->
        http_Client_Do (client (http c))
          {| req_Method := MethodPost; req_URL := url; req_Body := data;
             req_ContentType := "application/json";
             req_UserAgent := userAgent (http c) |} (w_net w)
        = (net1, inl r) ->
        statusCode = resp_StatusCode r
        /\ (forall cause,
              resp_Body r = inr cause ->
              e = failed (fmt_Errorf "read response" cause))
        /\ (forall respBody cause,
              resp_Body r = inl respBody ->
              respBody <> [] ->
              json_Unmarshal_HeartbeatStatus respBody = inr cause ->
              e = failed (fmt_Errorf "decode response" cause))
        /\ (forall respBody status,
              resp_Body r = inl respBody ->
              respBody <> [] ->
              json_Unmarshal_HeartbeatStatus respBody = inl status ->
              err = None /\ resp = status)
        /\ (resp_Body r = inl [] ->
            err = None /\ resp = HeartbeatStatus_zero))
  /\ (err = None ->
      exists data r,
        json_Marshal_body body = inl data
        /\ http_NewRequest MethodPost url data = inl tt
        /\ http_Client_Do (client (http c))
             {| req_Method := MethodPost; req_URL := url; req_Body := data;
                req_ContentType := "application/json";
                req_UserAgent := userAgent (http c) |} (w_net w)
           = (net', inl r)
        /\ resp_StatusCode r = statusCode)
  /\ (err = None -> statusCode = 200 ->
        e = {| ev_Type := EventHeartbeatOK;
               ev_Message := "heartbeat accepted";
               ev_Data := DataHeartbeat resp |}
        /\ (0 < hs_HeartbeatInterval resp ->
            interval (hb c')
            = Duration_mul (hs_HeartbeatInterval resp) Second
            /\ (hs_HeartbeatInterval resp * Second <= maxInt64 ->
                interval (hb c') = hs_HeartbeatInterval resp * Second))
        /\ (hs_HeartbeatInterval resp <= 0 ->
            interval (hb c') = interval (hb c)))
  /\ (err = None -> statusCode = 429 ->
        e = {| ev_Type := EventHeartbeatRejected;
               ev_Message := "seat limit reached";
               ev_Data := DataHeartbeat resp |}
        /\ ev_Type e <> EventHeartbeatError
        /\ interval (hb c') = interval (hb c))
  /\ (err = None -> statusCode <> 200 -> statusCode <> 429 ->
        e = {| ev_Type := EventHeartbeatError;
               ev_Message := "heartbeat returned status " ++ itoa statusCode;
               ev_Data := DataHeartbeat resp |}
        /\ interval (hb c') = interval (hb c)).
Proof.
  cbv zeta. intros Hpost.
  rewrite (sendHeartbeat_run serverURL token c w Hpost). simpl.
  split; [reflexivity|]. split; [reflexivity|]. split; [reflexivity|].
  split; [apply emitEvent_queue|]. split; [apply emitEvent_queue|].
  unfold spec_heartbeat_event, spec_heartbeat_interval.
  split; [intros cause ->; split; reflexivity|].
  split.
  { intros data net1 r Hm Hr Hd.
    rewrite (postJSON_response json_Unmarshal_HeartbeatStatus (http c) _ _
               HeartbeatStatus_zero _ Hm Hr Hd) in Hpost.
    injection Hpost as _ Hout.
    split; [|split; [|split; [|split]]].
    - destruct (resp_Body r) as [[|b rest]|cause];
        [| destruct (json_Unmarshal_HeartbeatStatus (b :: rest)) |];
        injection Hout as <- _ _; reflexivity.
    - intros cause Hb. rewrite Hb in Hout. injection Hout as _ <- _.
      reflexivity.
    - intros respBody cause Hb Hne Hun. rewrite Hb in Hout.
      destruct respBody as [|b rest]; [congruence|].
      rewrite Hun in Hout. injection Hout as _ <- _. reflexivity.
    - intros respBody status Hb Hne Hun. rewrite Hb in Hout.
      destruct respBody as [|b rest]; [congruence|].
      rewrite Hun in Hout. injection Hout as _ <- <-. auto.
    - intros Hb. rewrite Hb in Hout. injection Hout as _ <- <-. auto. }
  split.
  { intros ->.
    destruct (postJSON_no_error _ _ _ _ _ _ Hpost)
      as (data & r & Hm & Hr & Hd & Hs).
    exists data, r. auto. }
  split.
  { intros -> ->. simpl. split; [reflexivity|]. split.
    - intros Hpos. apply Z.ltb_lt in Hpos. rewrite Hpos.
      split; [reflexivity|]. intros Hfit.
      apply Duration_mul_seconds; [apply Z.ltb_lt; exact Hpos | exact Hfit].
    - intros Hle. apply Z.ltb_ge in Hle. rewrite Hle. reflexivity. }
  split.
  { intros -> ->. simpl. split; [reflexivity|].
    split; [discriminate | reflexivity]. }
  intros -> H200 H429. apply Z.eqb_neq in H200, H429.
  rewrite H200, H429. simpl. split; reflexivity.
Qed.

End HeartbeatProperties.

(** ** The verification key option *)

Section OptionProperties.
Context {P : Platform}.

Lemma DecodePublicKey_fails (key : string) :
  (exists err, base64_StdEncoding_DecodeString key = inr err)
  \/ (exists decoded,
        base64_StdEncoding_DecodeString key = inl decoded
        /\ List.length decoded <> ed25519_PublicKeySize) ->
  exists err,
    DecodePublicKey key = inr err
    /\ error_Code err = Some PubKeyDecodeError.
Proof.
  unfold DecodePublicKey.
  intros [[err Hdec] | [decoded [Hdec Hlen]]]; rewrite Hdec.
  - eexists. split; reflexivity.
  - apply Nat.eqb_neq in Hlen. rewrite Hlen. simpl.
    eexists. split; reflexivity.
Qed.

Lemma fold_keeps_publicKey (opts : list Option) (cfg : clientConfig) :
  Forall keeps_publicKey opts ->
  cfg_publicKey (fold_left (fun cfg opt => opt cfg) opts cfg)
  = cfg_publicKey cfg.
Proof.
  intros Hall. revert cfg.
  induction Hall as [|o rest Ho _ IH]; intros cfg; simpl.
  - reflexivity.
  - rewrite IH. apply Ho.
Qed.

Lemma NewClient_fields (opts : list Option) :
  let cfg0 := fold_left (fun cfg opt => opt cfg) opts clientConfig_zero in
  snd (NewClient opts) = None
  /\ cfg (fst (NewClient opts)) = cfg0
  /\ closed (fst (NewClient opts)) = false
  /\ license (fst (NewClient opts)) = None.
Proof.
  cbv zeta. unfold NewClient. cbv zeta.
  destruct (negb (is_empty (cfg_token _))); simpl; repeat split; reflexivity.
Qed.

(** Without a key Validate returns at a guard. *)
Lemma Validate_without_key (args : list string) (c : Client) (w : World) :
  cfg_publicKey (cfg c) = None ->
  fst (Validate args c w) = (c, w)
  /\ (closed c = false -> Validate_token args c <> "" ->
      snd (Validate args c w) = (License_zero, Some ErrNoPublicKey)).
Proof.
  intros Hkey. unfold Validate. rewrite Hkey.
  destruct (closed c); [split; [reflexivity | discriminate]|].
  destruct (is_empty (Validate_token args c)) eqn:Htok.
  - split; [reflexivity|]. intros _ H. apply is_empty_true in Htok.
    contradiction.
  - split; reflexivity.
Qed.

Lemma Validate_seq_without_key (calls : list (list string * World))
  (c : Client) :
  cfg_publicKey (cfg c) = None -> Validate_seq calls c = c.
Proof.
  intros Hkey. induction calls as [|[args w] rest IH]; simpl.
  - reflexivity.
  - destruct (Validate_without_key args c w Hkey) as [Hsame _].
    rewrite Hsame. simpl. exact IH.
Qed.

(** C10. When the string given to WithPublicKey is not valid base64 or
    decodes to a length other than 32 bytes, DecodePublicKey fails with the
    code PubKeyDecodeError and the option drops that error: among options
    that set no key themselves, NewClient returns a client with a nil error
    and no verification key, and every Validate on it that resolves a
    token, also after earlier Validate calls, returns ErrNoPublicKey, which
    is not an error of code PubKeyDecodeError. *)
Theorem WithPublicKey_decode_error_discarded (key : string)
  (before after : list Option) :
  (exists err, base64_StdEncoding_DecodeString key = inr err)
  \/ (exists decoded,
        base64_StdEncoding_DecodeString key = inl decoded
        /\ List.length decoded <> ed25519_PublicKeySize) ->
  Forall keeps_publicKey before ->
  Forall keeps_publicKey after ->
  let c := fst (NewClient (before ++ [WithPublicKey key] ++ after)) in
  (exists err, DecodePublicKey key = inr err
               /\ error_Code err = Some PubKeyDecodeError)
  /\ keeps_publicKey (WithPublicKey key)
  /\ snd (NewClient (before ++ [WithPublicKey key] ++ after)) = None
  /\ cfg_publicKey (cfg c) = None
  /\ (forall (calls : list (list string * World)) (args : list string)
             (w : World),
        let c' := Validate_seq calls c in
        Validate_token args c' <> "" ->
        Validate args c' w = (c', w, (License_zero, Some ErrNoPublicKey))
        /\ error_Code ErrNoPublicKey <> Some PubKeyDecodeError).
Proof.
  intros Hbad Hbefore Hafter. cbv zeta.
  destruct (DecodePublicKey_fails key Hbad) as (err & Herr & Hcode).
  assert (Hkeeps : keeps_publicKey (WithPublicKey key)).
  { intros cfg0. unfold WithPublicKey. rewrite Herr. reflexivity. }
  assert (Hall : Forall keeps_publicKey
                   (before ++ [WithPublicKey key] ++ after)%list).
  { apply Forall_app. split; [exact Hbefore|].
    apply Forall_app. split; [|exact Hafter].
    constructor; [exact Hkeeps | constructor]. }
  destruct (NewClient_fields (before ++ [WithPublicKey key] ++ after)%list)
    as (Hnil & Hcfg & Hopen & _).
  assert (Hkey : cfg_publicKey
                   (cfg (fst (NewClient
                                (before ++ [WithPublicKey key] ++ after))))
                 = None).
  { rewrite Hcfg. rewrite (fold_keeps_publicKey _ Hall). reflexivity. }
  split; [exists err; auto|]. split; [exact Hkeeps|].
  split; [exact Hnil|]. split; [exact Hkey|].
  intros calls args w. rewrite (Validate_seq_without_key calls _ Hkey).
  intros Htok. split; [|discriminate].
  destruct (Validate_without_key args _ w Hkey) as [Hsame Hres].
  specialize (Hres Hopen Htok).
  rewrite (surjective_pairing (Validate args _ w)), Hsame, Hres.
  reflexivity.
Qed.

End OptionProperties.

(** ** Stored License and stored token *)

Section PairProperties.
Context {P : Platform}.

Lemma Validate_token_explicit (t : string) (c : Client) :
  t <> "" -> Validate_token [t] c = t.
Proof.
  intros Hne. unfold Validate_token. destruct t as [|a t]; [congruence|].
  reflexivity.
Qed.

Lemma pair_kept_refl (c : Client) : pair_kept c c.
Proof. split; reflexivity. Qed.

Lemma emitEvent_kept (e : Event) (c0 c : Client) :
  pair_kept c0 c -> pair_kept c0 (emitEvent e c).
Proof.
  destruct (emitEvent_frame e c) as (_ & Hl & Hs & _).
  unfold pair_kept. rewrite Hl, Hs. auto.
Qed.

Lemma emitEvent_replaced (e : Event) (c : Client) (payload : tokenPayload)
  (token : string) (now : Time) :
  pair_replaced c payload token now ->
  pair_replaced (emitEvent e c) payload token now.
Proof.
  destruct (emitEvent_frame e c) as (_ & Hl & Hs & _).
  unfold pair_replaced. rewrite Hl, Hs. auto.
Qed.

(** A License and a token replaced together match. *)
Lemma pair_replaced_committed (c' : Client) (payload : tokenPayload)
  (token : string) (now : Time) :
  pair_replaced c' payload token now -> pair_committed c'.
Proof.
  intros [Hl Hs]. eexists. split; [exact Hl|]. rewrite Hs.
  apply checked_license_fields.
Qed.

(** Validate on a token that verifies. *)
Lemma Validate_replaces (args : list string) (c : Client) (w : World)
  (publicKey : bytes) (payload : tokenPayload) :
  closed c = false ->
  Validate_token args c <> "" ->
  cfg_publicKey (cfg c) = Some publicKey ->
  verifyToken publicKey (Validate_token args c) = inl payload ->
  Validate args c w = Validate_commit payload (Validate_token args c) c w
  /\ pair_replaced (fst (fst (Validate args c w))) payload
       (Validate_token args c) (w_clock w (w_reads w)).
Proof.
  intros Hopen Htok Hkey Hver. apply is_empty_false in Htok.
  rewrite (Validate_verifies args c w Hopen Htok Hkey), Hver.
  split; [reflexivity|].
  rewrite Validate_commit_eq. cbv zeta. simpl.
  destruct (committed_client_fields payload (Validate_token args c) c
              (w_clock w (w_reads w))) as (Hl & Hs & _).
  split; assumption.
Qed.

Lemma ValidateFromCache_pair (c : Client) (w : World) :
  let c' := fst (fst (ValidateFromCache c w)) in
  (forall cached,
      closed c = false ->
      cache_load (cache c) (w_fs w) = inl cached ->
      license c' = Some cached
      /\ signedToken c'
         = if is_empty (SignedToken cached) then signedToken c
           else SignedToken cached)
  /\ (closed c = true \/ (exists err, cache_load (cache c) (w_fs w) = inr err)
      -> pair_kept c c').
Proof.
  cbv zeta. unfold ValidateFromCache. split.
  - intros cached Hopen Hload. rewrite Hopen, Hload.
    destruct (is_empty (SignedToken cached)); simpl; split; reflexivity.
  - intros [Hclosed | [err Hload]].
    + rewrite Hclosed. apply pair_kept_refl.
    + rewrite Hload. destruct (closed c); apply pair_kept_refl.
Qed.

(** Renew and RenewResult behind their guards and the POST. *)
Lemma Renew_answered (c : Client) (w : World) (net : Net)
  (result : RenewalResult) :
  renewal_answered c w net result ->
  Renew c w
  = (let store_token (c : Client) (w : World) :=
       let license := License_of_token (rr_SignedToken result) in
       let c :=
         if negb (is_empty (rr_SignedToken result))
         then set_signedToken (rr_SignedToken result) c
         else c in
       (c, w, (Some license, None)) in
     if negb (is_empty (rr_SignedToken result))
        && negb (is_nil (cfg_publicKey (cfg c)))
     then
       let '(c, w, (newLicense, validateErr)) :=
         Validate [rr_SignedToken result] c (set_net net w) in
       if is_nil validateErr && Valid newLicense then
         let c :=
           emitEvent {| ev_Type := EventLicenseRenewed;
                        ev_Message := "license renewed";
                        ev_Data := DataRenewal result |} c in
         (c, w, (Some newLicense, None))
       else store_token c w
     else store_token c (set_net net w)).
Proof.
  intros (Hopen & Hurl & Htok & Hpost).
  apply is_empty_false in Hurl, Htok. unfold renewal_token in *.
  unfold Renew. rewrite Hopen, Hurl. cbv zeta. rewrite Htok, Hpost.
  reflexivity.
Qed.

Lemma RenewResult_answered (c : Client) (w : World) (net : Net)
  (result : RenewalResult) :
  renewal_answered c w net result ->
  fst (fst (RenewResult c w))
  = (if negb (is_empty (rr_SignedToken result))
        && negb (is_nil (cfg_publicKey (cfg c)))
     then
       let '(c, w, (newLicense, validateErr)) :=
         Validate [rr_SignedToken result] c (set_net net w) in
       if is_nil validateErr && Valid newLicense then
         emitEvent {| ev_Type := EventLicenseRenewed;
                      ev_Message := "license renewed";
                      ev_Data := DataRenewal result |} c
       else c
     else c).
Proof.
  intros (Hopen & Hurl & Htok & Hpost).
  apply is_empty_false in Hurl, Htok. unfold renewal_token in *.
  unfold RenewResult. rewrite Hopen, Hurl. cbv zeta. rewrite Htok, Hpost.
  simpl.
  destruct (negb (is_empty (rr_SignedToken result))
            && negb (is_nil (cfg_publicKey (cfg c)))); [|reflexivity].
  destruct (Validate _ _ _) as [[c1 w1] [newLicense validateErr]].
  destruct (is_nil validateErr && Valid newLicense); reflexivity.
Qed.

Lemma Renew_unanswered (c : Client) (w : World) :
  (forall net result, ~ renewal_answered c w net result) ->
  fst (fst (Renew c w)) = c /\ fst (fst (RenewResult c w)) = c.
Proof.
  intros Hno. unfold Renew, RenewResult.
  destruct (closed c) eqn:Hopen; [split; reflexivity|].
  destruct (is_empty (resolveServerURL c)) eqn:Hurl; [split; reflexivity|].
  cbv zeta.
  destruct (is_empty (if is_empty (signedToken c) then cfg_token (cfg c)
                      else signedToken c)) eqn:Htok; [split; reflexivity|].
  destruct (postJSON _ _ _ _ _ _) as [net [[statusCode err] result]] eqn:Hpost.
  destruct err as [err|]; [split; reflexivity|].
  destruct (statusCode =? http_StatusOK) eqn:H200; [|split; reflexivity].
  exfalso. apply (Hno net result).
  apply Z.eqb_eq in H200. unfold http_StatusOK in H200. subst statusCode.
  apply is_empty_false in Hurl, Htok.
  unfold renewal_answered, renewal_token. auto.
Qed.

(** The re-validation of Renew and RenewResult runs Validate on the new
    token; its clock, its files and its cache are those of the call. *)
Lemma Renew_pair (c : Client) (w : World) (net : Net)
  (result : RenewalResult) :
  renewal_answered c w net result ->
  let t := rr_SignedToken result in
  let c' := fst (fst (Renew c w)) in
  (t = "" -> c' = c)
  /\ (t <> "" -> cfg_publicKey (cfg c) = None -> token_only c c' t)
  /\ (forall publicKey payload,
        t <> "" ->
        cfg_publicKey (cfg c) = Some publicKey ->
        verifyToken publicKey t = inl payload ->
        pair_replaced c' payload t (w_clock w (w_reads w)))
  /\ (forall publicKey err,
        t <> "" ->
        cfg_publicKey (cfg c) = Some publicKey ->
        verifyToken publicKey t = inr err ->
        (cache_offers_valid c w -> pair_kept c c')
        /\ (~ cache_offers_valid c w -> token_only c c' t)).
Proof.
  intros Hans. cbv zeta.
  rewrite (@Renew_answered c w net result Hans). cbv zeta.
  destruct Hans as (Hopen & _).
  split; [|split; [|split]].
  - intros Ht. rewrite Ht. reflexivity.
  - intros Ht Hkey. apply is_empty_false in Ht. rewrite Ht, Hkey. simpl.
    split; reflexivity.
  - intros publicKey payload Ht Hkey Hver.
    pose proof (Validate_token_explicit c Ht) as Htok.
    assert (Hne : Validate_token [rr_SignedToken result] c <> "")
      by (rewrite Htok; exact Ht).
    rewrite <- Htok in Hver.
    destruct (@Validate_replaces [rr_SignedToken result] c (set_net net w)
                publicKey payload Hopen Hne Hkey Hver) as (_ & Hrep).
    rewrite Htok in Hrep. simpl in Hrep.
    apply is_empty_false in Ht. rewrite Ht, Hkey. simpl.
    destruct (Validate [rr_SignedToken result] c (set_net net w))
      as [[c1 w1] [newLicense validateErr]].
    simpl in Hrep.
    destruct (is_nil validateErr && Valid newLicense); simpl.
    + apply emitEvent_replaced. exact Hrep.
    + destruct Hrep as [Hl _]. split; [exact Hl | reflexivity].
  - intros publicKey err Ht Hkey Hver.
    pose proof (Validate_token_explicit c Ht) as Htok.
    assert (Hne : Validate_token [rr_SignedToken result] c <> "")
      by (rewrite Htok; exact Ht).
    rewrite <- Htok in Hver.
    rewrite (Validate_falls_back [rr_SignedToken result] c (set_net net w)
               Hopen Hne Hkey Hver).
    apply is_empty_false in Ht. rewrite Ht, Hkey. simpl.
    unfold cache_offers_valid.
    destruct (cache_load (cache c) (w_fs w)) as [cached|e]; simpl.
    + destruct (Valid cached) eqn:Hvalid; simpl.
      * split; [|intros Hno; exfalso; apply Hno; eauto].
        intros _. apply emitEvent_kept, pair_kept_refl.
      * split; [|intros _; split; reflexivity].
        intros (l & Hl & Hv). congruence.
    + split; [|intros _; split; reflexivity].
      intros (l & Hl & _). discriminate.
Qed.

Lemma RenewResult_pair (c : Client) (w : World) (net : Net)
  (result : RenewalResult) :
  renewal_answered c w net result ->
  let t := rr_SignedToken result in
  let c' := fst (fst (RenewResult c w)) in
  (forall publicKey payload,
      t <> "" ->
      cfg_publicKey (cfg c) = Some publicKey ->
      verifyToken publicKey t = inl payload ->
      pair_replaced c' payload t (w_clock w (w_reads w)))
  /\ (t = "" \/ cfg_publicKey (cfg c) = None
      \/ (exists publicKey err,
            cfg_publicKey (cfg c) = Some publicKey
            /\ verifyToken publicKey t = inr err) ->
      pair_kept c c').
Proof.
  intros Hans. cbv zeta. rewrite (@RenewResult_answered c w net result Hans).
  destruct Hans as (Hopen & _).
  split.
  - intros publicKey payload Ht Hkey Hver.
    pose proof (Validate_token_explicit c Ht) as Htok.
    assert (Hne : Validate_token [rr_SignedToken result] c <> "")
      by (rewrite Htok; exact Ht).
    rewrite <- Htok in Hver.
    destruct (@Validate_replaces [rr_SignedToken result] c (set_net net w)
                publicKey payload Hopen Hne Hkey Hver) as (_ & Hrep).
    rewrite Htok in Hrep. simpl in Hrep.
    apply is_empty_false in Ht. rewrite Ht, Hkey. simpl.
    destruct (Validate [rr_SignedToken result] c (set_net net w))
      as [[c1 w1] [newLicense validateErr]].
    simpl in Hrep.
    destruct (is_nil validateErr && Valid newLicense).
    + apply emitEvent_replaced. exact Hrep.
    + exact Hrep.
  - intros [Ht | [Hkey | (publicKey & err & Hkey & Hver)]].
    + rewrite Ht. apply pair_kept_refl.
    + rewrite Hkey, andb_false_r. apply pair_kept_refl.
    + destruct (is_empty (rr_SignedToken result)) eqn:Ht;
        [apply pair_kept_refl|].
      apply is_empty_false in Ht. rewrite Hkey. simpl.
      pose proof (Validate_token_explicit c Ht) as Htok.
      assert (Hne : Validate_token [rr_SignedToken result] c <> "")
        by (rewrite Htok; exact Ht).
      rewrite <- Htok in Hver.
      rewrite (Validate_falls_back [rr_SignedToken result] c
                 (set_net net w) Hopen Hne Hkey Hver).
      simpl.
      destruct (cache_load (cache c) (w_fs w)) as [cached|e]; simpl.
      * destruct (Valid cached);
          [apply emitEvent_kept, pair_kept_refl | apply pair_kept_refl].
      * apply pair_kept_refl.
Qed.

(** C1, as the code has it.  Validate, when its guards pass and the resolved
    token verifies, replaces the stored License and the stored token
    together, by the License it builds from that token's payload and by that
    token; in every other case it leaves both as they were.
    ValidateFromCache, on an open client whose cache loads, always replaces
    the stored License by the cached one, and replaces the stored token only
    if the cached License carries a non-empty token; when the client is
    closed or the cache does not load it leaves both.  Renew and RenewResult
    leave both when the renewal request is not answered with status 200, or
    is answered without a new token.  When it is answered with a new token
    that verifies under the configured key, both replace License and token
    together, as Validate does.  When the new token was not committed (no
    key is configured, or the token does not verify), RenewResult leaves
    both as they were, and Renew stores the new token alone and leaves the
    stored License as it was, unless the token failed verification and the
    cache holds a License with Valid = true, which Renew returns, leaving
    both as they were.  A License and a token replaced together match. *)
Theorem stored_pair_updates (c : Client) (w : World) :
  let now := w_clock w (w_reads w) in
  (forall args,
      let c' := fst (fst (Validate args c w)) in
      (forall publicKey payload,
          closed c = false ->
          Validate_token args c <> "" ->
          cfg_publicKey (cfg c) = Some publicKey ->
          verifyToken publicKey (Validate_token args c) = inl payload ->
          pair_replaced c' payload (Validate_token args c) now)
      /\ (~ Validate_commits args c -> pair_kept c c'))
  /\ (let c' := fst (fst (ValidateFromCache c w)) in
      (forall cached,
          closed c = false ->
          cache_load (cache c) (w_fs w) = inl cached ->
          license c' = Some cached
          /\ signedToken c'
             = if is_empty (SignedToken cached) then signedToken c
               else SignedToken cached)
      /\ (closed c = true
          \/ (exists err, cache_load (cache c) (w_fs w) = inr err) ->
          pair_kept c c'))
  /\ ((forall net result, ~ renewal_answered c w net result) ->
      pair_kept c (fst (fst (Renew c w)))
      /\ pair_kept c (fst (fst (RenewResult c w))))
  /\ (forall net result,
        renewal_answered c w net result ->
        let t := rr_SignedToken result in
        let c1 := fst (fst (Renew c w)) in
        let c2 := fst (fst (RenewResult c w)) in
        (t = "" -> pair_kept c c1 /\ pair_kept c c2)
        /\ (t <> "" -> cfg_publicKey (cfg c) = None ->
            token_only c c1 t /\ pair_kept c c2)
        /\ (forall publicKey payload,
              t <> "" ->
              cfg_publicKey (cfg c) = Some publicKey ->
              verifyToken publicKey t = inl payload ->
              pair_replaced c1 payload t now
              /\ pair_replaced c2 payload t now)
        /\ (forall publicKey err,
              t <> "" ->
              cfg_publicKey (cfg c) = Some publicKey ->
              verifyToken publicKey t = inr err ->
              (cache_offers_valid c w -> pair_kept c c1)
              /\ (~ cache_offers_valid c w -> token_only c c1 t)
              /\ pair_kept c c2))
  /\ (forall c' payload token at_time,
        pair_replaced c' payload token at_time -> pair_committed c').
Proof.
  cbv zeta.
  split; [|split; [|split; [|split]]].
  - intros args. split.
    + intros publicKey payload Hopen Htok Hkey Hver.
      apply (Validate_replaces args c w Hopen Htok Hkey Hver).
    + intros Hno.
      destruct (Validate_paths args c w)
        as [[_ Hsame] | (publicKey & payload & Ho & Ht & Hk & Hv & _)].
      * rewrite Hsame. apply pair_kept_refl.
      * exfalso. apply Hno. unfold Validate_commits. eauto 6.
  - apply ValidateFromCache_pair.
  - intros Hno. destruct (@Renew_unanswered c w Hno) as [H1 H2].
    rewrite H1, H2. split; apply pair_kept_refl.
  - intros net result Hans.
    destruct (@Renew_pair c w net result Hans) as (R1 & R2 & R3 & R4).
    destruct (@RenewResult_pair c w net result Hans) as (S1 & S2).
    split; [|split; [|split]].
    + intros Ht. rewrite (R1 Ht). split; [apply pair_kept_refl|].
      apply S2. left. exact Ht.
    + intros Ht Hkey. split; [exact (R2 Ht Hkey)|].
      apply S2. right. left. exact Hkey.
    + intros publicKey payload Ht Hkey Hver.
      split; [exact (R3 publicKey payload Ht Hkey Hver)|].
      exact (S1 publicKey payload Ht Hkey Hver).
    + intros publicKey err Ht Hkey Hver.
      destruct (R4 publicKey err Ht Hkey Hver) as [K1 K2].
      split; [exact K1|]. split; [exact K2|].
      apply S2. right. right. eauto.
  - intros c' payload token at_time. apply pair_replaced_committed.
Qed.

End PairProperties.

(** * The properties on the sample platform *)

Section Examples.
Import Sample.

Ltac evaluate := vm_compute; first [reflexivity | discriminate].

(** C1 fails as stated: with no key configured, a Renew that the server
    answers with a new token replaces the stored token and leaves the stored
    License, here nil, as it was; the two do not match. *)
Lemma Renew_stores_token_alone :
  let c := keyless_client in
  let w := world ten_hours [] [reply 200 (fst renewal)] in
  let c' := fst (fst (Renew (P:=platform) c w)) in
  signedToken c = expired_token
  /\ signedToken c' = expiring_token
  /\ signedToken c' <> signedToken c
  /\ license c' = license c
  /\ license c' = None
  /\ ~ pair_committed c'.
Proof.
  cbv zeta.
  split; [evaluate|]. split; [evaluate|]. split; [evaluate|].
  split; [evaluate|]. split; [evaluate|].
  intros (l & Hl & _). vm_compute in Hl. discriminate.
Qed.

Lemma stored_pair_updates_witness :
  let online := world ten_hours [] [reply 200 (fst renewal)] in
  let offline := world ten_hours [] [] in
  let stocked := world ten_hours cached_files [] in
  (* Validate on a token that verifies *)
  pair_replaced
    (fst (fst (Validate (P:=platform) [expiring_token] keyed_client offline)))
    (snd expiring) expiring_token (10 * Hour)
  (* ValidateFromCache on a cache that loads *)
  /\ license (fst (fst (ValidateFromCache (P:=platform) keyed_client stocked)))
     = Some cached_license
  /\ signedToken
       (fst (fst (ValidateFromCache (P:=platform) keyed_client stocked)))
     = perpetual_token
  (* Renew and RenewResult without a key *)
  /\ token_only keyless_client
       (fst (fst (Renew (P:=platform) keyless_client online))) expiring_token
  /\ pair_kept keyless_client
       (fst (fst (RenewResult (P:=platform) keyless_client online)))
  (* Renew without an answer *)
  /\ pair_kept keyless_client
       (fst (fst (Renew (P:=platform) keyless_client offline)))
  (* Renew and RenewResult with a key, on a new token that verifies *)
  /\ pair_replaced
       (fst (fst (Renew (P:=platform) renewing_client online)))
       (snd expiring) expiring_token (10 * Hour)
  /\ pair_replaced
       (fst (fst (RenewResult (P:=platform) renewing_client online)))
       (snd expiring) expiring_token (10 * Hour)
  (* Renew and RenewResult with a key under which the new token does not
     verify: without a cached License, and with a valid one *)
  /\ token_only mismatched_client
       (fst (fst (Renew (P:=platform) mismatched_client online)))
       expiring_token
  /\ pair_kept mismatched_client
       (fst (fst (RenewResult (P:=platform) mismatched_client online)))
  /\ pair_kept mismatched_client
       (fst (fst (Renew (P:=platform) mismatched_client
                    (world ten_hours cached_files
                       [reply 200 (fst renewal)])))).
Proof.
  cbv zeta.
  pose proof (@stored_pair_updates platform keyed_client
                (world ten_hours [] [])) as V.
  pose proof (@stored_pair_updates platform keyed_client
                (world ten_hours cached_files [])) as C.
  pose proof (@stored_pair_updates platform keyless_client
                (world ten_hours [] [reply 200 (fst renewal)])) as R.
  pose proof (@stored_pair_updates platform keyless_client
                (world ten_hours [] [])) as U.
  pose proof (@stored_pair_updates platform renewing_client
                (world ten_hours [] [reply 200 (fst renewal)])) as K.
  cbv zeta in V, C, R, U, K.
  destruct V as (V & _). destruct C as (_ & (C & _) & _).
  destruct R as (_ & _ & _ & R & _). destruct U as (_ & _ & U & _).
  destruct K as (_ & _ & _ & K & _).
  assert (Hans : renewal_answered (P:=platform) renewing_client
                   (world ten_hours [] [reply 200 (fst renewal)])
                   [] (snd renewal)).
  { split; [reflexivity|]. split; [evaluate|]. split; evaluate. }
  assert (Hnew : rr_SignedToken (snd renewal) <> "") by evaluate.
  assert (Hkey : cfg_publicKey (cfg renewing_client) = Some key) by evaluate.
  assert (Hver : verifyToken (P:=platform) key (rr_SignedToken (snd renewal))
                 = inl (snd expiring)) by evaluate.
  destruct (K [] (snd renewal) Hans) as (_ & _ & K3 & _).
  pose proof (K3 key (snd expiring) Hnew Hkey Hver) as Hboth.
  clear K K3 Hans Hkey Hver.
  pose proof (@stored_pair_updates platform mismatched_client
                (world ten_hours [] [reply 200 (fst renewal)])) as M.
  pose proof (@stored_pair_updates platform mismatched_client
                (world ten_hours cached_files [reply 200 (fst renewal)]))
    as N.
  cbv zeta in M, N.
  destruct M as (_ & _ & _ & M & _). destruct N as (_ & _ & _ & N & _).
  assert (Hans1 : renewal_answered (P:=platform) mismatched_client
                    (world ten_hours [] [reply 200 (fst renewal)])
                    [] (snd renewal)).
  { split; [reflexivity|]. split; [evaluate|]. split; evaluate. }
  assert (Hans2 : renewal_answered (P:=platform) mismatched_client
                    (world ten_hours cached_files [reply 200 (fst renewal)])
                    [] (snd renewal)).
  { split; [reflexivity|]. split; [evaluate|]. split; evaluate. }
  assert (Hkey : cfg_publicKey (cfg mismatched_client) = Some other_key)
    by reflexivity.
  assert (Hbad : verifyToken (P:=platform) other_key
                   (rr_SignedToken (snd renewal))
                 = inr bad_signature) by evaluate.
  assert (Hempty : ~ cache_offers_valid (P:=platform) mismatched_client
                       (world ten_hours [] [reply 200 (fst renewal)])).
  { intros (cached & Hload & _). vm_compute in Hload. discriminate. }
  assert (Hfull : cache_offers_valid (P:=platform) mismatched_client
                    (world ten_hours cached_files [reply 200 (fst renewal)])).
  { exists cached_license. split; evaluate. }
  destruct (M [] (snd renewal) Hans1) as (_ & _ & _ & M4).
  destruct (M4 other_key bad_signature Hnew Hkey Hbad) as (_ & Malone & Mkept).
  destruct (N [] (snd renewal) Hans2) as (_ & _ & _ & N4).
  destruct (N4 other_key bad_signature Hnew Hkey Hbad) as (Nkept & _).
  pose proof (Malone Hempty) as Halone. pose proof (Nkept Hfull) as Hkept.
  clear M M4 N N4 Malone Nkept Hans1 Hans2 Hkey Hbad Hempty Hfull Hnew.
  split; [|split; [|split; [|split; [|split; [|split; [|split;
    [|split; [|split; [|split]]]]]]]]].
  - assert (Et : Validate_token [expiring_token] keyed_client
                 = expiring_token) by evaluate.
    assert (Hopen : closed keyed_client = false) by reflexivity.
    assert (Hne : Validate_token [expiring_token] keyed_client <> "")
      by evaluate.
    assert (Hkey : cfg_publicKey (cfg keyed_client) = Some key) by evaluate.
    assert (Hver : verifyToken (P:=platform) key
                     (Validate_token [expiring_token] keyed_client)
                   = inl (snd expiring)) by evaluate.
    pose proof (proj1 (V [expiring_token]) key (snd expiring)
                  Hopen Hne Hkey Hver) as Hrep.
    rewrite Et in Hrep. exact Hrep.
  - assert (Hopen : closed keyed_client = false) by reflexivity.
    assert (Hload : cache_load (P:=platform) (cache keyed_client)
                      (w_fs (world ten_hours cached_files []))
                    = inl cached_license) by evaluate.
    exact (proj1 (C cached_license Hopen Hload)).
  - assert (Hopen : closed keyed_client = false) by reflexivity.
    assert (Hload : cache_load (P:=platform) (cache keyed_client)
                      (w_fs (world ten_hours cached_files []))
                    = inl cached_license) by evaluate.
    rewrite (proj2 (C cached_license Hopen Hload)). evaluate.
  - assert (Hans : renewal_answered (P:=platform) keyless_client
                     (world ten_hours [] [reply 200 (fst renewal)])
                     [] (snd renewal)).
    { split; [reflexivity|]. split; [evaluate|]. split; evaluate. }
    assert (Hne : rr_SignedToken (snd renewal) <> "") by evaluate.
    assert (Hkey : cfg_publicKey (cfg keyless_client) = None) by reflexivity.
    destruct (R [] (snd renewal) Hans) as (_ & Rkey & _).
    exact (proj1 (Rkey Hne Hkey)).
  - assert (Hans : renewal_answered (P:=platform) keyless_client
                     (world ten_hours [] [reply 200 (fst renewal)])
                     [] (snd renewal)).
    { split; [reflexivity|]. split; [evaluate|]. split; evaluate. }
    assert (Hne : rr_SignedToken (snd renewal) <> "") by evaluate.
    assert (Hkey : cfg_publicKey (cfg keyless_client) = None) by reflexivity.
    destruct (R [] (snd renewal) Hans) as (_ & Rkey & _).
    exact (proj2 (Rkey Hne Hkey)).
  - apply U. intros net result (_ & _ & _ & Hpost).
    vm_compute in Hpost. discriminate.
  - exact (proj1 Hboth).
  - exact (proj2 Hboth).
  - exact Halone.
  - exact Mkept.
  - exact Hkept.
Defined.

(** C2 fails as stated: on a client made with WithoutCache, the expired
    token verifies and Validate returns its License with Valid = false and a
    nil error, but nothing is written: the files are as before and the cache
    still has no entry. *)
Lemma Validate_expired_without_cache :
  let c := uncached_client in
  let w := world ten_hours [] [] in
  let r := Validate (P:=platform) [expired_token] c w in
  verifyToken (P:=platform) key expired_token = inl (snd expired)
  /\ snd r = (payloadToLicense (snd expired) expired_token false, None)
  /\ Valid (fst (snd r)) = false
  /\ w_fs (snd (fst r)) = w_fs w
  /\ cache_load (P:=platform) (cache (fst (fst r))) (w_fs (snd (fst r)))
     = inr (lib_error "file does not exist").
Proof.
  cbv zeta.
  split; [evaluate|]. split; [evaluate|]. split; [evaluate|].
  split; evaluate.
Qed.

Lemma Validate_expired_witness :
  exists c' w' l,
    Validate (P:=platform) [expired_token] keyed_client
      (world ten_hours [] []) = (c', w', (l, None))
    /\ Valid l = false
    /\ license c' = Some l
    /\ signedToken c' = expired_token
    /\ map fst (w_fs w') = [cache_path].
Proof.
  assert (H1 : closed keyed_client = false) by evaluate.
  assert (H2 : Validate_token [expired_token] keyed_client = expired_token)
    by evaluate.
  assert (H3 : expired_token <> "") by evaluate.
  assert (H4 : cfg_publicKey (cfg keyed_client) = Some key) by evaluate.
  assert (H5 : verifyToken (P:=platform) key expired_token
               = inl (snd expired)) by evaluate.
  assert (H6 : p_ExpiresAt (snd expired) <> 0) by evaluate.
  assert (H7 : p_ExpiresAt (snd expired)
               < w_clock (world ten_hours [] [])
                   (w_reads (world ten_hours [] []))) by evaluate.
  pose proof (@Validate_expired platform [expired_token] keyed_client
                (world ten_hours [] []) key expired_token (snd expired)
                H1 H2 H3 H4 H5 H6 H7) as H.
  destruct H as (c' & w' & l & Hrun & Hv & Hl & Hlic & Htok & Hfs & _).
  exists c', w', l.
  split; [exact Hrun|]. split; [exact Hv|]. split; [exact Hlic|].
  split; [exact Htok|]. rewrite Hfs, Hl. evaluate.
Defined.

Lemma Validate_cache_fallback_witness :
  snd (Validate (P:=platform) [forged_token] keyed_client
         (world ten_hours cached_files []))
  = (cached_license, None)
  /\ snd (Validate (P:=platform) [forged_token] keyed_client
            (world ten_hours [] []))
     = (License_zero, Some bad_signature).
Proof.
  assert (H1 : closed keyed_client = false) by evaluate.
  assert (H2 : Validate_token [forged_token] keyed_client <> "") by evaluate.
  assert (H3 : cfg_publicKey (cfg keyed_client) = Some key) by evaluate.
  assert (H4 : verifyToken (P:=platform) key
                 (Validate_token [forged_token] keyed_client)
               = inr bad_signature) by evaluate.
  split.
  - assert (Hload : cache_load (P:=platform) (cache keyed_client)
                      (w_fs (world ten_hours cached_files []))
                    = inl cached_license) by evaluate.
    exact (proj1 (@Validate_cache_fallback platform [forged_token]
                    keyed_client (world ten_hours cached_files []) key
                    bad_signature H1 H2 H3 H4) cached_license Hload).
  - assert (Hload : cache_load (P:=platform) (cache keyed_client)
                      (w_fs (world ten_hours [] []))
                    = inr (lib_error ("open " ++ cache_path
                                      ++ ": no such file or directory")))
      by evaluate.
    exact (proj2 (@Validate_cache_fallback platform [forged_token]
                    keyed_client (world ten_hours [] []) key
                    bad_signature H1 H2 H3 H4) _ Hload).
Defined.

Lemma verifyToken_invalid_signature_witness :
  verifyToken (P:=platform) key forged_token = inr bad_signature
  /\ exists err,
       verifyToken (P:=platform) key forged_token = inr err
       /\ error_Code err = Some InvalidLicenseSignature
       /\ error_Code err <> Some LicenseDecodeError.
Proof.
  pose (signature := sign key (list_byte_of_string (fst expiring))).
  pose (payloadBytes := list_byte_of_string (fst expiring)).
  pose (tamperedPayload := list_byte_of_string (fst perpetual)).
  assert (H1 : base64_StdEncoding_DecodeString (Platform:=platform)
                 forged_token
               = inl (signature ++ tamperedPayload)%list) by evaluate.
  assert (H2 : (ed25519_SignatureSize
                < List.length (signature ++ tamperedPayload))%nat)
    by (apply Nat.ltb_lt; evaluate).
  assert (H3 : ed25519_Verify (Platform:=platform) key
                 (skipn ed25519_SignatureSize
                    (signature ++ tamperedPayload))
                 (firstn ed25519_SignatureSize
                    (signature ++ tamperedPayload)) = false) by evaluate.
  assert (H4 : base64_StdEncoding_DecodeString (Platform:=platform)
                 expiring_token
               = inl (signature ++ payloadBytes)%list) by evaluate.
  assert (H5 : List.length signature = ed25519_SignatureSize) by evaluate.
  assert (H6 : ed25519_Verify (Platform:=platform) key payloadBytes
                 signature = true) by evaluate.
  assert (H7 : tamperedPayload <> []) by evaluate.
  assert (H8 : tamperedPayload <> payloadBytes) by evaluate.
  assert (H9 : ed25519_Verify (Platform:=platform) key tamperedPayload
                 signature = false) by evaluate.
  split.
  - exact (proj1 (proj1 (@verifyToken_invalid_signature platform) key
                    forged_token _ H1 H2 H3)).
  - exact (proj2 (@verifyToken_invalid_signature platform) key
             expiring_token forged_token signature payloadBytes
             tamperedPayload H4 H5 H6 H1 H7 H8 H9).
Defined.

Lemma Validate_resolution_witness :
  let w := world ten_hours [] [] in
  (* the explicit argument first *)
  signedToken (fst (fst (Validate (P:=platform) [expiring_token]
                           stocked_client w)))
  = expiring_token
  (* then the stored token *)
  /\ signedToken (fst (fst (Validate (P:=platform) [""] stocked_client w)))
     = expired_token
  (* then the configured token *)
  /\ signedToken (fst (fst (Validate (P:=platform) []
                              (set_signedToken "" stocked_client) w)))
     = perpetual_token
  (* no token *)
  /\ Validate (P:=platform) [] keyed_client w
     = (keyed_client, w, (License_zero, Some ErrNoToken))
  (* a token and no key *)
  /\ Validate (P:=platform) [] keyless_client w
     = (keyless_client, w, (License_zero, Some ErrNoPublicKey)).
Proof.
  cbv zeta.
  pose (w := world ten_hours [] []).
  pose (emptied := set_signedToken "" stocked_client).
  assert (H1 : closed stocked_client = false) by evaluate.
  assert (H2 : closed emptied = false) by evaluate.
  assert (H3 : closed keyed_client = false) by evaluate.
  assert (H4 : closed keyless_client = false) by evaluate.
  pose proof (@Validate_resolution platform [expiring_token] stocked_client
                w H1) as R1.
  pose proof (@Validate_resolution platform [""] stocked_client w H1) as R2.
  pose proof (@Validate_resolution platform [] emptied w H2) as R3.
  pose proof (@Validate_resolution platform [] keyed_client w H3) as R4.
  pose proof (@Validate_resolution platform [] keyless_client w H4) as R5.
  assert (T1 : spec_resolve_token (hd_error [expiring_token])
                 (signedToken stocked_client) (cfg_token (cfg stocked_client))
               = Some expiring_token) by evaluate.
  assert (T2 : spec_resolve_token (hd_error [""])
                 (signedToken stocked_client) (cfg_token (cfg stocked_client))
               = Some expired_token) by evaluate.
  assert (T3 : spec_resolve_token (hd_error [])
                 (signedToken emptied) (cfg_token (cfg emptied))
               = Some perpetual_token) by evaluate.
  assert (T4 : spec_resolve_token (hd_error [])
                 (signedToken keyed_client) (cfg_token (cfg keyed_client))
               = None) by evaluate.
  assert (T5 : spec_resolve_token (hd_error [])
                 (signedToken keyless_client) (cfg_token (cfg keyless_client))
               = Some expired_token) by evaluate.
  assert (K1 : cfg_publicKey (cfg stocked_client) = Some key) by evaluate.
  assert (K3 : cfg_publicKey (cfg emptied) = Some key) by evaluate.
  assert (K5 : cfg_publicKey (cfg keyless_client) = None) by evaluate.
  assert (V1 : verifyToken (P:=platform) key expiring_token
               = inl (snd expiring)) by evaluate.
  assert (V2 : verifyToken (P:=platform) key expired_token
               = inl (snd expired)) by evaluate.
  assert (V3 : verifyToken (P:=platform) key perpetual_token
               = inl (snd perpetual)) by evaluate.
  rewrite T1, K1, V1 in R1. rewrite T2, K1, V2 in R2.
  rewrite T3, K3, V3 in R3. rewrite T4 in R4. rewrite T5, K5 in R5.
  split; [exact (proj1 (proj2 R1))|]. split; [exact (proj1 (proj2 R2))|].
  split; [exact (proj1 (proj2 R3))|]. split; [exact R4 | exact R5].
Defined.

Lemma Validate_auto_renew_witness :
  let w := world ten_hours [] [] in
  let hourly :=
    set_cfg (WithRenewBefore Hour (cfg keyed_client)) keyed_client in
  (* 38 hours left, threshold 7 days: launched *)
  w_goroutines (snd (fst (Validate (P:=platform) [expiring_token]
                            keyed_client w)))
  = go_autoRenew :: w_goroutines w
  (* 38 hours left, threshold 1 hour: not launched *)
  /\ w_goroutines (snd (fst (Validate (P:=platform) [expiring_token]
                               hourly w)))
     <> go_autoRenew :: w_goroutines w.
Proof.
  cbv zeta.
  set (w := world ten_hours [] []).
  set (hourly := set_cfg (WithRenewBefore Hour (cfg keyed_client))
                   keyed_client).
  assert (C : Validate_commits (P:=platform) [expiring_token] keyed_client).
  { split; [evaluate|]. split; [evaluate|].
    exists key, (snd expiring). split; evaluate. }
  split.
  - assert (E : snd (snd (Validate (P:=platform) [expiring_token]
                            keyed_client w)) = None) by evaluate.
    assert (F1 : license (fst (fst (Validate (P:=platform) [expiring_token]
                                      keyed_client w)))
                 = Some (fst (snd (Validate (P:=platform) [expiring_token]
                                     keyed_client w)))) by evaluate.
    assert (F2 : cfg_disableAutoRenew
                   (cfg (fst (fst (Validate (P:=platform) [expiring_token]
                                     keyed_client w)))) = false) by evaluate.
    assert (F3 : cfg_offlineOnly
                   (cfg (fst (fst (Validate (P:=platform) [expiring_token]
                                     keyed_client w)))) = false) by evaluate.
    assert (F4 : Valid (fst (snd (Validate (P:=platform) [expiring_token]
                                    keyed_client w))) = true) by evaluate.
    assert (F5 : ExpiresAt (fst (snd (Validate (P:=platform) [expiring_token]
                                        keyed_client w))) <> 0) by evaluate.
    assert (F6 : time_Until (w_clock w (S (w_reads w)))
                   (ExpiresAt (fst (snd (Validate (P:=platform)
                                           [expiring_token] keyed_client w))))
                 <= (if cfg_renewBefore
                          (cfg (fst (fst (Validate (P:=platform)
                                            [expiring_token] keyed_client w))))
                        =? 0
                     then 7 * 24 * Hour
                     else cfg_renewBefore
                            (cfg (fst (fst (Validate (P:=platform)
                                              [expiring_token] keyed_client
                                              w)))))) by evaluate.
    destruct (Validate (P:=platform) [expiring_token] keyed_client w)
      as [[c' w'] [l e]] eqn:Hrun.
    cbn [fst snd] in *. subst e.
    apply (proj2 (proj2 (@Validate_auto_renew platform [expiring_token]
                           keyed_client c' w w' l Hrun))).
    repeat (split; [assumption|]). assumption.
  - assert (E : snd (snd (Validate (P:=platform) [expiring_token]
                            hourly w)) = None) by evaluate.
    assert (F6 : ~ time_Until (w_clock w (S (w_reads w)))
                   (ExpiresAt (fst (snd (Validate (P:=platform)
                                           [expiring_token] hourly w))))
                 <= (if cfg_renewBefore
                          (cfg (fst (fst (Validate (P:=platform)
                                            [expiring_token] hourly w))))
                        =? 0
                     then 7 * 24 * Hour
                     else cfg_renewBefore
                            (cfg (fst (fst (Validate (P:=platform)
                                              [expiring_token] hourly w))))))
      by (intros Hle; vm_compute in Hle; apply Hle; reflexivity).
    destruct (Validate (P:=platform) [expiring_token] hourly w)
      as [[c' w'] [l e]] eqn:Hrun.
    cbn [fst snd] in *. subst e. intros Hgo. apply F6.
    apply (proj1 (proj2 (@Validate_auto_renew platform [expiring_token]
                           hourly c' w w' l Hrun)) Hgo).
Defined.

(** C7 fails as stated: the server answers the heartbeat with status 429
    and a body that is not JSON; postJSON returns the decoding error with
    the status, and the one event of the send is a HeartbeatError event with
    that error's text, not a HeartbeatRejected event.  The same body under
    status 200 gives the same HeartbeatError event, not a HeartbeatOK
    event. *)
Lemma sendHeartbeat_undecodable_response :
  let c := keyed_client in
  let url := "https://license.example" in
  let undecodable :=
    {| ev_Type := EventHeartbeatError;
       ev_Message := "decode response: invalid character";
       ev_Data := DataNil |} in
  let sent status :=
    Events (fst (sendHeartbeat (P:=platform) url expiring_token c
                   (world ten_hours [] [reply status "rate limited"]))) in
  Events c = []
  /\ sent 429 = [undecodable]
  /\ ~ In EventHeartbeatRejected (map ev_Type (sent 429))
  /\ In EventHeartbeatError (map ev_Type (sent 429))
  /\ sent 200 = [undecodable]
  /\ ~ In EventHeartbeatOK (map ev_Type (sent 200)).
Proof.
  cbv beta zeta.
  assert (E429 :
    Events (fst (sendHeartbeat (P:=platform) "https://license.example"
                   expiring_token keyed_client
                   (world ten_hours [] [reply 429 "rate limited"])))
    = [{| ev_Type := EventHeartbeatError;
          ev_Message := "decode response: invalid character";
          ev_Data := DataNil |}]) by evaluate.
  assert (E200 :
    Events (fst (sendHeartbeat (P:=platform) "https://license.example"
                   expiring_token keyed_client
                   (world ten_hours [] [reply 200 "rate limited"])))
    = [{| ev_Type := EventHeartbeatError;
          ev_Message := "decode response: invalid character";
          ev_Data := DataNil |}]) by evaluate.
  rewrite E429, E200.
  split; [evaluate|]. split; [reflexivity|].
  split; [intros [H | []]; discriminate|].
  split; [left; reflexivity|].
  split; [reflexivity|].
  intros [H | []]; discriminate.
Qed.

Lemma sendHeartbeat_event_witness :
  let c := keyed_client in
  let url := "https://license.example" in
  let rejected := world ten_hours [] [reply 429 (fst (status_of 0))] in
  let accepted := world ten_hours [] [reply 200 (fst (status_of 45))] in
  let offline := world ten_hours [] [] in
  let garbled := world ten_hours [] [reply 429 "rate limited"] in
  (* status 429 *)
  Events (fst (sendHeartbeat (P:=platform) url expiring_token c rejected))
  = (Events c
     ++ [{| ev_Type := EventHeartbeatRejected;
            ev_Message := "seat limit reached";
            ev_Data := DataHeartbeat (snd (status_of 0)) |}])%list
  (* status 200 and an interval of 45 seconds *)
  /\ interval (hb (fst (sendHeartbeat (P:=platform) url expiring_token c
                          accepted)))
     = hs_HeartbeatInterval (snd (status_of 45)) * Second
  (* no connection *)
  /\ Events (fst (sendHeartbeat (P:=platform) url expiring_token c offline))
     = (Events c
        ++ [{| ev_Type := EventHeartbeatError;
               ev_Message := "dial tcp: connection refused";
               ev_Data := DataNil |}])%list
  (* status 429 and a body that does not decode *)
  /\ Events (fst (sendHeartbeat (P:=platform) url expiring_token c garbled))
     = (Events c
        ++ [{| ev_Type := EventHeartbeatError;
               ev_Message :=
                 error_Error (fmt_Errorf "decode response"
                                (lib_error "invalid character"));
               ev_Data := DataNil |}])%list.
Proof.
  cbv zeta.
  pose (endpoint := "https://license.example"
                    ++ "/api/v1/concurrency/heartbeat").
  pose (body := heartbeat_body expiring_token (opts (hb keyed_client))).
  pose (data := list_byte_of_string (render_body body)).
  pose (answer := {| resp_StatusCode := 429;
                     resp_Body := inl (list_byte_of_string "rate limited") |}).
  assert (Hroom : (List.length (Events keyed_client) < eventsChannelSize)%nat)
    by (apply Nat.ltb_lt; evaluate).
  assert (P1 : postJSON (P:=platform)
                 (json_Unmarshal_HeartbeatStatus (Platform:=platform))
                 (http keyed_client) endpoint body HeartbeatStatus_zero
                 (w_net (world ten_hours [] [reply 429 (fst (status_of 0))]))
               = ([], (429, None, snd (status_of 0)))) by evaluate.
  assert (P2 : postJSON (P:=platform)
                 (json_Unmarshal_HeartbeatStatus (Platform:=platform))
                 (http keyed_client) endpoint body HeartbeatStatus_zero
                 (w_net (world ten_hours [] [reply 200 (fst (status_of 45))]))
               = ([], (200, None, snd (status_of 45)))) by evaluate.
  assert (P3 : postJSON (P:=platform)
                 (json_Unmarshal_HeartbeatStatus (Platform:=platform))
                 (http keyed_client) endpoint body HeartbeatStatus_zero
                 (w_net (world ten_hours [] []))
               = ([], (0, Some (lib_error "dial tcp: connection refused"),
                       HeartbeatStatus_zero))) by evaluate.
  assert (P4 : postJSON (P:=platform)
                 (json_Unmarshal_HeartbeatStatus (Platform:=platform))
                 (http keyed_client) endpoint body HeartbeatStatus_zero
                 (w_net (world ten_hours [] [reply 429 "rate limited"]))
               = ([], (429,
                       Some (fmt_Errorf "decode response"
                               (lib_error "invalid character")),
                       HeartbeatStatus_zero))) by evaluate.
  assert (Hm : json_Marshal_body (Platform:=platform) body = inl data)
    by reflexivity.
  assert (Hr : http_NewRequest (Platform:=platform) MethodPost endpoint data
               = inl tt) by reflexivity.
  assert (Hd : http_Client_Do (Platform:=platform)
                 (client (http keyed_client))
                 {| req_Method := MethodPost; req_URL := endpoint;
                    req_Body := data;
                    req_ContentType := "application/json";
                    req_UserAgent := userAgent (http keyed_client) |}
                 (w_net (world ten_hours [] [reply 429 "rate limited"]))
               = ([], inl answer)) by reflexivity.
  assert (Hb : resp_Body answer = inl (list_byte_of_string "rate limited"))
    by reflexivity.
  assert (Hne : list_byte_of_string "rate limited" <> []) by evaluate.
  assert (Hun : json_Unmarshal_HeartbeatStatus (Platform:=platform)
                  (list_byte_of_string "rate limited")
                = inr (lib_error "invalid character")) by evaluate.
  pose proof (@sendHeartbeat_event platform "https://license.example"
                expiring_token keyed_client _ _ _ _ _ P1) as S1.
  pose proof (@sendHeartbeat_event platform "https://license.example"
                expiring_token keyed_client _ _ _ _ _ P2) as S2.
  pose proof (@sendHeartbeat_event platform "https://license.example"
                expiring_token keyed_client _ _ _ _ _ P3) as S3.
  pose proof (@sendHeartbeat_event platform "https://license.example"
                expiring_token keyed_client _ _ _ _ _ P4) as S4.
  cbv zeta in S1, S2, S3, S4.
  destruct S1 as (_ & _ & _ & E1 & _ & _ & _ & _ & _ & K1 & _).
  destruct S2 as (_ & _ & _ & _ & _ & _ & _ & _ & K2 & _).
  destruct S3 as (_ & _ & _ & E3 & _ & K3 & _).
  destruct S4 as (_ & _ & _ & E4 & _ & _ & K4 & _).
  split; [|split; [|split]].
  - rewrite (E1 Hroom). rewrite (proj1 (K1 eq_refl eq_refl)). reflexivity.
  - destruct (K2 eq_refl eq_refl) as (_ & Hint & _).
    assert (Hpos : 0 < hs_HeartbeatInterval (snd (status_of 45)))
      by evaluate.
    assert (Hfit : hs_HeartbeatInterval (snd (status_of 45)) * Second
                   <= maxInt64) by evaluate.
    exact (proj2 (Hint Hpos) Hfit).
  - rewrite (E3 Hroom). rewrite (proj1 (K3 _ eq_refl)). reflexivity.
  - rewrite (E4 Hroom).
    destruct (K4 data [] answer Hm Hr Hd) as (_ & _ & Kdecode & _).
    rewrite (Kdecode _ _ Hb Hne Hun). reflexivity.
Defined.

Lemma Validate_serverURL_witness :
  let w := world ten_hours [] [] in
  let c1 := fst (fst (Validate (P:=platform) [expiring_token] keyed_client w)) in
  cfg_serverURL (cfg keyed_client) = ""
  /\ cfg_serverURL (cfg c1) = p_ServerURL (snd expiring)
  /\ cfg_serverURL
       (cfg (Validate_seq (P:=platform)
               [([perpetual_token], w); ([expired_token], w)] c1))
     = cfg_serverURL (cfg c1).
Proof.
  cbv zeta.
  pose (w := world ten_hours [] []).
  pose (c1 := fst (fst (Validate (P:=platform) [expiring_token]
                          keyed_client w))).
  assert (H1 : closed keyed_client = false) by evaluate.
  assert (H2 : Validate_token [expiring_token] keyed_client <> "")
    by evaluate.
  assert (H3 : cfg_publicKey (cfg keyed_client) = Some key) by evaluate.
  assert (H4 : verifyToken (P:=platform) key
                 (Validate_token [expiring_token] keyed_client)
               = inl (snd expiring)) by evaluate.
  assert (H5 : cfg_serverURL (cfg keyed_client) = "") by evaluate.
  assert (H6 : p_ServerURL (snd expiring) <> "") by evaluate.
  assert (H7 : cfg_serverURL (cfg c1) <> "") by evaluate.
  split; [exact H5|]. split.
  - exact (proj1 (@Validate_serverURL_first_write_wins platform)
             [expiring_token] keyed_client w key (snd expiring)
             H1 H2 H3 H4 H5 H6).
  - exact (proj2 (@Validate_serverURL_first_write_wins platform)
             [([perpetual_token], w); ([expired_token], w)] c1 H7).
Defined.

Lemma Validate_fallback_frame_witness :
  let c := stocked_client in
  let w := world ten_hours cached_files [] in
  fst (Validate (P:=platform) [forged_token] c w) = (c, w)
  /\ license (fst (fst (Validate (P:=platform) [forged_token] c w)))
     = license c
  /\ signedToken (fst (fst (Validate (P:=platform) [forged_token] c w)))
     = signedToken c.
Proof.
  cbv zeta.
  assert (H1 : closed stocked_client = false) by evaluate.
  assert (H2 : Validate_token [forged_token] stocked_client <> "")
    by evaluate.
  assert (H3 : cfg_publicKey (cfg stocked_client) = Some key) by evaluate.
  assert (H4 : verifyToken (P:=platform) key
                 (Validate_token [forged_token] stocked_client)
               = inr bad_signature) by evaluate.
  pose proof (@Validate_fallback_frame platform [forged_token]
                stocked_client (world ten_hours cached_files []) key
                bad_signature H1 H2 H3 H4) as F.
  destruct F as (F1 & F2 & F3 & _).
  split; [exact F1|]. split; [exact F2 | exact F3].
Defined.

Lemma WithPublicKey_decode_error_discarded_witness :
  let before := [WithToken expired_token] in
  let after := [WithoutCache] in
  let undecodable :=
    fst (NewClient (P:=platform)
           (before ++ [WithPublicKey (P:=platform) "not base64!"] ++ after)) in
  let three_bytes :=
    fst (NewClient (P:=platform)
           (before ++ [WithPublicKey (P:=platform) "AQEB"] ++ after)) in
  let w := world ten_hours [] [] in
  (cfg_publicKey (cfg undecodable) = None
   /\ Validate (P:=platform) [] (Validate_seq (P:=platform) [] undecodable) w
      = (Validate_seq (P:=platform) [] undecodable, w,
         (License_zero, Some ErrNoPublicKey)))
  /\ (cfg_publicKey (cfg three_bytes) = None
      /\ Validate (P:=platform) [expiring_token]
           (Validate_seq (P:=platform) [([], w)] three_bytes) w
         = (Validate_seq (P:=platform) [([], w)] three_bytes, w,
            (License_zero, Some ErrNoPublicKey))).
Proof.
  cbv zeta.
  assert (Hbefore : Forall keeps_publicKey [WithToken expired_token])
    by (constructor; [intros cfg0; reflexivity | constructor]).
  assert (Hafter : Forall keeps_publicKey [WithoutCache])
    by (constructor; [intros cfg0; reflexivity | constructor]).
  assert (B1 : (exists err,
                   base64_StdEncoding_DecodeString (Platform:=platform)
                     "not base64!" = inr err)
               \/ (exists decoded,
                      base64_StdEncoding_DecodeString (Platform:=platform)
                        "not base64!" = inl decoded
                      /\ List.length decoded <> ed25519_PublicKeySize)).
  { left. exists (lib_error "illegal base64 data"). evaluate. }
  assert (B2 : (exists err,
                   base64_StdEncoding_DecodeString (Platform:=platform)
                     "AQEB" = inr err)
               \/ (exists decoded,
                      base64_StdEncoding_DecodeString (Platform:=platform)
                        "AQEB" = inl decoded
                      /\ List.length decoded <> ed25519_PublicKeySize)).
  { right. exists [x01; x01; x01]. split; evaluate. }
  pose proof (@WithPublicKey_decode_error_discarded platform "not base64!"
                _ _ B1 Hbefore Hafter) as W1.
  pose proof (@WithPublicKey_decode_error_discarded platform "AQEB"
                _ _ B2 Hbefore Hafter) as W2.
  cbv zeta in W1, W2.
  destruct W1 as (_ & _ & _ & K1 & V1).
  destruct W2 as (_ & _ & _ & K2 & V2).
  split; (split; [assumption|]).
  - refine (proj1 (V1 [] [] (world ten_hours [] []) _)). evaluate.
  - refine (proj1 (V2 [([], world ten_hours [] [])] [expiring_token]
                     (world ten_hours [] []) _)). evaluate.
Defined.

End Examples.

(** * Further properties of the code *)

(** ** Keys and tokens *)

Section MoreTokenProperties.
Context {P : Platform}.

(** What DecodePublicKey returns: the bytes the string decodes to, which
    are 32, or an error of the code PubKeyDecodeError. *)
Lemma DecodePublicKey_inv (encoded : string) :
  match DecodePublicKey encoded with
  | inl pubKey =>
      base64_StdEncoding_DecodeString encoded = inl pubKey
      /\ List.length pubKey = ed25519_PublicKeySize
  | inr err => error_Code err = Some PubKeyDecodeError
  end.
Proof.
  unfold DecodePublicKey.
  destruct (base64_StdEncoding_DecodeString encoded) as [decoded|e];
    [|reflexivity].
  destruct (Nat.eqb (List.length decoded) ed25519_PublicKeySize) eqn:Hlen;
    simpl; [|reflexivity].
  apply Nat.eqb_eq in Hlen. auto.
Qed.

(** DecodePublicKey returns a key exactly when the string decodes from
    base64 to 32 bytes, and the key is those bytes; every error it returns
    has the code PubKeyDecodeError. *)
Theorem DecodePublicKey_spec (encoded : string) :
  (forall pubKey,
      DecodePublicKey encoded = inl pubKey
      <-> base64_StdEncoding_DecodeString encoded = inl pubKey
          /\ List.length pubKey = ed25519_PublicKeySize)
  /\ (forall err,
         DecodePublicKey encoded = inr err ->
         error_Code err = Some PubKeyDecodeError).
Proof.
  unfold DecodePublicKey.
  destruct (base64_StdEncoding_DecodeString encoded) as [decoded|e].
  - destruct (Nat.eqb (List.length decoded) ed25519_PublicKeySize) eqn:Hlen;
      simpl.
    + apply Nat.eqb_eq in Hlen. split.
      * intros pubKey. split.
        -- intros H. injection H as <-. auto.
        -- intros [H _]. exact H.
      * intros err H. discriminate.
    + apply Nat.eqb_neq in Hlen. split.
      * intros pubKey. split; [discriminate|].
        intros [H Hl]. injection H as <-. contradiction.
      * intros err H. injection H as <-. reflexivity.
  - split.
    + intros pubKey. split; [discriminate | intros [H _]; discriminate].
    + intros err H. injection H as <-. reflexivity.
Qed.

(** The codes of the errors of verifyToken. *)
Lemma verifyToken_error_code (pubKey : bytes) (signedToken : string)
  (err : error) :
  verifyToken pubKey signedToken = inr err ->
  error_Code err = Some LicenseDecodeError
  \/ error_Code err = Some InvalidLicenseSignature.
Proof.
  unfold verifyToken, too_short.
  destruct (base64_StdEncoding_DecodeString signedToken) as [combined|e];
    [|intros H; injection H as <-; left; reflexivity].
  destruct (Nat.leb (List.length combined) ed25519_SignatureSize);
    [intros H; injection H as <-; left; reflexivity|].
  destruct (ed25519_Verify pubKey (skipn ed25519_SignatureSize combined)
              (firstn ed25519_SignatureSize combined)); cbn [negb];
    [|intros H; injection H as <-; right; reflexivity].
  destruct (json_Unmarshal_tokenPayload
              (skipn ed25519_SignatureSize combined)) as [p|e];
    [discriminate|].
  intros H. injection H as <-. left. reflexivity.
Qed.

(** verifyToken returns a payload exactly when the token decodes from base64
    to more than 64 bytes, the bytes after the first 64 verify against the
    first 64 under the key, and they decode to that payload; every error it
    returns has the code LicenseDecodeError or InvalidLicenseSignature. *)
Theorem verifyToken_spec (pubKey : bytes) (signedToken : string) :
  (forall payload,
      verifyToken pubKey signedToken = inl payload
      <-> exists combined,
            base64_StdEncoding_DecodeString signedToken = inl combined
            /\ (ed25519_SignatureSize < List.length combined)%nat
            /\ ed25519_Verify pubKey (skipn ed25519_SignatureSize combined)
                 (firstn ed25519_SignatureSize combined) = true
            /\ json_Unmarshal_tokenPayload
                 (skipn ed25519_SignatureSize combined) = inl payload)
  /\ (forall err,
         verifyToken pubKey signedToken = inr err ->
         error_Code err = Some LicenseDecodeError
         \/ error_Code err = Some InvalidLicenseSignature).
Proof.
  unfold verifyToken, too_short.
  destruct (base64_StdEncoding_DecodeString signedToken) as [combined|e].
  2: { split.
       - intros payload. split; [discriminate|].
         intros (x & H & _). discriminate.
       - intros err H. injection H as <-. left. reflexivity. }
  destruct (Nat.leb (List.length combined) ed25519_SignatureSize) eqn:Hlen.
  { apply Nat.leb_le in Hlen. split.
    - intros payload. split; [discriminate|].
      intros (x & H & Hl & _). injection H as <-. lia.
    - intros err H. injection H as <-. left. reflexivity. }
  apply Nat.leb_gt in Hlen.
  destruct (ed25519_Verify pubKey (skipn ed25519_SignatureSize combined)
              (firstn ed25519_SignatureSize combined)) eqn:Hsig;
    cbn [negb].
  2: { split.
       - intros payload. split; [discriminate|].
         intros (x & H & _ & Hv & _). injection H as <-. congruence.
       - intros err H. injection H as <-. right. reflexivity. }
  destruct (json_Unmarshal_tokenPayload
              (skipn ed25519_SignatureSize combined)) as [p|e] eqn:Hjs.
  - split.
    + intros payload. split.
      * intros H. injection H as <-. exists combined. auto.
      * intros (x & H & _ & _ & Hp). injection H as <-. congruence.
    + intros err H. discriminate.
  - split.
    + intros payload. split; [discriminate|].
      intros (x & H & _ & _ & Hp). injection H as <-. congruence.
    + intros err H. injection H as <-. left. reflexivity.
Qed.

(** The unauthenticated decode agrees with the verified one: whenever
    verifyToken returns a payload, decodeTokenPayload returns the same; when
    decodeTokenPayload fails, its error has the code LicenseDecodeError and
    verifyToken fails too, with that same error or with the
    invalid-signature error. *)
Theorem decodeTokenPayload_agrees (pubKey : bytes) (signedToken : string) :
  (forall payload,
      verifyToken pubKey signedToken = inl payload ->
      decodeTokenPayload signedToken = inl payload)
  /\ (forall err,
         decodeTokenPayload signedToken = inr err ->
         error_Code err = Some LicenseDecodeError
         /\ (verifyToken pubKey signedToken = inr err
             \/ verifyToken pubKey signedToken
                = inr (ValidationError InvalidLicenseSignature
                         "Ed25519 signature verification failed" None))).
Proof.
  unfold verifyToken, decodeTokenPayload.
  destruct (base64_StdEncoding_DecodeString signedToken) as [combined|e].
  2: { split; [discriminate|]. intros err H. injection H as <-. auto. }
  destruct (too_short combined).
  { split; [discriminate|]. intros err H. injection H as <-. auto. }
  destruct (ed25519_Verify pubKey (skipn ed25519_SignatureSize combined)
              (firstn ed25519_SignatureSize combined)); cbn [negb].
  - destruct (json_Unmarshal_tokenPayload
                (skipn ed25519_SignatureSize combined)) as [p|e].
    + split; [auto | discriminate].
    + split; [discriminate|]. intros err H. injection H as <-. auto.
  - split; [discriminate|].
    destruct (json_Unmarshal_tokenPayload
                (skipn ed25519_SignatureSize combined)) as [p|e].
    + discriminate.
    + intros err H. injection H as <-. auto.
Qed.

End MoreTokenProperties.

(** ** Features *)

Lemma has_feature_In (features : list string) (feature : string) :
  has_feature features feature = true <-> In feature features.
Proof.
  induction features as [|f rest IH]; simpl.
  - split; [discriminate | contradiction].
  - destruct (String.eqb f feature) eqn:Heq.
    + apply String.eqb_eq in Heq. split; auto.
    + apply String.eqb_neq in Heq. rewrite IH. split; [auto|].
      intros [H | H]; [contradiction | exact H].
Qed.

(** HasFeature on the License made from a payload. *)
Lemma HasFeature_payload (feature : string) (payload : tokenPayload)
  (token : string) (valid : bool) :
  HasFeature (Some (payloadToLicense payload token valid)) feature = true
  <-> exists features,
        p_Features payload = Some features /\ In feature features.
Proof.
  unfold HasFeature, payloadToLicense. simpl.
  destruct (p_Features payload) as [features|].
  - rewrite has_feature_In. split.
    + intros H. exists features. auto.
    + intros (fs & Hfs & Hin). injection Hfs as <-. exact Hin.
  - simpl. split; [discriminate|]. intros (fs & Hfs & _). discriminate.
Qed.

(** HasFeature is true exactly for a non-nil license that lists the feature,
    character for character; on the License made from a payload that is
    exactly when the payload lists it, whatever the validity. *)
Theorem HasFeature_spec (feature : string) :
  (forall l,
      HasFeature l feature = true
      <-> exists license features,
            l = Some license
            /\ Features license = Some features
            /\ In feature features)
  /\ (forall payload token valid,
         HasFeature (Some (payloadToLicense payload token valid)) feature
         = true
         <-> exists features,
               p_Features payload = Some features /\ In feature features).
Proof.
  split.
  - intros [license|]; simpl.
    + destruct (Features license) as [features|] eqn:Hf.
      * rewrite has_feature_In. split.
        -- intros H. exists license, features. auto.
        -- intros (l & fs & Hl & Hfs & Hin).
           injection Hl as <-. congruence.
      * split; [discriminate|].
        intros (l & fs & Hl & Hfs & _). injection Hl as <-. congruence.
    + split; [discriminate|]. intros (l & fs & Hl & _). discriminate.
  - intros payload token valid. apply HasFeature_payload.
Qed.

(** ** Validity in time *)

Section MoreValidateProperties.
Context {P : Platform}.

Lemma checked_license_Valid (payload : tokenPayload) (token : string)
  (now : Time) :
  Valid (checked_license payload token now) = true
  <-> (p_IssuedAt payload = 0 \/ p_IssuedAt payload <= now)
      /\ (p_ExpiresAt payload = 0 \/ now <= p_ExpiresAt payload).
Proof.
  unfold checked_license, Time_IsZero, Time_Before, Time_After.
  destruct (p_IssuedAt payload =? 0) eqn:Hi;
    destruct (now <? p_IssuedAt payload) eqn:Hb;
    destruct (p_ExpiresAt payload =? 0) eqn:He;
    destruct (p_ExpiresAt payload <? now) eqn:Ha;
    simpl;
    rewrite ?Z.eqb_eq, ?Z.eqb_neq, ?Z.ltb_lt, ?Z.ltb_ge in *;
    split; try discriminate; try reflexivity; intros; lia.
Qed.

Lemma checked_license_shape (payload : tokenPayload) (token : string)
  (now : Time) :
  checked_license payload token now
  = payloadToLicense payload token
      (Valid (checked_license payload token now)).
Proof.
  unfold checked_license.
  destruct (negb (Time_IsZero (p_IssuedAt payload))
            && Time_Before now (p_IssuedAt payload));
    destruct (negb (Time_IsZero (p_ExpiresAt payload))
              && Time_After now (p_ExpiresAt payload));
    reflexivity.
Qed.

Lemma Validate_commit_license (args : list string) (c : Client) (w : World)
  (publicKey : bytes) (payload : tokenPayload) :
  closed c = false ->
  Validate_token args c <> "" ->
  cfg_publicKey (cfg c) = Some publicKey ->
  verifyToken publicKey (Validate_token args c) = inl payload ->
  snd (Validate args c w)
  = (checked_license payload (Validate_token args c) (w_clock w (w_reads w)),
     None)
  /\ fst (fst (Validate args c w))
     = committed_client payload (Validate_token args c) c
         (w_clock w (w_reads w))
  /\ w_fs (snd (fst (Validate args c w)))
     = fst (cache_save (cache c)
              (checked_license payload (Validate_token args c)
                 (w_clock w (w_reads w))) (w_fs w)).
Proof.
  intros Hopen Htok Hkey Hver. apply is_empty_false in Htok.
  rewrite (Validate_verifies _ _ w Hopen Htok Hkey), Hver.
  destruct (Validate_commit_fields payload (Validate_token args c) c w)
    as (H1 & H2 & H3 & _).
  auto.
Qed.

(** The License a verifying Validate returns is the payload's fields and the
    token, with Valid = true exactly when the clock reading is not before a
    set issued-at and not after a set expires-at; both bounds are
    inclusive. *)
Theorem Validate_valid_iff (args : list string) (c : Client) (w : World)
  (publicKey : bytes) (payload : tokenPayload) :
  closed c = false ->
  Validate_token args c <> "" ->
  cfg_publicKey (cfg c) = Some publicKey ->
  verifyToken publicKey (Validate_token args c) = inl payload ->
  let l := fst (snd (Validate args c w)) in
  let now := w_clock w (w_reads w) in
  l = payloadToLicense payload (Validate_token args c) (Valid l)
  /\ (Valid l = true
      <-> (p_IssuedAt payload = 0 \/ p_IssuedAt payload <= now)
          /\ (p_ExpiresAt payload = 0 \/ now <= p_ExpiresAt payload)).
Proof.
  intros Hopen Htok Hkey Hver. cbv zeta.
  destruct (Validate_commit_license args c w Hopen Htok Hkey Hver)
    as (Hres & _).
  rewrite Hres. cbn [fst]. split.
  - apply checked_license_shape.
  - apply checked_license_Valid.
Qed.

(** Expiry only grows with time: if IsExpired reports a License that a
    verifying Validate returned as expired at some clock reading, every
    Validate of that token whose clock reads that time or later returns
    Valid = false. *)
Theorem IsExpired_then_invalid (args : list string) (c : Client)
  (w0 w1 w : World) (publicKey : bytes) (payload : tokenPayload) :
  closed c = false ->
  Validate_token args c <> "" ->
  cfg_publicKey (cfg c) = Some publicKey ->
  verifyToken publicKey (Validate_token args c) = inl payload ->
  fst (IsExpired (Some (fst (snd (Validate args c w0)))) w1) = true ->
  w_clock w1 (w_reads w1) <= w_clock w (w_reads w) ->
  Valid (fst (snd (Validate args c w))) = false.
Proof.
  intros Hopen Htok Hkey Hver Hexp Hlater.
  destruct (Validate_commit_license args c w0 Hopen Htok Hkey Hver)
    as (Hres0 & _).
  destruct (Validate_commit_license args c w Hopen Htok Hkey Hver)
    as (Hres & _).
  rewrite Hres0 in Hexp. rewrite Hres. cbn [fst] in *.
  unfold IsExpired in Hexp.
  destruct (checked_license_fields payload (Validate_token args c)
              (w_clock w0 (w_reads w0))) as (_ & _ & He).
  rewrite He in Hexp. unfold time_Now in Hexp.
  destruct (Time_IsZero (p_ExpiresAt payload)) eqn:Hz;
    [discriminate|].
  cbn [fst] in Hexp. unfold Time_After in Hexp. apply Z.ltb_lt in Hexp.
  unfold Time_IsZero in Hz. apply Z.eqb_neq in Hz.
  destruct (Valid (checked_license payload (Validate_token args c)
                     (w_clock w (w_reads w)))) eqn:Hv; [|reflexivity].
  apply checked_license_Valid in Hv. lia.
Qed.

(** Validating the same token again gives the same License up to Valid:
    after a verifying Validate with an explicit token, a second Validate of
    that token on the resulting client, in any world, returns the first
    License with its own Valid, and keeps that token stored. *)
Theorem Validate_twice (token : string) (c : Client) (w1 w2 : World)
  (publicKey : bytes) (payload : tokenPayload) :
  closed c = false ->
  token <> "" ->
  cfg_publicKey (cfg c) = Some publicKey ->
  verifyToken publicKey token = inl payload ->
  let r1 := Validate [token] c w1 in
  let r2 := Validate [token] (fst (fst r1)) w2 in
  snd (snd r1) = None
  /\ snd (snd r2) = None
  /\ fst (snd r2) = set_Valid (Valid (fst (snd r2))) (fst (snd r1))
  /\ signedToken (fst (fst r2)) = token
  /\ license (fst (fst r2)) = Some (fst (snd r2)).
Proof.
  intros Hopen Hne Hkey Hver. cbv zeta.
  assert (Ht : forall x, Validate_token [token] x = token)
    by (intros x; apply Validate_token_explicit; exact Hne).
  assert (Hne1 : Validate_token [token] c <> "") by (rewrite Ht; exact Hne).
  assert (Hver1 : verifyToken publicKey (Validate_token [token] c)
                  = inl payload) by (rewrite Ht; exact Hver).
  destruct (Validate_commit_license [token] c w1 Hopen Hne1 Hkey Hver1)
    as (Hres1 & Hc1 & _).
  set (c1 := fst (fst (Validate [token] c w1))) in *.
  destruct (committed_client_fields payload (Validate_token [token] c) c
              (w_clock w1 (w_reads w1)))
    as (_ & _ & _ & Hcl & _ & _ & _ & Hk & _).
  rewrite <- Hc1 in Hcl, Hk.
  assert (Hopen2 : closed c1 = false) by congruence.
  assert (Hkey2 : cfg_publicKey (cfg c1) = Some publicKey) by congruence.
  assert (Hne2 : Validate_token [token] c1 <> "") by (rewrite Ht; exact Hne).
  assert (Hver2 : verifyToken publicKey (Validate_token [token] c1)
                  = inl payload) by (rewrite Ht; exact Hver).
  destruct (Validate_commit_license [token] c1 w2 Hopen2 Hne2 Hkey2 Hver2)
    as (Hres2 & Hc2 & _).
  rewrite Hres1, Hres2, Hc2. cbn [fst snd]. rewrite !Ht.
  split; [reflexivity|]. split; [reflexivity|]. split.
  - rewrite (checked_license_shape payload token (w_clock w2 (w_reads w2)))
      at 1.
    rewrite (checked_license_shape payload token (w_clock w1 (w_reads w1))).
    reflexivity.
  - destruct (committed_client_fields payload token c1
                (w_clock w2 (w_reads w2))) as (Hl & Hs & _).
    auto.
Qed.

End MoreValidateProperties.

(** ** The one-shot functions *)

Section FacadeProperties.
Context {P : Platform}.

(** The shared part, step by step. *)
Lemma check_with_key_eq (pubKey : bytes)
  (token appName appPublisher : string) (w : World) :
  check_with_key pubKey token appName appPublisher w
  = match verifyToken pubKey token with
    | inr err =>
        match cache_load (newCacheManager appName appPublisher "" false)
                (w_fs w) with
        | inl cached => (w, (cached, None))
        | inr _ => (w, (License_zero, Some err))
        end
    | inl payload =>
        let license :=
          checked_license payload token (w_clock w (w_reads w)) in
        (set_fs (fst (cache_save
                        (newCacheManager appName appPublisher "" false)
                        license (w_fs w)))
           (snd (time_Now w)),
         (license, None))
    end.
Proof.
  unfold check_with_key.
  destruct (verifyToken pubKey token) as [payload|err]; [|reflexivity].
  unfold time_Now, checked_license. cbv beta iota zeta. cbn [w_fs].
  destruct (cache_save _ _ _) as [fs e]. reflexivity.
Qed.

Lemma check_with_key_Validate (c : Client) (w : World) (pubKey : bytes)
  (token appName appPublisher : string) :
  closed c = false ->
  cfg_publicKey (cfg c) = Some pubKey ->
  token <> "" ->
  cache c = newCacheManager appName appPublisher "" false ->
  snd (Validate [token] c w)
  = snd (check_with_key pubKey token appName appPublisher w)
  /\ w_fs (snd (fst (Validate [token] c w)))
     = w_fs (fst (check_with_key pubKey token appName appPublisher w)).
Proof.
  intros Hopen Hkey Hne Hcache.
  assert (Ht : Validate_token [token] c = token)
    by (apply Validate_token_explicit; exact Hne).
  assert (Hne' : is_empty (Validate_token [token] c) = false)
    by (rewrite Ht; apply is_empty_false; exact Hne).
  rewrite check_with_key_eq.
  destruct (verifyToken pubKey token) as [payload|err] eqn:Hver.
  - assert (Hne1 : Validate_token [token] c <> "") by (rewrite Ht; exact Hne).
    assert (Hver1 : verifyToken pubKey (Validate_token [token] c)
                    = inl payload) by (rewrite Ht; exact Hver).
    destruct (Validate_commit_license [token] c w Hopen Hne1 Hkey Hver1)
      as (Hres & _ & Hfs).
    rewrite Hres, Hfs, Ht, Hcache. split; reflexivity.
  - rewrite (Validate_verifies _ _ w Hopen Hne' Hkey), Ht, Hver, Hcache.
    destruct (cache_load _ _); split; reflexivity.
Qed.

(** CheckLicense is Validate on a client made with that key alone: for a
    non-empty key string that decodes and a non-empty token, it returns the
    License and the error that [NewClient(WithPublicKey(key)).Validate(token)]
    returns, and leaves the same files. *)
Theorem CheckLicense_is_Validate (publicKey token : string) (w : World)
  (pubKey : bytes) :
  publicKey <> "" ->
  token <> "" ->
  DecodePublicKey publicKey = inl pubKey ->
  let c := fst (NewClient [WithPublicKey publicKey]) in
  snd (CheckLicense publicKey token w) = snd (Validate [token] c w)
  /\ w_fs (fst (CheckLicense publicKey token w))
     = w_fs (snd (fst (Validate [token] c w))).
Proof.
  intros Hk Ht Hdec. cbv zeta.
  assert (Hc : closed (fst (NewClient [WithPublicKey publicKey])) = false
               /\ cfg_publicKey (cfg (fst (NewClient [WithPublicKey publicKey])))
                  = Some pubKey
               /\ cache (fst (NewClient [WithPublicKey publicKey]))
                  = newCacheManager "" "" "" false).
  { unfold NewClient, WithPublicKey. simpl. rewrite Hdec. simpl. auto. }
  destruct Hc as (Hopen & Hkey & Hcache).
  destruct (check_with_key_Validate _ w Hopen Hkey Ht Hcache) as [H1 H2].
  unfold CheckLicense. apply is_empty_false in Hk, Ht.
  rewrite Hk, Ht, Hdec. auto.
Qed.

(** CheckLicenseLegacy is Validate on a client made with that raw key and
    that application info: for a non-nil key and a non-empty token it
    returns what that client's Validate returns and leaves the same
    files. *)
Theorem CheckLicenseLegacy_is_Validate (signedToken : string)
  (publicKey : bytes) (appName appPublisher : string) (w : World) :
  signedToken <> "" ->
  let c :=
    fst (NewClient [WithPublicKeyRaw (Some publicKey);
                    WithAppInfo appName appPublisher]) in
  snd (CheckLicenseLegacy signedToken (Some publicKey) appName appPublisher w)
  = snd (Validate [signedToken] c w)
  /\ w_fs (fst (CheckLicenseLegacy signedToken (Some publicKey) appName
                  appPublisher w))
     = w_fs (snd (fst (Validate [signedToken] c w))).
Proof.
  intros Ht. cbv zeta.
  destruct (check_with_key_Validate
              (fst (NewClient [WithPublicKeyRaw (Some publicKey);
                               WithAppInfo appName appPublisher]))
              w (pubKey := publicKey) (appName := appName)
              (appPublisher := appPublisher) eq_refl eq_refl Ht eq_refl)
    as [H1 H2].
  unfold CheckLicenseLegacy. apply is_empty_false in Ht. rewrite Ht. auto.
Qed.

(** The guards of CheckLicense, in their order: an empty key string gives
    ErrNoPublicKey, also with an empty token; an empty token with a key
    string gives ErrNoToken; a key string that does not decode gives the
    error of DecodePublicKey, of code PubKeyDecodeError.  In each case the
    License is empty and nothing is read or written. *)
Theorem CheckLicense_guards (publicKey token : string) (w : World) :
  (publicKey = "" ->
   CheckLicense publicKey token w = (w, (License_zero, Some ErrNoPublicKey)))
  /\ (publicKey <> "" -> token = "" ->
      CheckLicense publicKey token w = (w, (License_zero, Some ErrNoToken)))
  /\ (publicKey <> "" -> token <> "" ->
      forall err,
        DecodePublicKey publicKey = inr err ->
        CheckLicense publicKey token w = (w, (License_zero, Some err))
        /\ error_Code err = Some PubKeyDecodeError).
Proof.
  unfold CheckLicense. split; [|split].
  - intros ->. reflexivity.
  - intros Hk ->. apply is_empty_false in Hk. rewrite Hk. reflexivity.
  - intros Hk Ht err Hdec. apply is_empty_false in Hk, Ht.
    rewrite Hk, Ht, Hdec. split; [reflexivity|].
    pose proof (DecodePublicKey_inv publicKey) as Hcode.
    rewrite Hdec in Hcode. exact Hcode.
Qed.

(** CheckFeature does not look at Valid: for a key that decodes and a token
    that verifies, it returns a nil error, and true exactly when the payload
    lists the feature, whether or not the license is within its dates. *)
Theorem CheckFeature_verified (publicKey token feature : string) (w : World)
  (pubKey : bytes) (payload : tokenPayload) :
  publicKey <> "" ->
  token <> "" ->
  DecodePublicKey publicKey = inl pubKey ->
  verifyToken pubKey token = inl payload ->
  snd (snd (CheckFeature publicKey token feature w)) = None
  /\ (fst (snd (CheckFeature publicKey token feature w)) = true
      <-> exists features,
            p_Features payload = Some features /\ In feature features).
Proof.
  intros Hk Ht Hdec Hver. unfold CheckFeature, CheckLicense.
  apply is_empty_false in Hk, Ht.
  rewrite Hk, Ht, Hdec, check_with_key_eq, Hver. cbv zeta. cbn [fst snd].
  split; [reflexivity|].
  rewrite checked_license_shape.
  apply HasFeature_payload.
Qed.

End FacadeProperties.

(** ** The cache *)

Section CacheProperties.
Context {P : Platform}.

(** save, then load from the files it leaves. *)
Lemma cache_save_then_load (cm : cacheManager) (l : License)
  (fs fs1 fs2 : FS) (data : bytes) :
  disabled cm = false ->
  dir cm <> "" ->
  os_MkdirAll (dir cm) fs = (fs1, None) ->
  json_Marshal_License l = inl data ->
  os_WriteFile (filepath_Join [dir cm; cacheFileName]) data fs1
  = (fs2, None) ->
  os_ReadFile (filepath_Join [dir cm; cacheFileName]) fs2 = inl data ->
  json_Unmarshal_License data = inl l ->
  cache_save cm l fs = (fs2, None) /\ cache_load cm fs2 = inl l.
Proof.
  intros Hd Hdir Hmk Hjs Hwr Hrd Hun.
  rewrite (proj2 (cache_save_files cm l fs) Hd Hdir fs1 data Hmk Hjs), Hwr.
  split; [reflexivity|]. unfold cache_load.
  apply is_empty_false in Hdir. rewrite Hd, Hdir, Hrd, Hun. reflexivity.
Qed.

(** Cache round trip: with the cache enabled, when the directory is made,
    the License encodes, the file is written, reading the file back gives
    what was written and that decodes to the License, save returns nil and a
    load from the files it leaves returns that License. *)
Theorem cache_round_trip (cm : cacheManager) (l : License) (fs fs1 fs2 : FS)
  (data : bytes) :
  disabled cm = false ->
  dir cm <> "" ->
  os_MkdirAll (dir cm) fs = (fs1, None) ->
  json_Marshal_License l = inl data ->
  os_WriteFile (filepath_Join [dir cm; cacheFileName]) data fs1
  = (fs2, None) ->
  os_ReadFile (filepath_Join [dir cm; cacheFileName]) fs2 = inl data ->
  json_Unmarshal_License data = inl l ->
  cache_save cm l fs = (fs2, None)
  /\ cache_load cm (fst (cache_save cm l fs)) = inl l.
Proof.
  intros Hd Hdir Hmk Hjs Hwr Hrd Hun.
  destruct (@cache_save_then_load cm l fs fs1 fs2 data
              Hd Hdir Hmk Hjs Hwr Hrd Hun) as [Hsave Hload].
  rewrite Hsave. split; [reflexivity | exact Hload].
Qed.

Lemma NewClient_cache (opts : list Option) :
  cfg_disableCache (cfg (fst (NewClient opts))) = true ->
  disabled (cache (fst (NewClient opts))) = true.
Proof.
  unfold NewClient. cbv zeta.
  destruct (negb (is_empty (cfg_token _))); simpl;
    intros H; unfold newCacheManager; rewrite H; reflexivity.
Qed.

(** A client configured without cache never touches the files: no Validate
    and no ValidateFromCache changes them, a verification failure has no
    fallback and returns the verifier's error, and ValidateFromCache on the
    open client fails with the not-exist error. *)
Theorem WithoutCache_no_files (opts : list Option) (w : World) :
  cfg_disableCache (cfg (fst (NewClient opts))) = true ->
  let c := fst (NewClient opts) in
  (forall args, w_fs (snd (fst (Validate args c w))) = w_fs w)
  /\ (forall args publicKey err,
         Validate_token args c <> "" ->
         cfg_publicKey (cfg c) = Some publicKey ->
         verifyToken publicKey (Validate_token args c) = inr err ->
         snd (Validate args c w) = (License_zero, Some err))
  /\ ValidateFromCache c w = (c, w, (None, Some os_ErrNotExist)).
Proof.
  intros Hcfg. cbv zeta. pose proof (NewClient_cache opts Hcfg) as Hd.
  destruct (NewClient_fields opts) as (_ & _ & Hopen & _).
  set (c := fst (NewClient opts)) in *.
  assert (Hload : forall fs, cache_load (cache c) fs = inr os_ErrNotExist).
  { intros fs. unfold cache_load. rewrite Hd. reflexivity. }
  split; [|split].
  - intros args. destruct (Validate_paths args c w) as [[_ Hsame] | Hyes].
    + rewrite Hsame. reflexivity.
    + destruct Hyes as (publicKey & payload & _ & Htok & Hkey & Hver & _).
      destruct (Validate_commit_license args c w Hopen Htok Hkey Hver)
        as (_ & _ & Hfs).
      rewrite Hfs.
      rewrite (proj1 (cache_save_files (cache c) _ (w_fs w)) (or_introl Hd)).
      reflexivity.
  - intros args publicKey err Htok Hkey Hver.
    rewrite (Validate_falls_back args c w Hopen Htok Hkey Hver), Hload.
    reflexivity.
  - unfold ValidateFromCache. rewrite Hopen, Hload. reflexivity.
Qed.

(** Offline fallback: after a verifying Validate has written the cache
    (cache enabled, directory made, License encoded and written, and the
    file reads back and decodes to it), a later Validate on that client
    whose token fails to verify returns the License of the first call with
    a nil error, as long as the files are as the first call left them. *)
Theorem Validate_offline_fallback (token later : string) (c : Client)
  (w1 w2 : World) (publicKey : bytes) (payload : tokenPayload) (err : error)
  (fs1 fs2 : FS) (data : bytes) :
  closed c = false ->
  token <> "" ->
  later <> "" ->
  cfg_publicKey (cfg c) = Some publicKey ->
  verifyToken publicKey token = inl payload ->
  verifyToken publicKey later = inr err ->
  let l := fst (snd (Validate [token] c w1)) in
  disabled (cache c) = false ->
  dir (cache c) <> "" ->
  os_MkdirAll (dir (cache c)) (w_fs w1) = (fs1, None) ->
  json_Marshal_License l = inl data ->
  os_WriteFile (filepath_Join [dir (cache c); cacheFileName]) data fs1
  = (fs2, None) ->
  os_ReadFile (filepath_Join [dir (cache c); cacheFileName]) fs2 = inl data ->
  json_Unmarshal_License data = inl l ->
  w_fs w2 = w_fs (snd (fst (Validate [token] c w1))) ->
  snd (Validate [later] (fst (fst (Validate [token] c w1))) w2) = (l, None).
Proof.
  intros Hopen Hne Hlater Hkey Hver Hbad. cbv zeta.
  intros Hd Hdir Hmk Hjs Hwr Hrd Hun Hfiles.
  assert (Ht : forall t x, t <> "" -> Validate_token [t] x = t)
    by (intros t x Ht; apply Validate_token_explicit; exact Ht).
  assert (Hne1 : Validate_token [token] c <> "")
    by (rewrite Ht; assumption).
  assert (Hver1 : verifyToken publicKey (Validate_token [token] c)
                  = inl payload) by (rewrite Ht; assumption).
  destruct (Validate_commit_license [token] c w1 Hopen Hne1 Hkey Hver1)
    as (Hres & Hc1 & Hfs).
  set (c1 := fst (fst (Validate [token] c w1))) in *.
  set (l := fst (snd (Validate [token] c w1))) in *.
  assert (Hl : checked_license payload (Validate_token [token] c)
                 (w_clock w1 (w_reads w1)) = l)
    by (unfold l; rewrite Hres; reflexivity).
  rewrite Hl in Hfs.
  destruct (committed_client_fields payload (Validate_token [token] c) c
              (w_clock w1 (w_reads w1)))
    as (_ & _ & Hca & Hcl & _ & _ & _ & Hk & _).
  rewrite <- Hc1 in Hca, Hcl, Hk.
  assert (Hopen2 : closed c1 = false) by congruence.
  assert (Hkey2 : cfg_publicKey (cfg c1) = Some publicKey) by congruence.
  assert (Hne2 : Validate_token [later] c1 <> "") by (rewrite Ht; assumption).
  assert (Hbad2 : verifyToken publicKey (Validate_token [later] c1)
                  = inr err) by (rewrite Ht; assumption).
  rewrite (Validate_falls_back [later] c1 w2 Hopen2 Hne2 Hkey2 Hbad2).
  rewrite Hca, Hfiles, Hfs.
  destruct (@cache_save_then_load (cache c) l (w_fs w1) fs1 fs2 data
              Hd Hdir Hmk Hjs Hwr Hrd Hun) as [Hsave Hload].
  rewrite Hsave. cbn [fst]. rewrite Hload. reflexivity.
Qed.

End CacheProperties.

(** ** Events, shutdown and the heartbeat control *)

Section ControlProperties.
Context {P : Platform}.

Lemma events_extended_refl (c c' : Client) :
  Events c' = Events c -> events_extended c c'.
Proof.
  intros H. exists []. rewrite H, app_nil_r.
  split; [reflexivity|].
  split; [apply Nat.le_0_l | apply Nat.le_max_r].
Qed.

Lemma events_extended_emit (e : Event) (c c' : Client) :
  Events c' = Events c -> events_extended c (emitEvent e c').
Proof.
  intros H. unfold emitEvent, events_extended.
  destruct (Nat.ltb (List.length (Events c')) eventsChannelSize) eqn:Hroom.
  - apply Nat.ltb_lt in Hroom. exists [e]. cbn [Events set_Events].
    rewrite H in *.
    split; [reflexivity|]. split; [apply Nat.le_refl|].
    rewrite length_app. cbn [List.length].
    apply Nat.le_trans with eventsChannelSize; [lia | apply Nat.le_max_l].
  - exists []. rewrite H, app_nil_r.
    split; [reflexivity|].
    split; [apply Nat.le_0_l | apply Nat.le_max_r].
Qed.

Lemma Validate_Events (args : list string) (c : Client) (w : World) :
  Events (fst (fst (Validate args c w))) = Events c.
Proof.
  destruct (Validate_paths args c w) as [[_ Hsame] | Hyes].
  - rewrite Hsame. reflexivity.
  - destruct Hyes as (publicKey & payload & _ & _ & _ & _ & Heq).
    rewrite Heq, Validate_commit_eq. cbv zeta. cbn [fst].
    apply (committed_client_fields payload (Validate_token args c) c
             (w_clock w (w_reads w))).
Qed.

Lemma StopHeartbeat_fields (c : Client) :
  running (hb (StopHeartbeat c)) = false
  /\ Events (StopHeartbeat c) = Events c
  /\ closed (StopHeartbeat c) = closed c
  /\ license (StopHeartbeat c) = license c
  /\ signedToken (StopHeartbeat c) = signedToken c
  /\ cfg (StopHeartbeat c) = cfg c
  /\ opts (hb (StopHeartbeat c)) = opts (hb c)
  /\ interval (hb (StopHeartbeat c)) = interval (hb c).
Proof.
  unfold StopHeartbeat. destruct (running (hb c)) eqn:Hr; simpl;
    repeat split; auto.
Qed.

(** No producer overfills or disturbs the Events buffer: each operation of
    the client leaves what the buffer held in place, adds at most one event
    at its end, and never takes it past the capacity of 16. *)
Theorem Events_never_overfilled (c : Client) (w : World) :
  (forall args, events_extended c (fst (fst (Validate args c w))))
  /\ events_extended c (fst (fst (ValidateFromCache c w)))
  /\ events_extended c (fst (fst (Renew c w)))
  /\ events_extended c (fst (fst (RenewResult c w)))
  /\ (forall serverURL token,
         events_extended c (fst (sendHeartbeat serverURL token c w)))
  /\ (forall opts, events_extended c (fst (fst (StartHeartbeat opts c w))))
  /\ events_extended c (fst (fst (Checkout c w)))
  /\ events_extended c (fst (Close c)).
Proof.
  split; [|split; [|split; [|split; [|split; [|split; [|split]]]]]].
  - intros args. apply events_extended_refl. apply Validate_Events.
  - apply events_extended_refl. unfold ValidateFromCache.
    destruct (closed c); [reflexivity|].
    destruct (cache_load (cache c) (w_fs w)) as [cached|err];
      [|reflexivity].
    destruct (is_empty (SignedToken cached)); reflexivity.
  - unfold Renew.
    destruct (closed c); [apply events_extended_refl; reflexivity|].
    destruct (is_empty (resolveServerURL c));
      [apply events_extended_refl; reflexivity|].
    cbv zeta.
    destruct (is_empty (if is_empty (signedToken c) then cfg_token (cfg c)
                        else signedToken c));
      [apply events_extended_refl; reflexivity|].
    destruct (postJSON _ _ _ _ _ _) as [net [[statusCode err] result]].
    destruct err as [err|]; [apply events_extended_refl; reflexivity|].
    destruct (negb (statusCode =? http_StatusOK));
      [apply events_extended_refl; reflexivity|].
    destruct (negb (is_empty (rr_SignedToken result))
              && negb (is_nil (cfg_publicKey (cfg c)))).
    + pose proof (Validate_Events [rr_SignedToken result] c (set_net net w))
        as Hev.
      destruct (Validate [rr_SignedToken result] c (set_net net w))
        as [[c1 w1] [newLicense validateErr]].
      cbn [fst] in Hev.
      destruct (is_nil validateErr && Valid newLicense); cbn [fst].
      * apply events_extended_emit. exact Hev.
      * apply events_extended_refl.
        destruct (negb (is_empty (rr_SignedToken result))); exact Hev.
    + apply events_extended_refl. cbn [fst].
      destruct (negb (is_empty (rr_SignedToken result))); reflexivity.
  - unfold RenewResult.
    destruct (closed c); [apply events_extended_refl; reflexivity|].
    destruct (is_empty (resolveServerURL c));
      [apply events_extended_refl; reflexivity|].
    cbv zeta.
    destruct (is_empty (if is_empty (signedToken c) then cfg_token (cfg c)
                        else signedToken c));
      [apply events_extended_refl; reflexivity|].
    destruct (postJSON _ _ _ _ _ _) as [net [[statusCode err] result]].
    destruct err as [err|]; [apply events_extended_refl; reflexivity|].
    destruct (negb (statusCode =? http_StatusOK));
      [apply events_extended_refl; reflexivity|].
    destruct (negb (is_empty (rr_SignedToken result))
              && negb (is_nil (cfg_publicKey (cfg c))));
      [|apply events_extended_refl; reflexivity].
    pose proof (Validate_Events [rr_SignedToken result] c (set_net net w))
      as Hev.
    destruct (Validate [rr_SignedToken result] c (set_net net w))
      as [[c1 w1] [newLicense validateErr]].
    cbn [fst] in Hev.
    destruct (is_nil validateErr && Valid newLicense); cbn [fst].
    + apply events_extended_emit. exact Hev.
    + apply events_extended_refl. exact Hev.
  - intros serverURL token.
    destruct (postJSON json_Unmarshal_HeartbeatStatus (http c)
                (serverURL ++ "/api/v1/concurrency/heartbeat")
                (heartbeat_body token (opts (hb c))) HeartbeatStatus_zero
                (w_net w)) as [net [[statusCode err] resp]] eqn:Hpost.
    assert (Hev : Events (fst (sendHeartbeat serverURL token c w))
                  = Events (emitEvent
                              (spec_heartbeat_event statusCode err resp) c))
      by (rewrite (sendHeartbeat_run serverURL token c w Hpost);
          reflexivity).
    destruct (events_extended_emit
                (spec_heartbeat_event statusCode err resp) c c eq_refl)
      as (suffix & H1 & H2 & H3).
    exists suffix. rewrite Hev. auto.
  - intros opts0. apply events_extended_refl. unfold StartHeartbeat.
    destruct (closed c); [reflexivity|].
    destruct (running (hb c)); [reflexivity|].
    destruct (is_empty (resolveServerURL c)); [reflexivity|].
    cbv zeta.
    destruct (is_empty (if is_empty (signedToken c) then cfg_token (cfg c)
                        else signedToken c)); reflexivity.
  - destruct (StopHeartbeat_fields c) as (_ & Hev & _).
    unfold Checkout.
    destruct (closed c); [apply events_extended_refl; reflexivity|].
    cbv zeta.
    destruct (is_empty (resolveServerURL (StopHeartbeat c)));
      [apply events_extended_refl; exact Hev|].
    destruct (is_empty (signedToken (StopHeartbeat c)));
      [apply events_extended_refl; exact Hev|].
    destruct (deleteJSON _ _ _ _ _ _) as [net [[statusCode err] resp]].
    destruct err as [err|]; [apply events_extended_refl; exact Hev|].
    destruct (negb (statusCode =? http_StatusOK));
      [apply events_extended_refl; exact Hev|].
    apply events_extended_emit. exact Hev.
  - apply events_extended_refl. unfold Close.
    destruct (closed c); [reflexivity|].
    cbn [fst]. apply (StopHeartbeat_fields c).
Qed.

(** After Close the client is closed and its heartbeat is not running, and
    from then on every operation returns ErrClientClosed and leaves the
    client and the world as they are; a second Close changes nothing. *)
Theorem Close_is_final (c : Client) (w : World) :
  let c' := fst (Close c) in
  snd (Close c) = None
  /\ closed c' = true
  /\ (closed c = false -> running (hb c') = false)
  /\ Close c' = (c', None)
  /\ (forall args,
         Validate args c' w = (c', w, (License_zero, Some ErrClientClosed)))
  /\ ValidateFromCache c' w = (c', w, (None, Some ErrClientClosed))
  /\ Renew c' w = (c', w, (None, Some ErrClientClosed))
  /\ RenewResult c' w = (c', w, (None, Some ErrClientClosed))
  /\ (forall opts,
         StartHeartbeat opts c' w = (c', w, (None, Some ErrClientClosed)))
  /\ Checkout c' w = (c', w, Some ErrClientClosed).
Proof.
  cbv zeta.
  assert (Hc : closed (fst (Close c)) = true).
  { unfold Close. destruct (closed c) eqn:Hcl; [exact Hcl | reflexivity]. }
  split.
  { unfold Close. destruct (closed c); reflexivity. }
  split; [exact Hc|]. split.
  { intros Hopen. unfold Close. rewrite Hopen. cbn [fst]. simpl.
    apply (StopHeartbeat_fields c). }
  split; [unfold Close at 1; rewrite Hc; reflexivity|].
  split; [intros args; unfold Validate; rewrite Hc; reflexivity|].
  split; [unfold ValidateFromCache; rewrite Hc; reflexivity|].
  split; [unfold Renew; rewrite Hc; reflexivity|].
  split; [unfold RenewResult; rewrite Hc; reflexivity|].
  split; [intros opts0; unfold StartHeartbeat; rewrite Hc; reflexivity|].
  unfold Checkout; rewrite Hc; reflexivity.
Qed.

(** The guards of StartHeartbeat. *)
Lemma StartHeartbeat_succeeds (opts0 : list HeartbeatOptions) (c : Client)
  (w : World) :
  snd (snd (StartHeartbeat opts0 c w)) = None
  <-> closed c = false
      /\ running (hb c) = false
      /\ resolveServerURL c <> ""
      /\ stored_or_configured c <> "".
Proof.
  unfold StartHeartbeat, stored_or_configured.
  destruct (closed c);
    [split; [discriminate | intros (H & _); discriminate]|].
  destruct (running (hb c));
    [split; [discriminate | intros (_ & H & _); discriminate]|].
  destruct (is_empty (resolveServerURL c)) eqn:Hurl.
  { split; [discriminate|]. intros (_ & _ & H & _).
    apply is_empty_true in Hurl. contradiction. }
  cbv zeta.
  destruct (is_empty (if is_empty (signedToken c) then cfg_token (cfg c)
                      else signedToken c)) eqn:Htok.
  { split; [discriminate|]. intros (_ & _ & _ & H).
    apply is_empty_true in Htok. contradiction. }
  split; [|reflexivity]. intros _.
  apply is_empty_false in Hurl, Htok. auto.
Qed.

(** A StartHeartbeat that succeeds: the heartbeat state it sets and the loop
    it starts. *)
Lemma StartHeartbeat_started (opts0 : list HeartbeatOptions) (c : Client)
  (w : World) :
  snd (snd (StartHeartbeat opts0 c w)) = None ->
  exists o,
    StartHeartbeat opts0 c w
    = (set_hb {| running := true; stopCh := chan_open; doneCh := chan_open;
                 opts := o;
                 interval := if cfg_heartbeatInterval (cfg c) =? 0
                             then defaultHeartbeatInterval
                             else cfg_heartbeatInterval (cfg c) |} c,
       go (go_heartbeatLoop (resolveServerURL c) (stored_or_configured c)) w,
       (Some tt, None)).
Proof.
  intros Hok.
  destruct (proj1 (StartHeartbeat_succeeds opts0 c w) Hok)
    as (Hopen & Hrun & Hurl & Htok).
  unfold StartHeartbeat, stored_or_configured in *.
  apply is_empty_false in Hurl, Htok. rewrite Hopen, Hrun, Hurl.
  cbv zeta. rewrite Htok. eexists. reflexivity.
Qed.

(** StartHeartbeat succeeds exactly on a client that is open, has no
    heartbeat running, resolves a server URL and has a stored or configured
    token; otherwise it returns the error of the first guard that fails, in
    the order closed, already running, no server URL, no token, and changes
    neither the client nor the world. *)
Theorem StartHeartbeat_guards (opts0 : list HeartbeatOptions) (c : Client)
  (w : World) :
  let r := StartHeartbeat opts0 c w in
  (snd (snd r) = None
   <-> closed c = false
       /\ running (hb c) = false
       /\ resolveServerURL c <> ""
       /\ stored_or_configured c <> "")
  /\ (forall err,
         snd (snd r) = Some err ->
         fst r = (c, w)
         /\ fst (snd r) = None
         /\ err = (if closed c then ErrClientClosed
                   else if running (hb c) then ErrAlreadyRunning
                   else if is_empty (resolveServerURL c) then ErrNoServerURL
                   else ErrNoToken)).
Proof.
  cbv zeta. split; [apply StartHeartbeat_succeeds|].
  unfold StartHeartbeat.
  destruct (closed c); [intros err H; injection H as <-; auto|].
  destruct (running (hb c)); [intros err H; injection H as <-; auto|].
  destruct (is_empty (resolveServerURL c));
    [intros err H; injection H as <-; auto|].
  cbv zeta.
  destruct (is_empty (if is_empty (signedToken c) then cfg_token (cfg c)
                      else signedToken c));
    [intros err H; injection H as <-; auto | intros err H; discriminate].
Qed.

(** At most one heartbeat loop: a StartHeartbeat that succeeds marks the
    heartbeat running with a non-zero interval (the configured one, or 30
    seconds) and starts one loop, for the resolved server URL and the stored
    or configured token; until it is stopped every further StartHeartbeat
    fails with ErrAlreadyRunning and starts nothing; after StopHeartbeat it
    can be started again. *)
Theorem StartHeartbeat_once (opts0 : list HeartbeatOptions) (c : Client)
  (w : World) :
  snd (snd (StartHeartbeat opts0 c w)) = None ->
  let c' := fst (fst (StartHeartbeat opts0 c w)) in
  running (hb c') = true
  /\ interval (hb c')
     = (if cfg_heartbeatInterval (cfg c) =? 0 then 30 * Second
        else cfg_heartbeatInterval (cfg c))
  /\ interval (hb c') <> 0
  /\ w_goroutines (snd (fst (StartHeartbeat opts0 c w)))
     = go_heartbeatLoop (resolveServerURL c) (stored_or_configured c)
       :: w_goroutines w
  /\ (forall opts1 w1,
         StartHeartbeat opts1 c' w1
         = (c', w1, (None, Some ErrAlreadyRunning)))
  /\ (forall opts1 w1,
         snd (snd (StartHeartbeat opts1 (StopHeartbeat c') w1)) = None).
Proof.
  intros Hok. cbv zeta.
  destruct (proj1 (StartHeartbeat_succeeds opts0 c w) Hok)
    as (Hopen & Hrun & Hurl & Htok).
  destruct (StartHeartbeat_started opts0 c w Hok) as (o & Heq).
  rewrite Heq. cbn [fst snd].
  split; [reflexivity|]. split; [reflexivity|]. split.
  { cbn [hb set_hb interval].
    destruct (cfg_heartbeatInterval (cfg c) =? 0) eqn:Hz.
    - discriminate.
    - apply Z.eqb_neq in Hz. exact Hz. }
  split; [reflexivity|]. split.
  - intros opts1 w1. unfold StartHeartbeat. cbn [closed set_hb hb running].
    rewrite Hopen. reflexivity.
  - intros opts1 w1.
    apply (proj2 (StartHeartbeat_succeeds opts1 _ w1)).
    unfold StopHeartbeat, stored_or_configured, resolveServerURL in *.
    cbn [closed set_hb hb running negb cfg license signedToken].
    auto.
Qed.

(** Checkout on an open client always leaves the heartbeat stopped, also
    when it fails, and never changes the stored License or token.  It
    returns nil exactly when it emitted SeatReleased; every error it
    returns is ErrNoServerURL, ErrNoToken or an error of code
    ServerUnreachable, which errors.Is matches with ErrServerUnreachable,
    and then no event is emitted. *)
Theorem Checkout_spec (c : Client) (w : World) :
  closed c = false ->
  let c' := fst (fst (Checkout c w)) in
  running (hb c') = false
  /\ license c' = license c
  /\ signedToken c' = signedToken c
  /\ (snd (Checkout c w) = None ->
      c' = emitEvent {| ev_Type := EventSeatReleased;
                        ev_Message := "seat released";
                        ev_Data := DataNil |} (StopHeartbeat c))
  /\ (forall err,
         snd (Checkout c w) = Some err ->
         c' = StopHeartbeat c
         /\ (err = ErrNoServerURL
             \/ err = ErrNoToken
             \/ (error_Code err = Some ServerUnreachable
                 /\ errors_Is err ErrServerUnreachable = true))).
Proof.
  intros Hopen. cbv zeta.
  destruct (StopHeartbeat_fields c) as (Hr & _ & _ & Hl & Hs & _).
  unfold Checkout. rewrite Hopen. cbv zeta.
  destruct (is_empty (resolveServerURL (StopHeartbeat c))).
  { cbn [fst snd]. repeat (split; [assumption|]).
    split; [discriminate|]. intros err H. injection H as <-. auto. }
  destruct (is_empty (signedToken (StopHeartbeat c))).
  { cbn [fst snd]. repeat (split; [assumption|]).
    split; [discriminate|]. intros err H. injection H as <-. auto. }
  destruct (deleteJSON _ _ _ _ _ _) as [net [[statusCode err] resp]].
  destruct err as [cause|].
  { cbn [fst snd]. repeat (split; [assumption|]).
    split; [discriminate|]. intros err H. injection H as <-.
    split; [reflexivity|]. right. right. split; reflexivity. }
  destruct (negb (statusCode =? http_StatusOK)).
  { cbn [fst snd]. repeat (split; [assumption|]).
    split; [discriminate|]. intros err H. injection H as <-.
    split; [reflexivity|]. right. right. split; reflexivity. }
  cbn [fst snd].
  destruct (emitEvent_frame {| ev_Type := EventSeatReleased;
                               ev_Message := "seat released";
                               ev_Data := DataNil |} (StopHeartbeat c))
    as (_ & Hl' & Hs' & Hhb & _).
  rewrite Hhb, Hl', Hs'. repeat (split; [assumption|]).
  split; [reflexivity | discriminate].
Qed.

End ControlProperties.

(** ** Renewal, errors and the transport *)

Section RenewalProperties.
Context {P : Platform}.

(** Renew and RenewResult fail in the same cases with the same error.  An
    error is ErrClientClosed, ErrNoServerURL, ErrNoToken, in that order of
    the guards, or has the code RenewalFailed, which errors.Is matches with
    ErrRenewalDenied; with an error the client is left as it was and nothing
    is returned, and without one something is. *)
Theorem Renew_RenewResult_errors (c : Client) (w : World) :
  snd (snd (Renew c w)) = snd (snd (RenewResult c w))
  /\ (forall err,
         snd (snd (Renew c w)) = Some err ->
         fst (fst (Renew c w)) = c
         /\ fst (fst (RenewResult c w)) = c
         /\ fst (snd (Renew c w)) = None
         /\ fst (snd (RenewResult c w)) = None
         /\ (err = (if closed c then ErrClientClosed
                    else if is_empty (resolveServerURL c) then ErrNoServerURL
                    else ErrNoToken)
             \/ (error_Code err = Some RenewalFailed
                 /\ errors_Is err ErrRenewalDenied = true)))
  /\ (snd (snd (Renew c w)) = None ->
      fst (snd (Renew c w)) <> None /\ fst (snd (RenewResult c w)) <> None).
Proof.
  unfold Renew, RenewResult.
  destruct (closed c).
  { cbn [fst snd]. split; [reflexivity|]. split; [|discriminate].
    intros err H. injection H as <-. auto 10. }
  destruct (is_empty (resolveServerURL c)).
  { cbn [fst snd]. split; [reflexivity|]. split; [|discriminate].
    intros err H. injection H as <-. auto 10. }
  cbv zeta.
  destruct (is_empty (if is_empty (signedToken c) then cfg_token (cfg c)
                      else signedToken c)).
  { cbn [fst snd]. split; [reflexivity|]. split; [|discriminate].
    intros err H. injection H as <-. auto 10. }
  destruct (postJSON _ _ _ _ _ _) as [net [[statusCode err] result]].
  destruct err as [cause|].
  { cbn [fst snd]. split; [reflexivity|]. split; [|discriminate].
    intros err H. injection H as <-.
    repeat (split; [reflexivity|]). right. split; reflexivity. }
  destruct (negb (statusCode =? http_StatusOK)).
  { cbn [fst snd]. split; [reflexivity|]. split; [|discriminate].
    intros err H. injection H as <-.
    repeat (split; [reflexivity|]). right. split; reflexivity. }
  destruct (negb (is_empty (rr_SignedToken result))
            && negb (is_nil (cfg_publicKey (cfg c)))).
  - destruct (Validate [rr_SignedToken result] c (set_net net w))
      as [[c1 w1] [newLicense validateErr]].
    destruct (is_nil validateErr && Valid newLicense); cbn [fst snd];
      (split; [reflexivity|]); (split; [discriminate|]);
      intros _; split; discriminate.
  - cbn [fst snd]. split; [reflexivity|]. split; [discriminate|].
    intros _; split; discriminate.
Qed.

(** The errors of verifyToken under errors.Is: the invalid-signature error
    matches ErrInvalidSignature and not ErrTokenMalformed; every other
    error of verifyToken has the code LicenseDecodeError and matches
    ErrTokenMalformed. *)
Theorem verifyToken_error_Is (pubKey : bytes) (signedToken : string)
  (err : error) :
  verifyToken pubKey signedToken = inr err ->
  (error_Code err = Some InvalidLicenseSignature
   /\ errors_Is err ErrInvalidSignature = true
   /\ errors_Is err ErrTokenMalformed = false)
  \/ (error_Code err = Some LicenseDecodeError
      /\ errors_Is err ErrTokenMalformed = true).
Proof.
  unfold verifyToken.
  destruct (base64_StdEncoding_DecodeString signedToken) as [combined|e].
  2: { intros H. injection H as <-. right. split; reflexivity. }
  destruct (too_short combined).
  { intros H. injection H as <-. right. split; reflexivity. }
  destruct (negb _).
  { intros H. injection H as <-. left. repeat split; reflexivity. }
  destruct (json_Unmarshal_tokenPayload _) as [p|e]; [discriminate|].
  intros H. injection H as <-. right. split; reflexivity.
Qed.

(** A key that fails to decode is matched by none of the documented
    sentinels, ErrTokenMalformed included, as long as the base64 error
    below it is matched by none. *)
Theorem DecodePublicKey_error_unmatched (encoded : string) (err : error) :
  DecodePublicKey encoded = inr err ->
  (forall cause,
      base64_StdEncoding_DecodeString encoded = inr cause ->
      forall s, In s documented_sentinels -> errors_Is cause s = false) ->
  forall s, In s documented_sentinels -> errors_Is err s = false.
Proof.
  unfold DecodePublicKey. intros Hdec Hlib s Hs.
  destruct (base64_StdEncoding_DecodeString encoded) as [decoded|cause].
  - destruct (negb _); [|discriminate]. injection Hdec as <-.
    repeat (destruct Hs as [<- | Hs]; [reflexivity|]). contradiction.
  - injection Hdec as <-. specialize (Hlib cause eq_refl).
    repeat (destruct Hs as [<- | Hs];
            [cbn [errors_Is]; rewrite Hlib;
             [reflexivity | cbv; tauto]|]).
    contradiction.
Qed.

(** The status and the error postJSON and deleteJSON return: a nil error
    means a response was received and read, the status is that response's,
    and the result is its decoded body, or is left as it was when the body
    is empty. *)
Theorem sendJSON_success (R : Type) (json_Unmarshal : bytes -> R + error)
  (method : Method) (h : httpClient) (url : string) (body : JSONBody)
  (result res : R) (net net' : Net) (statusCode : Z) :
  sendJSON json_Unmarshal method h url body result net
  = (net', (statusCode, None, res)) ->
  exists data resp respBody,
    json_Marshal_body body = inl data
    /\ http_Client_Do (client h)
         {| req_Method := method; req_URL := url; req_Body := data;
            req_ContentType := "application/json";
            req_UserAgent := userAgent h |} net
       = (net', inl resp)
    /\ resp_Body resp = inl respBody
    /\ statusCode = resp_StatusCode resp
    /\ ((respBody = [] /\ res = result)
        \/ (respBody <> [] /\ json_Unmarshal respBody = inl res)).
Proof.
  unfold sendJSON.
  destruct (json_Marshal_body body) as [data|e]; [|discriminate].
  destruct (http_NewRequest method url data) as [u|e]; [|discriminate].
  destruct (http_Client_Do _ _ _) as [net1 [resp|e]] eqn:Hdo;
    [|discriminate].
  destruct (resp_Body resp) as [respBody|e] eqn:Hbody; [|discriminate].
  destruct respBody as [|b rest]; cbn [List.length Nat.ltb Nat.leb].
  - intros H. injection H as <- <- <-.
    exists data, resp, []. auto 10.
  - destruct (json_Unmarshal (b :: rest)) as [decoded|e] eqn:Hun;
      [|discriminate].
    intros H. injection H as <- <- <-.
    exists data, resp, (b :: rest).
    repeat (split; [auto|]). right. split; [discriminate | exact Hun].
Qed.

End RenewalProperties.

(** ** The key option and the heartbeat after a validation *)

Section MoreOptionProperties.
Context {P : Platform}.

(** A key string that decodes is the client's verification key: when
    WithPublicKey is given one and no later option sets a key, NewClient's
    client has the decoded 32 bytes as its key, and no Validate on it
    returns ErrNoPublicKey. *)
Theorem WithPublicKey_sets_key (key : string) (pubKey : bytes)
  (before after : list Option) :
  DecodePublicKey key = inl pubKey ->
  Forall keeps_publicKey after ->
  let c := fst (NewClient (before ++ [WithPublicKey key] ++ after)) in
  cfg_publicKey (cfg c) = Some pubKey
  /\ List.length pubKey = ed25519_PublicKeySize
  /\ (forall args w, snd (snd (Validate args c w)) <> Some ErrNoPublicKey).
Proof.
  intros Hdec Hafter. cbv zeta.
  destruct (NewClient_fields (before ++ [WithPublicKey key] ++ after)%list)
    as (_ & Hcfg & Hopen & _).
  set (c := fst (NewClient (before ++ [WithPublicKey key] ++ after))) in *.
  assert (Hkey : cfg_publicKey (cfg c) = Some pubKey).
  { rewrite Hcfg, !fold_left_app. rewrite (fold_keeps_publicKey _ Hafter).
    cbn [fold_left]. unfold WithPublicKey. rewrite Hdec. reflexivity. }
  split; [exact Hkey|]. split.
  { pose proof (DecodePublicKey_inv key) as Hlen.
    rewrite Hdec in Hlen. apply Hlen. }
  intros args w. unfold Validate. rewrite Hopen, Hkey.
  destruct (is_empty (Validate_token args c)); [discriminate|].
  destruct (verifyToken pubKey (Validate_token args c)) as [payload|err]
    eqn:Hver.
  - rewrite Validate_commit_eq. discriminate.
  - destruct (cache_load (cache c) (w_fs w)); [discriminate|].
    cbn [snd]. intros H. injection H as ->.
    destruct (verifyToken_error_code pubKey (Validate_token args c) Hver)
      as [Hc | Hc]; discriminate.
Qed.

Lemma committed_client_serverURL (payload : tokenPayload) (token : string)
  (c : Client) (now : Time) :
  cfg_serverURL (cfg (committed_client payload token c now))
  = if is_empty (cfg_serverURL (cfg c)) then p_ServerURL payload
    else cfg_serverURL (cfg c).
Proof.
  unfold committed_client.
  destruct (checked_license_fields payload token now) as (_ & Hs & _).
  rewrite Hs.
  destruct (is_empty (cfg_serverURL (cfg c))) eqn:Hc;
    destruct (is_empty (p_ServerURL payload)) eqn:Hp; cbn; try reflexivity.
  apply is_empty_true in Hc, Hp. congruence.
Qed.

(** After a verifying Validate of an explicit token, with a server URL
    configured or carried by the payload and no heartbeat running,
    StartHeartbeat succeeds, and its loop gets the validated token and the
    configured URL, or the payload's when none is configured. *)
Theorem Validate_then_StartHeartbeat (token : string) (c : Client)
  (w w' : World) (publicKey : bytes) (payload : tokenPayload)
  (opts0 : list HeartbeatOptions) :
  closed c = false ->
  token <> "" ->
  cfg_publicKey (cfg c) = Some publicKey ->
  verifyToken publicKey token = inl payload ->
  running (hb c) = false ->
  cfg_serverURL (cfg c) <> "" \/ p_ServerURL payload <> "" ->
  let c1 := fst (fst (Validate [token] c w)) in
  let url := if is_empty (cfg_serverURL (cfg c)) then p_ServerURL payload
             else cfg_serverURL (cfg c) in
  snd (StartHeartbeat opts0 c1 w') = (Some tt, None)
  /\ w_goroutines (snd (fst (StartHeartbeat opts0 c1 w')))
     = go_heartbeatLoop url token :: w_goroutines w'.
Proof.
  intros Hopen Hne Hkey Hver Hrun Hurl. cbv zeta.
  assert (Ht : Validate_token [token] c = token)
    by (apply Validate_token_explicit; exact Hne).
  assert (Hne1 : Validate_token [token] c <> "") by (rewrite Ht; exact Hne).
  assert (Hver1 : verifyToken publicKey (Validate_token [token] c)
                  = inl payload) by (rewrite Ht; exact Hver).
  destruct (Validate_commit_license [token] c w Hopen Hne1 Hkey Hver1)
    as (_ & Hc1 & _).
  rewrite Hc1, Ht.
  set (c1 := committed_client payload token c (w_clock w (w_reads w))).
  destruct (committed_client_fields payload token c (w_clock w (w_reads w)))
    as (_ & Hs & _ & Hcl & _ & Hhb & _).
  fold c1 in Hs, Hcl, Hhb.
  pose proof (committed_client_serverURL payload token c
                (w_clock w (w_reads w))) as Hsu.
  fold c1 in Hsu.
  set (url := if is_empty (cfg_serverURL (cfg c)) then p_ServerURL payload
              else cfg_serverURL (cfg c)) in *.
  assert (Hurl1 : url <> "").
  { unfold url. destruct (is_empty (cfg_serverURL (cfg c))) eqn:He.
    - apply is_empty_true in He. destruct Hurl; congruence.
    - apply is_empty_false in He. exact He. }
  assert (Hres : resolveServerURL c1 = url).
  { unfold resolveServerURL. rewrite Hsu.
    apply is_empty_false in Hurl1. rewrite Hurl1. reflexivity. }
  assert (Htok : stored_or_configured c1 = token).
  { unfold stored_or_configured. rewrite Hs.
    apply is_empty_false in Hne. rewrite Hne. reflexivity. }
  assert (Hok : snd (snd (StartHeartbeat opts0 c1 w')) = None).
  { apply (proj2 (StartHeartbeat_succeeds opts0 c1 w')).
    rewrite Hres, Htok, Hcl, Hhb. auto. }
  assert (Hgo : w_goroutines (snd (fst (StartHeartbeat opts0 c1 w')))
                = go_heartbeatLoop (resolveServerURL c1)
                    (stored_or_configured c1) :: w_goroutines w').
  { destruct (StartHeartbeat_started opts0 c1 w' Hok) as (o & Heq).
    rewrite Heq. reflexivity. }
  rewrite Hres, Htok in Hgo. split; [|exact Hgo].
  unfold StartHeartbeat in *. rewrite Hcl, Hopen, Hhb, Hrun in *.
  rewrite Hres in *. apply is_empty_false in Hurl1. rewrite Hurl1 in *.
  cbv zeta in *. unfold stored_or_configured in Htok. rewrite Htok in *.
  apply is_empty_false in Hne. rewrite Hne in *. reflexivity.
Qed.

End MoreOptionProperties.

(** * The further properties on the sample platform *)

Section MoreExamples.
Import Sample.

Ltac evaluate := vm_compute; first [reflexivity | discriminate].

Lemma Validate_valid_iff_witness :
  let w := world ten_hours [] [] in
  Valid (fst (snd (Validate (P:=platform) [expiring_token] keyed_client w)))
  = true
  /\ Valid (fst (snd (Validate (P:=platform) [expired_token] keyed_client w)))
     <> true.
Proof.
  cbv zeta. set (w := world ten_hours [] []).
  assert (H1 : closed keyed_client = false) by evaluate.
  assert (H2 : Validate_token [expiring_token] keyed_client <> "")
    by evaluate.
  assert (H2' : Validate_token [expired_token] keyed_client <> "")
    by evaluate.
  assert (H3 : cfg_publicKey (cfg keyed_client) = Some key) by evaluate.
  assert (H4 : verifyToken (P:=platform) key
                 (Validate_token [expiring_token] keyed_client)
               = inl (snd expiring)) by evaluate.
  assert (H4' : verifyToken (P:=platform) key
                  (Validate_token [expired_token] keyed_client)
                = inl (snd expired)) by evaluate.
  pose proof (@Validate_valid_iff platform [expiring_token] keyed_client w
                key (snd expiring) H1 H2 H3 H4) as V.
  pose proof (@Validate_valid_iff platform [expired_token] keyed_client w
                key (snd expired) H1 H2' H3 H4') as V'.
  cbv zeta in V, V'. split.
  - apply (proj2 (proj2 V)). split.
    + left. evaluate.
    + right. evaluate.
  - intros Hv. apply (proj1 (proj2 V')) in Hv.
    destruct Hv as [_ [Hz | Hle]].
    + vm_compute in Hz. discriminate.
    + vm_compute in Hle. apply Hle. reflexivity.
Defined.

Lemma IsExpired_then_invalid_witness :
  let w := world ten_hours [] [] in
  Valid (fst (snd (Validate (P:=platform) [expired_token] keyed_client w)))
  = false.
Proof.
  cbv zeta. set (w := world ten_hours [] []).
  assert (H1 : closed keyed_client = false) by evaluate.
  assert (H2 : Validate_token [expired_token] keyed_client <> "")
    by evaluate.
  assert (H3 : cfg_publicKey (cfg keyed_client) = Some key) by evaluate.
  assert (H4 : verifyToken (P:=platform) key
                 (Validate_token [expired_token] keyed_client)
               = inl (snd expired)) by evaluate.
  assert (H5 : fst (IsExpired (P:=platform)
                      (Some (fst (snd (Validate (P:=platform)
                                         [expired_token] keyed_client
                                         (world [0] [] [])))))
                      (world [2 * Second] [] [])) = true) by evaluate.
  assert (H6 : w_clock (world [2 * Second] [] [])
                 (w_reads (world [2 * Second] [] []))
               <= w_clock w (w_reads w)) by evaluate.
  exact (@IsExpired_then_invalid platform [expired_token] keyed_client
           (world [0] [] []) (world [2 * Second] [] []) w key (snd expired)
           H1 H2 H3 H4 H5 H6).
Defined.

Lemma Validate_twice_witness :
  let r1 := Validate (P:=platform) [expiring_token] keyed_client
              (world ten_hours [] []) in
  let r2 := Validate (P:=platform) [expiring_token] (fst (fst r1))
              (world [72 * Hour] [] []) in
  fst (snd r2) = set_Valid (Valid (fst (snd r2))) (fst (snd r1))
  /\ signedToken (fst (fst r2)) = expiring_token.
Proof.
  cbv zeta.
  assert (H1 : closed keyed_client = false) by evaluate.
  assert (H2 : expiring_token <> "") by evaluate.
  assert (H3 : cfg_publicKey (cfg keyed_client) = Some key) by evaluate.
  assert (H4 : verifyToken (P:=platform) key expiring_token
               = inl (snd expiring)) by evaluate.
  pose proof (@Validate_twice platform expiring_token keyed_client
                (world ten_hours [] []) (world [72 * Hour] [] []) key
                (snd expiring) H1 H2 H3 H4) as T.
  cbv zeta in T. destruct T as (_ & _ & T3 & T4 & _).
  split; [exact T3 | exact T4].
Defined.

Lemma CheckLicense_is_Validate_witness :
  let w := world ten_hours [] [] in
  snd (CheckLicense (P:=platform) key_b64 expiring_token w)
  = snd (Validate (P:=platform) [expiring_token]
           (fst (NewClient (P:=platform) [WithPublicKey (P:=platform) key_b64]))
           w).
Proof.
  cbv zeta.
  assert (H1 : key_b64 <> "") by evaluate.
  assert (H2 : expiring_token <> "") by evaluate.
  assert (H3 : DecodePublicKey (P:=platform) key_b64 = inl key) by evaluate.
  exact (proj1 (@CheckLicense_is_Validate platform key_b64 expiring_token
                  (world ten_hours [] []) key H1 H2 H3)).
Defined.

Lemma CheckLicenseLegacy_is_Validate_witness :
  let w := world ten_hours [] [] in
  snd (CheckLicenseLegacy (P:=platform) expired_token (Some key) "MyApp"
         "MyCompany" w)
  = snd (Validate (P:=platform) [expired_token]
           (fst (NewClient (P:=platform)
                   [WithPublicKeyRaw (Some key);
                    WithAppInfo "MyApp" "MyCompany"]))
           w).
Proof.
  cbv zeta.
  assert (H1 : expired_token <> "") by evaluate.
  exact (proj1 (@CheckLicenseLegacy_is_Validate platform expired_token key
                  "MyApp" "MyCompany" (world ten_hours [] []) H1)).
Defined.

Lemma CheckFeature_verified_witness :
  snd (CheckFeature (P:=platform) key_b64 expired_token "PRO"
         (world ten_hours [] []))
  = (false, None).
Proof.
  assert (H1 : key_b64 <> "") by evaluate.
  assert (H2 : expired_token <> "") by evaluate.
  assert (H3 : DecodePublicKey (P:=platform) key_b64 = inl key) by evaluate.
  assert (H4 : verifyToken (P:=platform) key expired_token
               = inl (snd expired)) by evaluate.
  pose proof (@CheckFeature_verified platform key_b64 expired_token "PRO"
                (world ten_hours [] []) key (snd expired) H1 H2 H3 H4)
    as [Herr Hiff].
  destruct (CheckFeature (P:=platform) key_b64 expired_token "PRO"
              (world ten_hours [] [])) as [w' [b e]].
  cbn [fst snd] in *. subst e. destruct b; [|reflexivity].
  destruct (proj1 Hiff eq_refl) as (features & Hf & _).
  vm_compute in Hf. discriminate.
Defined.

Lemma cache_round_trip_witness :
  cache_load (P:=platform) (cache keyed_client)
    (fst (cache_save (P:=platform) (cache keyed_client) cached_license []))
  = inl cached_license.
Proof.
  set (data := list_byte_of_string cached_doc).
  assert (H1 : disabled (cache keyed_client) = false) by evaluate.
  assert (H2 : dir (cache keyed_client) <> "") by evaluate.
  assert (H3 : os_MkdirAll (Platform:=platform) (dir (cache keyed_client))
                 [] = ([], None)) by evaluate.
  assert (H4 : json_Marshal_License (Platform:=platform) cached_license
               = inl data) by evaluate.
  assert (H5 : os_WriteFile (Platform:=platform)
                 (filepath_Join (Platform:=platform)
                    [dir (cache keyed_client); cacheFileName]) data []
               = ([(cache_path, data)], None)) by evaluate.
  assert (H6 : os_ReadFile (Platform:=platform)
                 (filepath_Join (Platform:=platform)
                    [dir (cache keyed_client); cacheFileName])
                 [(cache_path, data)] = inl data) by evaluate.
  assert (H7 : json_Unmarshal_License (Platform:=platform) data
               = inl cached_license) by evaluate.
  exact (proj2 (@cache_round_trip platform (cache keyed_client)
                  cached_license [] [] [(cache_path, data)] data
                  H1 H2 H3 H4 H5 H6 H7)).
Defined.

Lemma WithoutCache_no_files_witness :
  let opts := [WithPublicKey (P:=platform) key_b64; WithoutCache] in
  let w := world ten_hours cached_files [] in
  w_fs (snd (fst (Validate (P:=platform) [expiring_token]
                    (fst (NewClient (P:=platform) opts)) w)))
  = w_fs w
  /\ ValidateFromCache (P:=platform) (fst (NewClient (P:=platform) opts)) w
     = (fst (NewClient (P:=platform) opts), w,
        (None, Some (os_ErrNotExist (Platform:=platform)))).
Proof.
  cbv zeta.
  assert (H1 : cfg_disableCache
                 (cfg (fst (NewClient (P:=platform)
                              [WithPublicKey (P:=platform) key_b64;
                               WithoutCache]))) = true) by evaluate.
  pose proof (@WithoutCache_no_files platform
                [WithPublicKey (P:=platform) key_b64; WithoutCache]
                (world ten_hours cached_files []) H1) as N.
  cbv zeta in N. destruct N as (N1 & _ & N3).
  split; [exact (N1 [expiring_token]) | exact N3].
Defined.

Lemma Validate_offline_fallback_witness :
  let w1 := world ten_hours [] [] in
  let r1 := Validate (P:=platform) [perpetual_token] keyed_client w1 in
  let w2 := world [20 * Hour] (w_fs (snd (fst r1))) [] in
  snd (Validate (P:=platform) [forged_token] (fst (fst r1)) w2)
  = (fst (snd r1), None).
Proof.
  cbv zeta.
  set (w1 := world ten_hours [] []).
  set (data := list_byte_of_string cached_doc).
  assert (H1 : closed keyed_client = false) by evaluate.
  assert (H2 : perpetual_token <> "") by evaluate.
  assert (H3 : forged_token <> "") by evaluate.
  assert (H4 : cfg_publicKey (cfg keyed_client) = Some key) by evaluate.
  assert (H5 : verifyToken (P:=platform) key perpetual_token
               = inl (snd perpetual)) by evaluate.
  assert (H6 : verifyToken (P:=platform) key forged_token
               = inr bad_signature) by evaluate.
  assert (H7 : disabled (cache keyed_client) = false) by evaluate.
  assert (H8 : dir (cache keyed_client) <> "") by evaluate.
  assert (H9 : os_MkdirAll (Platform:=platform) (dir (cache keyed_client))
                 (w_fs w1) = ([], None)) by evaluate.
  assert (H10 : json_Marshal_License (Platform:=platform)
                  (fst (snd (Validate (P:=platform) [perpetual_token]
                               keyed_client w1)))
                = inl data) by evaluate.
  assert (H11 : os_WriteFile (Platform:=platform)
                  (filepath_Join (Platform:=platform)
                     [dir (cache keyed_client); cacheFileName]) data []
                = ([(cache_path, data)], None)) by evaluate.
  assert (H12 : os_ReadFile (Platform:=platform)
                  (filepath_Join (Platform:=platform)
                     [dir (cache keyed_client); cacheFileName])
                  [(cache_path, data)] = inl data) by evaluate.
  assert (H13 : json_Unmarshal_License (Platform:=platform) data
                = inl (fst (snd (Validate (P:=platform) [perpetual_token]
                                   keyed_client w1)))) by evaluate.
  exact (@Validate_offline_fallback platform perpetual_token forged_token
           keyed_client w1
           (world [20 * Hour]
              (w_fs (snd (fst (Validate (P:=platform) [perpetual_token]
                                 keyed_client w1)))) [])
           key (snd perpetual) bad_signature [] [(cache_path, data)] data
           H1 H2 H3 H4 H5 H6 H7 H8 H9 H10 H11 H12 H13 eq_refl).
Defined.

Lemma StartHeartbeat_once_witness :
  let w := world ten_hours [] [] in
  let c' := fst (fst (StartHeartbeat (P:=platform) [] keyless_client w)) in
  running (hb c') = true
  /\ interval (hb c') = 30 * Second
  /\ StartHeartbeat (P:=platform) [] c' w
     = (c', w, (None, Some ErrAlreadyRunning)).
Proof.
  cbv zeta. set (w := world ten_hours [] []).
  assert (H1 : snd (snd (StartHeartbeat (P:=platform) [] keyless_client w))
               = None) by evaluate.
  pose proof (@StartHeartbeat_once platform [] keyless_client w H1) as S.
  cbv zeta in S. destruct S as (S1 & S2 & _ & _ & S5 & _).
  split; [exact S1|]. split; [|exact (S5 [] w)].
  rewrite S2. evaluate.
Defined.

Lemma Checkout_spec_witness :
  let released := world ten_hours [] [reply 200 (jdoc [("status", jstr "ok")])] in
  let offline := world ten_hours [] [] in
  snd (Checkout (P:=platform) keyless_client released) = None
  /\ Events (fst (fst (Checkout (P:=platform) keyless_client released)))
     = [{| ev_Type := EventSeatReleased; ev_Message := "seat released";
           ev_Data := DataNil |}]
  /\ running (hb (fst (fst (Checkout (P:=platform) keyless_client offline))))
     = false
  /\ Events (fst (fst (Checkout (P:=platform) keyless_client offline))) = [].
Proof.
  cbv zeta.
  assert (H1 : closed keyless_client = false) by evaluate.
  assert (H2 : snd (Checkout (P:=platform) keyless_client
                      (world ten_hours []
                         [reply 200 (jdoc [("status", jstr "ok")])])) = None)
    by evaluate.
  assert (H3 : snd (Checkout (P:=platform) keyless_client
                      (world ten_hours [] []))
               = Some (ValidationError ServerUnreachable
                         "checkout request failed"
                         (Some (lib_error "dial tcp: connection refused"))))
    by evaluate.
  pose proof (@Checkout_spec platform keyless_client
                (world ten_hours [] [reply 200 (jdoc [("status", jstr "ok")])])
                H1) as A.
  pose proof (@Checkout_spec platform keyless_client (world ten_hours [] [])
                H1) as B.
  cbv zeta in A, B.
  destruct A as (_ & _ & _ & A4 & _). destruct B as (B1 & _ & _ & _ & B5).
  split; [exact H2|]. split; [rewrite (A4 H2); evaluate|].
  split; [exact B1|]. rewrite (proj1 (B5 _ H3)). evaluate.
Defined.

Lemma verifyToken_error_Is_witness :
  errors_Is bad_signature ErrInvalidSignature = true
  /\ errors_Is bad_signature ErrTokenMalformed = false.
Proof.
  assert (H1 : verifyToken (P:=platform) key forged_token
               = inr bad_signature) by evaluate.
  destruct (@verifyToken_error_Is platform key forged_token bad_signature H1)
    as [(_ & Hs & Hm) | (Hc & _)].
  - split; [exact Hs | exact Hm].
  - vm_compute in Hc. discriminate.
Defined.

Lemma DecodePublicKey_error_unmatched_witness :
  let err :=
    ValidationError PubKeyDecodeError "failed to base64-decode public key"
      (Some (lib_error "illegal base64 data")) in
  DecodePublicKey (P:=platform) "not base64!" = inr err
  /\ errors_Is err ErrTokenMalformed = false
  /\ errors_Is err ErrInvalidSignature = false.
Proof.
  cbv zeta.
  assert (H1 : DecodePublicKey (P:=platform) "not base64!"
               = inr (ValidationError PubKeyDecodeError
                        "failed to base64-decode public key"
                        (Some (lib_error "illegal base64 data"))))
    by evaluate.
  assert (H2 : forall cause,
             base64_StdEncoding_DecodeString (Platform:=platform)
               "not base64!" = inr cause ->
             forall s, In s documented_sentinels ->
                       errors_Is cause s = false).
  { intros cause Hc. vm_compute in Hc. injection Hc as <-.
    intros s Hs. reflexivity. }
  pose proof (@DecodePublicKey_error_unmatched platform "not base64!" _
                H1 H2) as U.
  split; [exact H1|]. split.
  - apply U. right. left. reflexivity.
  - apply U. left. reflexivity.
Defined.

Lemma sendJSON_success_witness :
  exists data resp respBody,
    json_Marshal_body (Platform:=platform)
      (heartbeat_body expiring_token (opts (hb keyed_client))) = inl data
    /\ resp_Body resp = inl respBody
    /\ resp_StatusCode resp = 429
    /\ json_Unmarshal_HeartbeatStatus (Platform:=platform) respBody
       = inl (snd (status_of 0)).
Proof.
  assert (H1 : sendJSON (P:=platform)
                 (json_Unmarshal_HeartbeatStatus (Platform:=platform))
                 MethodPost (http keyed_client)
                 "https://license.example/api/v1/concurrency/heartbeat"
                 (heartbeat_body expiring_token (opts (hb keyed_client)))
                 HeartbeatStatus_zero [reply 429 (fst (status_of 0))]
               = ([], (429, None, snd (status_of 0)))) by evaluate.
  destruct (@sendJSON_success platform _ _ _ _ _ _ _ _ _ _ _ H1)
    as (data & resp & respBody & D1 & _ & D3 & D4 & D5).
  exists data, resp, respBody.
  split; [exact D1|]. split; [exact D3|]. split; [symmetry; exact D4|].
  destruct D5 as [[Hnil Hres] | [_ Hun]]; [|exact Hun].
  vm_compute in Hres. discriminate.
Defined.

Lemma WithPublicKey_sets_key_witness :
  let c := fst (NewClient (P:=platform)
                  ([WithToken expired_token]
                   ++ [WithPublicKey (P:=platform) key_b64]
                   ++ [WithoutCache])) in
  cfg_publicKey (cfg c) = Some key
  /\ List.length key = ed25519_PublicKeySize.
Proof.
  cbv zeta.
  assert (H1 : DecodePublicKey (P:=platform) key_b64 = inl key) by evaluate.
  assert (H2 : Forall keeps_publicKey [WithoutCache])
    by (constructor; [intros cfg0; reflexivity | constructor]).
  pose proof (@WithPublicKey_sets_key platform key_b64 key
                [WithToken expired_token] [WithoutCache] H1 H2) as K.
  cbv zeta in K. destruct K as (K1 & K2 & _).
  split; [exact K1 | exact K2].
Defined.

Lemma Validate_then_StartHeartbeat_witness :
  let w := world ten_hours [] [] in
  let c1 := fst (fst (Validate (P:=platform) [expiring_token] keyed_client w)) in
  snd (StartHeartbeat (P:=platform) [] c1 w) = (Some tt, None)
  /\ w_goroutines (snd (fst (StartHeartbeat (P:=platform) [] c1 w)))
     = go_heartbeatLoop
         (if is_empty (cfg_serverURL (cfg keyed_client))
          then p_ServerURL (snd expiring)
          else cfg_serverURL (cfg keyed_client))
         expiring_token
       :: w_goroutines w.
Proof.
  cbv zeta.
  assert (H1 : closed keyed_client = false) by evaluate.
  assert (H2 : expiring_token <> "") by evaluate.
  assert (H3 : cfg_publicKey (cfg keyed_client) = Some key) by evaluate.
  assert (H4 : verifyToken (P:=platform) key expiring_token
               = inl (snd expiring)) by evaluate.
  assert (H5 : running (hb keyed_client) = false) by evaluate.
  assert (H6 : cfg_serverURL (cfg keyed_client) <> ""
               \/ p_ServerURL (snd expiring) <> "")
    by (right; evaluate).
  exact (@Validate_then_StartHeartbeat platform expiring_token keyed_client
           (world ten_hours [] []) (world ten_hours [] []) key (snd expiring)
           [] H1 H2 H3 H4 H5 H6).
Defined.

End MoreExamples.
